(** * Chatham report generator: retrieval protocols, flattener, exporter

    A shallow embedding of the three report pipelines of the repository
    ([Reports/Debt_report.py], [Reports/payment_report.py],
    [Reports/valuation_report.py], [Reports/queuing_report.py]), of its
    logging helpers ([utils/logger.py]) and of its orchestrator
    ([main.py]), together with the properties stated about them.

    Layout: the XML flattener first (pure), then the effect model shared by
    the pipelines (HTTP oracle, clock, disk, event log, exceptions), then one
    module per pipeline, the logging helpers and the orchestrator, then the
    theorems. *)

From Stdlib Require Import ZArith String Ascii List Lia.
From stdpp Require Import gmap strings list fin_maps pretty.

Open Scope string_scope.
Open Scope list_scope.
Open Scope Z_scope.

(* ===================================================================== *)
(** * 1. The tree flattener ([flatten_xml], Debt_report.py lines 54-62)     *)
(* ===================================================================== *)

Module Xml.

(** An [xml.etree.ElementTree.Element]: a tag (namespace-qualified tags are
    written ["{uri}local"]), an optional text and the child elements in
    document order.  Iterating over an element yields its children and
    [len(element)] is their number. *)
#[warnings="-register-all"]
Inductive Element : Type :=
  Elem (tag : string) (text : option string) (children : list Element).

Definition tag (e : Element) : string :=
  match e with Elem t _ _ => t end.
Definition text (e : Element) : option string :=
  match e with Elem _ x _ => x end.
Definition children (e : Element) : list Element :=
  match e with Elem _ _ cs => cs end.

(** Python's [sep in s] for a one-character [sep]. *)
Fixpoint contains (sep : ascii) (s : string) : bool :=
  match s with
  | EmptyString => false
  | String c s' => if Ascii.eqb c sep then true else contains sep s'
  end.

(** Python's [s.split(sep)] for a one-character [sep]: the pieces between
    all the occurrences of [sep], empty pieces included. *)
Fixpoint split (sep : ascii) (s : string) : list string :=
  match s with
  | EmptyString => [EmptyString]
  | String c s' =>
      if Ascii.eqb c sep then EmptyString :: split sep s'
      else match split sep s' with
           | piece :: pieces => String c piece :: pieces
           | [] => [String c EmptyString]
           end
  end.

Definition rbrace : ascii := "}"%char.

(** [child.tag.split('}')[1] if '}' in child.tag else child.tag].
    The index 1 is in range whenever the test holds
    ([split_contains_length] below), so the default of [nth] is never
    returned and no [IndexError] can arise. *)
Definition local_tag (t : string) : string :=
  if contains rbrace t then nth 1 (split rbrace t) EmptyString else t.

(** [len(child)] used as a condition. *)
Definition has_children (e : Element) : bool :=
  negb (Nat.eqb (length (children e)) 0).

(** [flatten_xml(element, parent_tag)].  [data] is the dictionary being
    built; [data.update(d)] is the union in which [d] wins, [data[k] = v]
    is insertion.  The dictionary is compared as a mapping: the insertion
    order Python keeps is not part of the model. *)
Fixpoint flatten_xml (element : Element) (parent_tag : string)
  : gmap string (option string) :=
  fold_left
    (fun data child =>
       let tag := local_tag (tag child) in
       if has_children child
       then flatten_xml child tag ∪ data
       else <[tag := text child]> data)
    (children element) ∅.

(** What one child contributes to its parent's dictionary. *)
Definition fields (child : Element) : gmap string (option string) :=
  if has_children child
  then flatten_xml child (local_tag (tag child))
  else {[ local_tag (tag child) := text child ]}.

(** One iteration of the loop of [flatten_xml], seen from outside: the
    child's fields are merged over the dictionary built so far. *)
Definition step (data : gmap string (option string)) (child : Element)
  : gmap string (option string) :=
  fields child ∪ data.

(** The dictionary comprehension [{key(c): c.text for c in cs}], where the
    key of a child is its tag without the namespace part: later entries
    replace earlier ones with the same key. *)
Definition dict_of_children (cs : list Element) : gmap string (option string) :=
  fold_left (fun d c => <[local_tag (tag c) := text c]> d) cs ∅.

(** [data[k] = v] for a pair [(k, v)]. *)
Definition put (d : gmap string (option string)) (kv : string * option string)
  : gmap string (option string) :=
  <[kv.1 := kv.2]> d.

(** The leaf fields below an element, in document order. *)
Fixpoint leaves (e : Element) : list (string * option string) :=
  flat_map
    (fun child =>
       if has_children child then leaves child
       else [(local_tag (tag child), text child)])
    (children e).

(** The tag ElementTree gives an element [local] in namespace [ns]. *)
Definition qualified (ns local : string) : string :=
  "{" +:+ ns +:+ "}" +:+ local.

(** Namespace stripping: a leaf tagged ["{ns}name"] is flattened to the
    key [name]. *)
Definition strips_namespace (ns name : string) : Prop :=
  forall t x y p,
    flatten_xml (Elem t x [Elem (qualified ns name) y []]) p !! name = Some y.

(** The dictionary comprehension [{c.tag: c.text for c in cs}] on the tags
    as they are. *)
Definition dict_of_tags (cs : list Element) : gmap string (option string) :=
  fold_left (fun d c => <[tag c := text c]> d) cs ∅.

(** A loan with a repeated field name, for examples. *)
Definition loan_with_terms : Element :=
  Elem "Loan" None
    [Elem "{u}Id" (Some "7") [];
     Elem "{u}Terms" None
       [Elem "{u}Rate" (Some "1.5") []; Elem "{u}Id" (Some "9") []];
     Elem "Note" None []].

(** A flat loan, for examples. *)
Definition flat_loan : Element :=
  Elem "Loan" None
    [Elem "Amount" (Some "1000") []; Elem "Currency" (Some "USD") []].

End Xml.

(* ===================================================================== *)
(** * 2. The effect model shared by the pipelines                          *)
(* ===================================================================== *)

Module Effects.

(** A Python exception object derived from [Exception]: its class name and
    [str(e)].  Signals outside [Exception] ([KeyboardInterrupt],
    [SystemExit]) are not exceptions of a pipeline run and are not
    modelled. *)
Record Exn := mkExn { exn_class : string; str : string }.

(** ** Requests *)

Inductive Method := GET | POST | PUT.

(** Dates are computed from the run day; only their relation to it is kept. *)
Inductive DateExpr :=
  | Today
  | DaysFromToday (d : Z)
  | YearsFromToday (y : Z)
  | PrevBusinessDay.

Inductive Param := PDate (d : DateExpr) | PInt (z : Z).

Inductive Body :=
  | NoBody
  | TemplateBody (Id Type_ : string) (Fields : list string)
  | QueryBody (data : list (string * Param)).

Record Request := mkRequest {
  method : Method;
  url : string;
  headers : list (string * string);
  params : list (string * Param);
  body : Body
}.

Record Response := mkResponse { status_code : Z; text : string }.

(** ** Decoded payloads *)

(** A spreadsheet / JSON scalar. *)
Inductive Cell :=
  | CNull
  | CStr (s : string)
  | CNum (z : Z)
  | CTime (t : Z).

(** One element of a response's ["Items"] list: a flat JSON object. *)
Abbreviation Item := (gmap string Cell).

Record PagingInfo := mkPaging { TotalRecords : option Z }.

(** The decoded JSON object of a response, seen through the keys the
    program reads; [None] is an absent key. *)
Record Json := mkJson {
  JobId : option string;
  Items : option (list Item);
  Paging : option PagingInfo
}.

(** ** Data frames *)

(** A [pandas.DataFrame]: the column labels and the rows.  A row maps a
    column to its cell; a column missing from a row is an empty cell. *)
Record DataFrame := mkDataFrame {
  columns : list string;
  rows : list (gmap string Cell)
}.

(** [pd.DataFrame(records)] for a list of dictionaries: the columns are the
    union of the keys.  (The model fixes no order among them.) *)
Definition DataFrame_of (records : list (gmap string Cell)) : DataFrame :=
  {| columns := elements (⋃ (dom <$> records) : gset string);
     rows := records |}.

(** [len(df)] *)
Definition len_df (df : DataFrame) : Z := Z.of_nat (length (rows df)).

(** ** The world: everything outside the process *)

Record World := mkWorld {
  (** [chatham_api["api_token"]] and [chatham_api["api_endpoint"]] *)
  api_token : string;
  api_endpoint : string;
  (** the answer to the [n]-th HTTP call of the run (from 0), which may be
      an exception raised by [requests] *)
  http : nat -> Request -> Exn + Response;
  (** [json.loads] on a response text, as [response.json()] *)
  json_loads : string -> Exn + Json;
  (** [ET.fromstring] *)
  fromstring : string -> Exn + Xml.Element;
  (** the clock read after [n] logged events, and [strftime] on it *)
  clock : nat -> Z;
  strftime : Z -> string;
  (** [os.makedirs] and [df.to_excel] fail on these paths *)
  makedirs_fault : string -> option Exn;
  to_excel_fault : string -> option Exn;
  (** [os.path.abspath], and the size in bytes of a written workbook *)
  abspath : string -> string;
  xlsx_size : DataFrame -> Z
}.

(** ** The state of a run *)

Inductive Event :=
  | EvRequest (req : Request) (answer : Exn + Response)
  | EvSleep (seconds : Z)
  | EvMakedirs (path : string)
  | EvWrite (path : string) (df : DataFrame).

Record State := mkState {
  log : list Event;
  files : gmap string DataFrame;
  dirs : gset string
}.

(** The requests sent so far, oldest first, and their number. *)
Definition requests_of (l : list Event) : list Request :=
  flat_map (fun ev => match ev with EvRequest req _ => [req] | _ => [] end) l.

Definition requests_made (l : list Event) : nat := length (requests_of l).

Definition emit (ev : Event) (s : State) : State :=
  {| log := log s ++ [ev]; files := files s; dirs := dirs s |}.

(** ** Computations: state and exceptions *)

Definition M (A : Type) : Type := State -> (Exn + A) * State.

Definition ret {A} (a : A) : M A := fun s => (inr a, s).

Definition raise {A} (e : Exn) : M A := fun s => (inl e, s).

Definition bind {A B} (m : M A) (k : A -> M B) : M B :=
  fun s =>
    match m s with
    | (inl e, s') => (inl e, s')
    | (inr a, s') => k a s'
    end.

(** [try: body except Exception as e: handler(e)] *)
Definition try_except {A} (body : M A) (handler : Exn -> M A) : M A :=
  fun s =>
    match body s with
    | (inl e, s') => handler e s'
    | (inr a, s') => (inr a, s')
    end.

Definition lift {A} (r : Exn + A) : M A :=
  match r with inl e => raise e | inr a => ret a end.

Module Import Notations.
  Notation "x <- m ;; k" := (bind m (fun x => k))
    (at level 100, m at next level, right associativity).
  Notation "m ;; k" := (bind m (fun _ => k))
    (at level 100, right associativity).
End Notations.

Section Operations.
Variable w : World.

(** [requests.request(method, url, ...)] *)
Definition send (req : Request) : M Response :=
  fun s =>
    let answer := http w (requests_made (log s)) req in
    (answer, emit (EvRequest req answer) s).

Definition requests_get url headers params : M Response :=
  send (mkRequest GET url headers params NoBody).
Definition requests_put url headers data : M Response :=
  send (mkRequest PUT url headers [] data).
Definition requests_post url headers data : M Response :=
  send (mkRequest POST url headers [] data).

(** [response.json()] *)
Definition json (response : Response) : M Json :=
  lift (json_loads w (text response)).

(** [time.sleep(seconds)] *)
Definition sleep (seconds : Z) : M unit :=
  fun s => (inr tt, emit (EvSleep seconds) s).

(** [datetime.now()] *)
Definition now : M Z :=
  fun s => (inr (clock w (length (log s))), s).

(** [os.path.exists(path)] *)
Definition path_exists (path : string) : M bool :=
  fun s =>
    (inr (bool_decide (is_Some (files s !! path))
          || bool_decide (path ∈ dirs s)), s).

(** [os.makedirs(path)] / [os.makedirs(path, exist_ok=True)] *)
Definition makedirs (path : string) : M unit :=
  fun s =>
    match makedirs_fault w path with
    | Some e => (inl e, s)
    | None =>
        (inr tt, {| log := log s ++ [EvMakedirs path];
                    files := files s;
                    dirs := {[path]} ∪ dirs s |})
    end.

(** [df.to_excel(path, index=False)] *)
Definition to_excel (df : DataFrame) (path : string) : M unit :=
  fun s =>
    match to_excel_fault w path with
    | Some e => (inl e, s)
    | None =>
        (inr tt, {| log := log s ++ [EvWrite path df];
                    files := <[path := df]> (files s);
                    dirs := dirs s |})
    end.

(** [os.path.getsize(path)] *)
Definition getsize (path : string) : M Z :=
  fun s =>
    match files s !! path with
    | Some df => (inr (xlsx_size w df), s)
    | None =>
        (inl (mkExn "FileNotFoundError"
                    ("[Errno 2] No such file or directory: '" +:+ path +:+ "'")), s)
    end.

(** [df.insert(loc, column, value)] with a scalar [value]: a new column at
    position [loc]; a column of that name already there is an error. *)
Definition df_insert (loc : nat) (column : string) (value : Cell)
           (df : DataFrame) : M DataFrame :=
  if bool_decide (column ∈ columns df)
  then raise (mkExn "ValueError"
                    ("cannot insert " +:+ column +:+ ", already exists"))
  else if bool_decide (loc ≤ length (columns df))%nat
  then ret {| columns := take loc (columns df) ++ column :: drop loc (columns df);
              rows := (fun r => <[column := value]> r) <$> rows df |}
  else raise (mkExn "IndexError"
                    ("index " +:+ pretty loc +:+ " is out of bounds for axis 0 with size "
                     +:+ pretty (length (columns df)))).

End Operations.

(** ** The result dictionary of a pipeline

    [duration] is a rounded wall-clock difference and is left out. *)
Record Result := mkResult {
  success : bool;
  error : option string;
  file_path : option string;
  file_size : option Z;
  records : option Z
}.

(** [{"success": False, "error": msg, "file_path": None}]; a key the
    dictionary does not have is [None]. *)
Definition failed (msg : string) : Result :=
  {| success := false; error := Some msg; file_path := None;
     file_size := None; records := None |}.

(** [{"success": True, "file_path": path, "file_size": size,
     "records": n, ...}] *)
Definition succeeded (path : string) (size n : Z) : Result :=
  {| success := true; error := None; file_path := Some path;
     file_size := Some size; records := Some n |}.

(** [s.rstrip(c)] for a one-character [c]. *)
Fixpoint rstrip (c : ascii) (s : string) : string :=
  match s with
  | EmptyString => EmptyString
  | String a s' =>
      match rstrip c s' with
      | EmptyString => if Ascii.eqb a c then EmptyString else String a EmptyString
      | r => String a r
      end
  end.

End Effects.

(* ===================================================================== *)
(** * 3. Protocol A: the debt report                                        *)
(* ===================================================================== *)

Module Debt.
Import Effects Effects.Notations.

Section Pipeline.
Variable w : World.

(** ** [queuing_report.py] *)

Definition queue_headers : list (string * string) :=
  [("Accept", "application/json");
   ("Content-Type", "application/json");
   ("Authorization", "Bearer " +:+ api_token w)].

Definition data : Body :=
  QueryBody [("fromdate", PDate Today);
             ("todate", PDate (YearsFromToday 5));
             ("asofdate", PDate PrevBusinessDay);
             ("datagroupings", PInt 31)].

(** [jobid()]: [None] when the call fails or the field is missing.  (What
    it prints is not part of the model.) *)
Definition jobid : M (option string) :=
  response <- requests_post w "https://api.chathamdirect.com/report/portfolio"
                            queue_headers data ;;
  if (status_code response =? 200)%Z then
    response_data <- json w response ;;
    match JobId response_data with
    | Some job_id => ret (Some job_id)
    | None => ret None
    end
  else ret None.

(** ** [Debt_report.py] *)

Definition headers : list (string * string) :=
  [("Accept", "application/xml");
   ("Authorization", "Bearer " +:+ api_token w)].

Definition max_retries : nat := 5.
Definition output_path : string := "./Generated Files/Debt_Report.xlsx".
(** [os.path.dirname(output_path)] *)
Definition output_dir : string := "./Generated Files".

Definition ns_uri : string :=
  "http://schemas.datacontract.org/2009/11/Chatham.FMS.Data".

(** [element.iter()]: the element and everything below it, in document
    order. *)
Fixpoint iter (e : Xml.Element) : list Xml.Element :=
  e :: flat_map iter (Xml.children e).

(** [root.findall('.//ns:Instruments/ns:Loan', namespaces)]: the [Loan]
    children of every [Instruments] element below the root. *)
Definition findall_loans (root : Xml.Element) : list Xml.Element :=
  flat_map
    (fun instruments =>
       filter (fun e => Xml.tag e = Xml.qualified ns_uri "Loan")
              (Xml.children instruments))
    (filter (fun e => Xml.tag e = Xml.qualified ns_uri "Instruments")
            (flat_map iter (Xml.children root))).

(** A flattened loan as a data-frame row: an element without text gives
    an empty cell. *)
Definition row_of (d : gmap string (option string)) : gmap string Cell :=
  (fun v => match v with Some s => CStr s | None => CNull end) <$> d.

(** The body of the [if response.status_code == 200] branch. *)
Definition parse_and_export (response : Response) : M DataFrame :=
  root <- lift (fromstring w (text response)) ;;
  let data_list :=
    (fun loan => Xml.flatten_xml loan "Loan") <$> findall_loans root in
  t <- now w ;;
  df <- df_insert 0 "RunDate" (CStr (strftime w t))
                  (DataFrame_of (row_of <$> data_list)) ;;
  present <- path_exists output_dir ;;
  (if present then ret tt else makedirs w output_dir) ;;
  to_excel w df output_path ;;
  ret df.

(** The retry loop.  [attempts_left] is [max_retries - retries]; the loop
    is left with [success = True] ([Some df]) after a 200 answer and with
    [success = False] ([None]) once [retries] reaches [max_retries]. *)
Fixpoint retry_loop (url : string) (attempts_left : nat)
  : M (option DataFrame) :=
  match attempts_left with
  | O => ret None
  | S attempts_left' =>
      response <- requests_get w url headers [] ;;
      if (status_code response =? 200)%Z then
        df <- parse_and_export response ;;
        ret (Some df)
      else
        sleep 30 ;;
        retry_loop url attempts_left'
  end.

(** The statements inside [try:]. *)
Definition body : M Result :=
  job_id <- jobid ;;
  match job_id with
  | None | Some EmptyString => ret (failed "Failed to retrieve jobid")
  | Some job_id =>
      let url := "https://api.chathamdirect.com/report/" +:+ job_id in
      outcome <- retry_loop url max_retries ;;
      match outcome with
      | Some df =>
          present <- path_exists output_path ;;
          if present then
            size <- getsize w output_path ;;
            ret (succeeded (abspath w output_path) size (len_df df))
          else ret (failed "Failed to retrieve data after multiple attempts")
      | None => ret (failed "Failed to retrieve data after multiple attempts")
      end
  end.

Definition generate_debt_report : M Result :=
  try_except body (fun e => ret (failed (str e))).

End Pipeline.
End Debt.

(* ===================================================================== *)
(** * 4. Protocol B: the payment report                                     *)
(* ===================================================================== *)

Module Payment.
Import Effects Effects.Notations.

Section Pipeline.
Variable w : World.

Definition API_TOKEN : string := "Bearer " +:+ api_token w.
Definition BASE_URL : string := rstrip "/" (api_endpoint w).
Definition TEMPLATE_ID : string := "custom_payment_template".
Definition API_URL : string :=
  BASE_URL +:+ "/reporting/templates/" +:+ TEMPLATE_ID.
Definition OUTPUT_FOLDER : string := "Generated Files".
Definition FILENAME : string := "Payment_Report.xlsx".

Definition headers : list (string * string) :=
  [("Authorization", API_TOKEN);
   ("Content-Type", "application/json");
   ("Accept", "application/json")].

Definition payload : Body :=
  TemplateBody TEMPLATE_ID "Payment"
    ["PaymentDateForThisPeriod"; "ChathamReferenceNumber"; "Portfolio1";
     "ProductType"; "CounterpartyLegalEntityName"; "ClientLegalEntityName";
     "Description"; "TradeDateTime"; "EffectiveDate"; "MaturityDate";
     "NotionalCurrency"; "NotionalAmountDescription";
     "Leg1StrikeRateForThisPeriod"; "IndexDescription";
     "Leg1SpreadOverIndexForThisPeriod"; "Leg1IndexRateForThisPeriod";
     "ReportingPeriodPaymentType"; "NetPaymentAmountForThisPeriod"].

(** [params], and [page_params] after its two assignments. *)
Definition params (offset limit : Z) : list (string * Param) :=
  [("transactionactivefromdate", PDate (DaysFromToday (-365)));
   ("transactionactivetodate", PDate Today);
   ("offset", PInt offset);
   ("limit", PInt limit)].

Definition report_url : string :=
  BASE_URL +:+ "/reporting/reports/payments/" +:+ TEMPLATE_ID.

Definition limit : Z := 100.

(** [len(all_items)] *)
Definition len (all_items : list Item) : Z := Z.of_nat (length all_items).

(** The loop [while len(all_items) < total_records] (lines 99-113).
    Every iteration that does not leave the loop adds at least one item,
    so [total_records - len(all_items)] iterations are always enough:
    [fuel] is that bound and is never what ends the loop
    (see [fetch_pages_fuel]). *)
Fixpoint fetch_pages (fuel : nat) (total_records : Z) (all_items : list Item)
  : M (list Item) :=
  match fuel with
  | O => ret all_items
  | S fuel' =>
      if (len all_items <? total_records)%Z then
        let current_offset := len all_items in
        page_response <- requests_get w report_url headers
                                      (params current_offset limit) ;;
        if (status_code page_response =? 200)%Z then
          page_data <- json w page_response ;;
          match Items page_data with
          | Some (item :: items) =>
              fetch_pages fuel' total_records (all_items ++ item :: items)%list
          | Some [] | None => ret all_items
          end
        else ret all_items
      else ret all_items
  end.

(** Lines 87-113: the first page and the pages after it. *)
Definition collect (report_data : Json) : M (list Item) :=
  match Items report_data with
  | Some items =>
      let all_items := ([] ++ items)%list in
      match Paging report_data with
      | Some paging =>
          let total_records := default 0%Z (TotalRecords paging) in
          fetch_pages (Z.to_nat (total_records - len all_items))
                      total_records all_items
      | None => ret all_items
      end
  | None => ret []
  end.

(** The row written when there is nothing to export. *)
Definition no_data_row (t : Z) : gmap string Cell :=
  {[ "RunDate" := CTime t; "Message" := CStr "No data found" ]}.

(** Lines 116-127: the exporter. *)
Definition export (all_items : list Item) : M (string * DataFrame) :=
  makedirs w OUTPUT_FOLDER ;;
  let file_path := OUTPUT_FOLDER +:+ "/" +:+ FILENAME in
  match all_items with
  | _ :: _ =>
      run_date <- now w ;;
      df <- df_insert 0 "RunDate" (CTime run_date) (DataFrame_of all_items) ;;
      to_excel w df file_path ;;
      ret (file_path, df)
  | [] =>
      t <- now w ;;
      let df := DataFrame_of [no_data_row t] in
      to_excel w df file_path ;;
      ret (file_path, df)
  end.

(** The statements inside [try:]. *)
Definition body : M Result :=
  response <- requests_put w API_URL headers payload ;;
  if negb (status_code response =? 200)%Z then
    ret (failed ("Failed to create/update payment template. Status: "
                 +:+ pretty (status_code response)))
  else
    report_response <- requests_get w report_url headers (params 0 100) ;;
    if negb (status_code report_response =? 200)%Z then
      ret (failed ("Failed to generate payment report. Status: "
                   +:+ pretty (status_code report_response)))
    else
      report_data <- json w report_response ;;
      all_items <- collect report_data ;;
      exported <- export all_items ;;
      let '(file_path, df) := exported in
      present <- path_exists file_path ;;
      if present then
        size <- getsize w file_path ;;
        ret (succeeded (abspath w file_path) size (len_df df))
      else ret (failed "Report file was not created").

Definition generate_payment_report : M Result :=
  try_except body (fun e => ret (failed (str e))).

End Pipeline.
End Payment.

(* ===================================================================== *)
(** * 5. Protocol C: the valuation report                                   *)
(* ===================================================================== *)

Module Valuation.
Import Effects Effects.Notations.

Section Pipeline.
Variable w : World.

Definition API_TOKEN : string := "Bearer " +:+ api_token w.
Definition BASE_URL : string := rstrip "/" (api_endpoint w).
Definition TEMPLATE_ID : string := "valuation_caps_only".
Definition OUTPUT_FOLDER : string := "Generated Files".
Definition FILENAME : string := "Valuation_Report.xlsx".

Definition headers : list (string * string) :=
  [("Authorization", API_TOKEN);
   ("Content-Type", "application/json");
   ("Accept", "application/json")].

Definition create_valuation_template (template_id : string) : M bool :=
  let url := BASE_URL +:+ "/reporting/templates/" +:+ template_id in
  let payload :=
    TemplateBody template_id "Transaction"
      ["ChathamReferenceNumber"; "ClientLegalEntityName"; "Portfolio1";
       "HedgedItem"; "ProductType"; "OriginalStrike"; "NotionalCurrency";
       "NotionalAmountDescription"; "CurrentNotional"; "IndexDescription";
       "CounterpartyLegalEntityName"; "TradeDateTime"; "EffectiveDate";
       "MaturityDate"; "ValuationDateTimeForReportEnd"; "ValuationCurrency";
       "IntrinsicValueAsOfReportEnd"; "TimeValueForReportEnd";
       "AccruedInterestAsOfReportEnd"; "CleanPriceForReportEnd";
       "CleanPricePlusAccruedInterestForReportEnd"] in
  response <- requests_put w url headers payload ;;
  ret (status_code response =? 200)%Z.

(** The dictionary [get_transaction_report] returns: [{"job_id": ...}] or
    [{"data": ...}]. *)
Inductive Started :=
  | job_id_of (job_id : string)
  | data_of (json_resp : Json).

Definition get_transaction_report (template_id : string) : M Started :=
  let params := [("ActiveFromDate", PDate Today);
                 ("ActiveToDate", PDate (DaysFromToday (5 * 365)))] in
  let url := BASE_URL +:+ "/reporting/reports/transactions/" +:+ template_id in
  let report_headers := [("Authorization", API_TOKEN);
                         ("Accept", "application/json")] in
  response <- requests_get w url report_headers params ;;
  if (status_code response =? 200)%Z then
    json_resp <- json w response ;;
    match JobId json_resp with
    | Some (String c job_id) => ret (job_id_of (String c job_id))
    | Some EmptyString | None => ret (data_of json_resp)
    end
  else
    raise (mkExn "Exception"
                 ("Failed to start report job. Status "
                  +:+ pretty (status_code response) +:+ ": "
                  +:+ text response)).

(** [poll_report_status(job_id, retries, delay)]: the [for] loop over
    [range(retries)], then the [raise] after it.  (The progress bar is not
    part of the model.) *)
Fixpoint poll_report_status (job_id : string) (retries : nat) (delay : Z)
  : M Json :=
  let url := BASE_URL +:+ "/report/" +:+ job_id in
  let poll_headers := [("Authorization", API_TOKEN);
                       ("Accept", "application/json")] in
  match retries with
  | O => raise (mkExn "TimeoutError" "Report generation timed out.")
  | S retries' =>
      response <- requests_get w url poll_headers [] ;;
      if (status_code response =? 200)%Z then
        json w response
      else if (status_code response =? 202)%Z then
        sleep delay ;;
        poll_report_status job_id retries' delay
      else
        raise (mkExn "Exception"
                     ("Unexpected status: "
                      +:+ pretty (status_code response) +:+ ", "
                      +:+ text response))
  end.

(** [export_to_excel(data, filename)], returning [(file_path, len(df))]
    or [(None, 0)]. *)
Definition export_to_excel (data : Json) (filename : string)
  : M (option string * Z) :=
  makedirs w OUTPUT_FOLDER ;;
  let file_path := OUTPUT_FOLDER +:+ "/" +:+ filename in
  let items := default [] (Items data) in
  match items with
  | [] => ret (None, 0%Z)
  | _ :: _ =>
      run_date <- now w ;;
      df <- df_insert 0 "RunDate" (CTime run_date) (DataFrame_of items) ;;
      to_excel w df file_path ;;
      ret (Some file_path, len_df df)
  end.

(** The statements inside [try:]. *)
Definition body : M Result :=
  created <- create_valuation_template TEMPLATE_ID ;;
  if negb created then ret (failed "Template creation failed")
  else
    result <- get_transaction_report TEMPLATE_ID ;;
    report_data <- match result with
                   | job_id_of job_id => poll_report_status job_id 30 5
                   | data_of data => ret data
                   end ;;
    exported <- export_to_excel report_data FILENAME ;;
    let '(file_path, record_count) := exported in
    match file_path with
    | Some (String c p) =>
        let file_path := String c p in
        present <- path_exists file_path ;;
        if present then
          size <- getsize w file_path ;;
          ret (succeeded (abspath w file_path) size record_count)
        else ret (failed "Report file was not created or contains no data")
    | Some EmptyString | None =>
        ret (failed "Report file was not created or contains no data")
    end.

Definition generate_valuation_report : M Result :=
  try_except body (fun e => ret (failed (str e))).

End Pipeline.
End Valuation.

(* ===================================================================== *)
(** * 6. Vocabulary of the statements                                       *)
(* ===================================================================== *)

(** What can be observed in the event log of a run. *)
Module Observe.
Import Effects.

Definition is_get (req : Request) : bool :=
  match method req with GET => true | _ => false end.

(** The GET requests, the sleeps and the files written, oldest first. *)
Definition gets (l : list Event) : list Request :=
  flat_map (fun ev => match ev with
                      | EvRequest req _ => if is_get req then [req] else []
                      | _ => []
                      end) l.

Definition sleeps (l : list Event) : list Z :=
  flat_map (fun ev => match ev with EvSleep d => [d] | _ => [] end) l.

Definition writes (l : list Event) : list string :=
  flat_map (fun ev => match ev with EvWrite p _ => [p] | _ => [] end) l.

(** The log of [k] attempts in a row on [req], each followed by a sleep of
    [secs] seconds, the first being call number [n]. *)
Fixpoint attempts (w : World) (req : Request) (n k : nat) (secs : Z)
  : list Event :=
  match k with
  | O => []
  | S k' =>
      EvRequest req (http w n req) :: EvSleep secs
      :: attempts w req (S n) k' secs
  end.

(** The number of items a logged answer served: the length of the
    ["Items"] list of a 200 answer. *)
Definition items_served (w : World) (ev : Event) : Z :=
  match ev with
  | EvRequest _ (inr resp) =>
      if (status_code resp =? 200)%Z then
        match json_loads w (text resp) with
        | inr j => Z.of_nat (length (default [] (Items j)))
        | inl _ => 0
        end
      else 0
  | _ => 0
  end.

Fixpoint served (w : World) (l : list Event) : Z :=
  match l with
  | [] => 0
  | ev :: l' => items_served w ev + served w l'
  end.

(** There is a file at [path] with exactly one row, which carries a run
    timestamp and a marker text. *)
Definition one_row_file (s : State) (path : string) : Prop :=
  exists df row t marker,
    files s !! path = Some df /\ rows df = [row] /\
    row !! "RunDate" = Some (CTime t) /\
    row !! "Message" = Some (CStr marker).

(** The state after a run that logged [new] and wrote no file. *)
Definition logged (s : State) (new : list Event) : State :=
  {| log := log s ++ new; files := files s; dirs := dirs s |}.

End Observe.

(** Protocol A. *)
Module DebtSpec.
Import Effects Debt.

Definition queue_request (w : World) : Request :=
  mkRequest POST "https://api.chathamdirect.com/report/portfolio"
            (queue_headers w) [] data.

Definition report_request (w : World) (job_id : string) : Request :=
  mkRequest GET ("https://api.chathamdirect.com/report/" +:+ job_id)
            (headers w) [] NoBody.

(** Call number [n], the submission, is answered 200 with a usable
    [JobId]. *)
Definition job_queued (w : World) (n : nat) (job_id : string) : Prop :=
  exists resp j,
    http w n (queue_request w) = inr resp /\ status_code resp = 200 /\
    json_loads w (text resp) = inr j /\ JobId j = Some job_id /\
    job_id <> "".

(** The endpoint answers [req] with a status other than 200, always. *)
Definition always_non200 (w : World) (req : Request) : Prop :=
  forall n, exists resp, http w n req = inr resp /\ status_code resp <> 200.

End DebtSpec.

(** Protocol C. *)
Module ValuationSpec.
Import Effects Valuation.

Definition poll_request (w : World) (job_id : string) : Request :=
  mkRequest GET (BASE_URL w +:+ "/report/" +:+ job_id)
            [("Authorization", API_TOKEN w); ("Accept", "application/json")]
            [] NoBody.

(** Calls [n], ..., [n + k - 1] on [req] are all answered 202. *)
Definition pending (w : World) (req : Request) (n k : nat) : Prop :=
  forall i, (i < k)%nat ->
    exists resp, http w (n + i) req = inr resp /\ status_code resp = 202.

Definition unexpected_status (resp : Response) : Exn :=
  mkExn "Exception"
        ("Unexpected status: " +:+ pretty (status_code resp) +:+ ", "
         +:+ text resp).

Definition timed_out : Exn :=
  mkExn "TimeoutError" "Report generation timed out.".

Definition valuation_path : string := "Generated Files/Valuation_Report.xlsx".

End ValuationSpec.

(** Protocol B. *)
Module PaymentSpec.
Import Effects Payment.

Definition template_request (w : World) : Request :=
  mkRequest PUT (API_URL w) (headers w) [] payload.

Definition page_request (w : World) (offset : Z) : Request :=
  mkRequest GET (report_url w) (headers w) (params offset 100) NoBody.

Definition payment_path : string := "Generated Files/Payment_Report.xlsx".

(** Call number [n], for the page at [offset], is answered 200 with the
    JSON object [j]; with the items [page] and the paging data [paging]. *)
Definition answers_json (w : World) (n : nat) (offset : Z) (j : Json) : Prop :=
  exists resp,
    http w n (page_request w offset) = inr resp /\ status_code resp = 200 /\
    json_loads w (text resp) = inr j.

Definition answers_page (w : World) (n : nat) (offset : Z)
           (page : list Item) (paging : option PagingInfo) : Prop :=
  exists j,
    answers_json w n offset j /\ Items j = Some page /\ Paging j = paging.

(** Call number [n], for the page at [offset], is answered with a status
    other than 200. *)
Definition answers_failure (w : World) (n : nat) (offset : Z) : Prop :=
  exists resp,
    http w n (page_request w offset) = inr resp /\ status_code resp <> 200.

(** Call number [n] is the template PUT and is answered 200. *)
Definition template_created (w : World) (n : nat) : Prop :=
  exists resp,
    http w n (template_request w) = inr resp /\ status_code resp = 200.

(** From call [n] and offset [offset] on, the endpoint serves the non-empty
    pages [pages], one per call. *)
Fixpoint serves (w : World) (n : nat) (offset : Z) (pages : list (list Item))
  : Prop :=
  match pages with
  | [] => True
  | page :: pages' =>
      page <> [] /\
      (exists paging, answers_page w n offset page paging) /\
      serves w (S n) (offset + len page) pages'
  end.

(** Every page the client is served is full.  The loop, entered with
    [offset] items in hand at call number [n], asks for the page at
    [offset + 100 * k] in call [n + k] as long as that offset is short of
    the announced total [N]: each of these calls is answered 200 with 100
    items.  Nothing is said of the calls the client does not come to make,
    so that an endpoint whose data ends at [N] qualifies. *)
Definition full_pages (w : World) (n : nat) (offset N : Z) : Prop :=
  forall k : nat,
    offset + 100 * Z.of_nat k < N ->
    exists page paging,
      answers_page w (n + k) (offset + 100 * Z.of_nat k) page paging /\
      length page = 100%nat.

(** No page served in the logged calls [l] carries more than 100 items. *)
Definition page_limit (w : World) (l : list Event) : Prop :=
  Forall (fun ev => Observe.items_served w ev <= 100) l.

(** The disk accepts the export. *)
Definition disk_ok (w : World) : Prop :=
  makedirs_fault w OUTPUT_FOLDER = None /\
  to_excel_fault w payment_path = None.

(** No item already has a field named like the timestamp column. *)
Definition no_RunDate (items : list Item) : Prop :=
  Forall (fun item => item !! "RunDate" = None) items.

(** The frame written for the collected [items] at time [t]: the items
    with the timestamp column in front, or the marker row when there is
    none. *)
Definition stamped (t : Z) (items : list Item) : DataFrame :=
  {| columns := "RunDate" :: columns (DataFrame_of items);
     rows := (fun r => <["RunDate" := CTime t]> r) <$> items |}.

Definition exported (t : Z) (items : list Item) : DataFrame :=
  match items with
  | [] => DataFrame_of [no_data_row t]
  | _ :: _ => stamped t items
  end.

(** The state after the export of [df] from state [s]. *)
Definition after_export (s : State) (df : DataFrame) : State :=
  {| log := log s ++ [EvMakedirs OUTPUT_FOLDER; EvWrite payment_path df];
     files := <[payment_path := df]> (files s);
     dirs := {[OUTPUT_FOLDER]} ∪ dirs s |}.

(** The log of the first two calls of the pipeline from state [s]: the
    template PUT and the GET of the first page. *)
Definition opening (w : World) (s : State) : list Event :=
  let n := requests_made (log s) in
  [EvRequest (template_request w) (http w n (template_request w));
   EvRequest (page_request w 0) (http w (S n) (page_request w 0))].

(** Lines 116-144 of the pipeline: what follows the collection. *)
Definition finish (w : World) (all_items : list Item) : Effects.M Result :=
  bind (export w all_items) (fun exported =>
    let '(file_path, df) := exported in
    bind (path_exists file_path) (fun present =>
      if present then
        bind (getsize w file_path) (fun size =>
          ret (succeeded (abspath w file_path) size (len_df df)))
      else ret (failed "Report file was not created"))).

(** [ceil(N / 100)] *)
Definition pages_needed (N : Z) : Z := (N + 99) / 100.

(** The first sentence of the pagination property, as written: the run of
    [collect] on a first page [data] announcing [N] records accumulates
    [min(N, items served)]. *)
Definition accumulates_min (w : World) (s : State) (data : Json) (N : Z)
  : Prop :=
  forall items s',
    collect w data s = (inr items, s') ->
    len items
    = Z.min N (len (default [] (Items data))
               + Observe.served w (drop (length (log s)) (log s'))).

(** Its second sentence, as written: with full pages, [ceil(N / 100)] page
    requests in all, the one for the first page included. *)
Definition requests_ceil (w : World) (s : State) (data : Json) (N : Z)
  : Prop :=
  forall items s',
    collect w data s = (inr items, s') ->
    1 + Z.of_nat (requests_made (drop (length (log s)) (log s')))
    = pages_needed N.

End PaymentSpec.

(** Endpoints and worlds to run the pipelines on. *)
Module Mock.
Import Effects.

Definition item (ref : string) : Item :=
  {[ "ChathamReferenceNumber" := CStr ref ]}.

(** A full page of 100 items announcing [total] records. *)
Definition full_page (total : Z) : Json :=
  mkJson None (Some (replicate 100 (item "R"))) (Some (mkPaging (Some total))).

(** Two items of five, one more item, no item. *)
Definition two_of_five : Json :=
  mkJson None (Some [item "A"; item "B"]) (Some (mkPaging (Some 5))).
Definition one_more : Json := mkJson None (Some [item "C"]) None.
Definition no_items : Json := mkJson None (Some []) None.

(** Response texts stand for these decoded payloads. *)
Definition decode (t : string) : Exn + Json :=
  if String.eqb t "job" then inr (mkJson (Some "J1") None None)
  else if String.eqb t "full/150" then inr (full_page 150)
  else if String.eqb t "full/0" then inr (full_page 0)
  else if String.eqb t "two/5" then inr two_of_five
  else if String.eqb t "one" then inr one_more
  else if String.eqb t "none" then inr no_items
  else inl (mkExn "JSONDecodeError" "Expecting value: line 1 column 1 (char 0)").

(** A portfolio with one loan. *)
Definition one_loan : Xml.Element :=
  Xml.Elem (Xml.qualified Debt.ns_uri "Portfolio") None
    [Xml.Elem (Xml.qualified Debt.ns_uri "Instruments") None
       [Xml.Elem (Xml.qualified Debt.ns_uri "Loan") None
          [Xml.Elem (Xml.qualified Debt.ns_uri "Amount") (Some "1000") [];
           Xml.Elem (Xml.qualified Debt.ns_uri "Currency") (Some "USD") []]]].

Definition parse (t : string) : Exn + Xml.Element :=
  if String.eqb t "<Portfolio/>" then inr one_loan
  else inl (mkExn "ParseError" "syntax error: line 1, column 0").

(** The world around an endpoint [respond]: a sound disk and a clock that
    ticks with the log. *)
Definition world (respond : nat -> Request -> Exn + Response) : World :=
  {| api_token := "secret";
     api_endpoint := "https://api.example.test/";
     http := respond;
     json_loads := decode;
     fromstring := parse;
     clock := fun n => 1700000000 + Z.of_nat n;
     strftime := fun _ => "2023-11-14 22:13:20";
     makedirs_fault := fun _ => None;
     to_excel_fault := fun _ => None;
     abspath := fun p => "/srv/reports/" +:+ p;
     xlsx_size := fun df => 4096 + 64 * len_df df |}.

Definition initial : State := {| log := []; files := ∅; dirs := ∅ |}.

(** The submission succeeds, the report is never ready. *)
Definition never_ready : World :=
  world (fun _ req =>
           match method req with
           | POST => inr (mkResponse 200 "job")
           | _ => inr (mkResponse 503 "Service Unavailable")
           end).

(** Every page is full, and 150 records are announced. *)
Definition overshoot : World :=
  world (fun _ _ => inr (mkResponse 200 "full/150")).

(** Every page is full, and no record is announced. *)
Definition full_of_none : World :=
  world (fun _ _ => inr (mkResponse 200 "full/0")).

(** The job is never done. *)
Definition always_pending : World :=
  world (fun _ _ => inr (mkResponse 202 "Accepted")).

(** Answers in the order of the calls, then 500. *)
Definition scripted (script : list Response) : World :=
  world (fun n _ => inr (default (mkResponse 500 "Internal Server Error")
                                (script !! n))).

(** The template is accepted, two items of five come, then one more, then
    the endpoint fails. *)
Definition breaks_off : World :=
  scripted [mkResponse 200 "{}"; mkResponse 200 "two/5"; mkResponse 200 "one"].

(** The template is accepted and the report is empty. *)
Definition nothing_to_report : World :=
  scripted [mkResponse 200 "{}"; mkResponse 200 "none"].

(** The job is pending twice, then done with one item. *)
Definition ready_third : World :=
  scripted [mkResponse 202 "Accepted"; mkResponse 202 "Accepted";
            mkResponse 200 "one"].

(** The job is queued and the report, one loan, is ready at once. *)
Definition one_loan_ready : World :=
  scripted [mkResponse 200 "job"; mkResponse 200 "<Portfolio/>"].

(** The network is down. *)
Definition offline : World :=
  world (fun _ _ => inl (mkExn "ConnectionError" "Connection refused")).

End Mock.

(* ===================================================================== *)
(** * 7. The other paths of the pipelines: vocabulary                     *)
(* ===================================================================== *)

Module PathSpec.
Import Effects.

(** ** Protocol A *)

(** The submission, call number [n], gives no usable job id: a status other
    than 200, or a 200 whose JSON has no [JobId] or an empty one. *)
Definition job_unavailable (w : World) (n : nat) : Prop :=
  exists resp,
    http w n (DebtSpec.queue_request w) = inr resp /\
    (status_code resp <> 200 \/
     (status_code resp = 200 /\
      exists j, json_loads w (text resp) = inr j /\
                (JobId j = None \/ JobId j = Some ""))).

(** Calls [n], ..., [n + k - 1] on [req] are answered with a status other
    than 200. *)
Definition failing (w : World) (req : Request) (n k : nat) : Prop :=
  forall i, (i < k)%nat ->
    exists resp, http w (n + i) req = inr resp /\ status_code resp <> 200.

(** The rows of the debt report: one per loan found, flattened. *)
Definition loan_rows (root : Xml.Element) : list (gmap string Cell) :=
  Debt.row_of <$> ((fun loan => Xml.flatten_xml loan "Loan")
                     <$> Debt.findall_loans root).

(** The frame of the debt report written at time [t]. *)
Definition debt_frame (w : World) (t : Z) (root : Xml.Element) : DataFrame :=
  {| columns := "RunDate" :: columns (DataFrame_of (loan_rows root));
     rows := (fun r => <["RunDate" := CStr (strftime w t)]> r)
               <$> loan_rows root |}.

(** Call number [n], the submission, raises [e]: in [requests], or in
    [response.json()] on a 200 answer. *)
Definition submission_raises (w : World) (n : nat) (e : Exn) : Prop :=
  http w n (DebtSpec.queue_request w) = inl e \/
  exists resp,
    http w n (DebtSpec.queue_request w) = inr resp /\
    status_code resp = 200 /\ json_loads w (text resp) = inl e.

(** Call number [n], the GET of the report of job [job_id], raises [e]: in
    [requests], or in [ET.fromstring] on a 200 answer. *)
Definition report_raises (w : World) (n : nat) (job_id : string) (e : Exn)
  : Prop :=
  http w n (DebtSpec.report_request w job_id) = inl e \/
  exists resp,
    http w n (DebtSpec.report_request w job_id) = inr resp /\
    status_code resp = 200 /\ fromstring w (text resp) = inl e.

(** The events of the debt pipeline from state [s] up to its GET number
    [k + 1] for job [job_id], the [k] GETs before it refused. *)
Definition debt_trace (w : World) (s : State) (job_id : string) (k : nat)
  : list Event :=
  let n := requests_made (log s) in
  [EvRequest (DebtSpec.queue_request w) (http w n (DebtSpec.queue_request w))]
  ++ Observe.attempts w (DebtSpec.report_request w job_id) (S n) k 30
  ++ [EvRequest (DebtSpec.report_request w job_id)
                (http w (S n + k) (DebtSpec.report_request w job_id))].

(** ** Protocol B *)

(** The offsets of the requests for the pages [pages], the first of them
    asked at [offset]. *)
Fixpoint page_offsets (offset : Z) (pages : list (list Item)) : list Z :=
  match pages with
  | [] => []
  | page :: pages' => offset :: page_offsets (offset + Payment.len page) pages'
  end.

(** Each of the pages [pages] is asked for: when its turn comes, at
    [offset], the total [N] is not reached yet. *)
Fixpoint wanted (N : Z) (offset : Z) (pages : list (list Item)) : Prop :=
  match pages with
  | [] => True
  | page :: pages' => offset < N /\ wanted N (offset + Payment.len page) pages'
  end.

(** The total a first page announces: [paging.get("TotalRecords", 0)], and
    nothing to wait for without a ["Paging"] key. *)
Definition announced (data : Json) : Z :=
  match Paging data with
  | Some paging => default 0 (TotalRecords paging)
  | None => 0
  end.

(** Call number [n], for the page at [offset], is answered 200 without any
    item: no ["Items"] key, or an empty list. *)
Definition answers_nothing (w : World) (n : nat) (offset : Z) : Prop :=
  exists j,
    PaymentSpec.answers_json w n offset j /\
    (Items j = None \/ Items j = Some []).

(** Call number [n], for the page at [offset], raises [e]: in [requests],
    or in [response.json()] on a 200 answer. *)
Definition page_raises (w : World) (n : nat) (offset : Z) (e : Exn) : Prop :=
  http w n (PaymentSpec.page_request w offset) = inl e \/
  exists resp,
    http w n (PaymentSpec.page_request w offset) = inr resp /\
    status_code resp = 200 /\ json_loads w (text resp) = inl e.

(** ** Protocol C *)

Definition valuation_template_request (w : World) : Request :=
  mkRequest PUT
    (Valuation.BASE_URL w +:+ "/reporting/templates/" +:+ Valuation.TEMPLATE_ID)
    (Valuation.headers w) []
    (TemplateBody Valuation.TEMPLATE_ID "Transaction"
       ["ChathamReferenceNumber"; "ClientLegalEntityName"; "Portfolio1";
        "HedgedItem"; "ProductType"; "OriginalStrike"; "NotionalCurrency";
        "NotionalAmountDescription"; "CurrentNotional"; "IndexDescription";
        "CounterpartyLegalEntityName"; "TradeDateTime"; "EffectiveDate";
        "MaturityDate"; "ValuationDateTimeForReportEnd"; "ValuationCurrency";
        "IntrinsicValueAsOfReportEnd"; "TimeValueForReportEnd";
        "AccruedInterestAsOfReportEnd"; "CleanPriceForReportEnd";
        "CleanPricePlusAccruedInterestForReportEnd"]).

Definition transactions_request (w : World) : Request :=
  mkRequest GET
    (Valuation.BASE_URL w +:+ "/reporting/reports/transactions/"
     +:+ Valuation.TEMPLATE_ID)
    [("Authorization", Valuation.API_TOKEN w); ("Accept", "application/json")]
    [("ActiveFromDate", PDate Today);
     ("ActiveToDate", PDate (DaysFromToday (5 * 365)))]
    NoBody.

(** The first two calls of the valuation pipeline from state [s]. *)
Definition valuation_opening (w : World) (s : State) : list Event :=
  let n := requests_made (log s) in
  [EvRequest (valuation_template_request w)
             (http w n (valuation_template_request w));
   EvRequest (transactions_request w)
             (http w (S n) (transactions_request w))].

(** Call [n] is the template PUT, answered 200; call [n + 1] is the report
    GET, answered 200 with the JSON object [j]. *)
Definition valuation_started (w : World) (n : nat) (j : Json) : Prop :=
  (exists resp,
     http w n (valuation_template_request w) = inr resp /\
     status_code resp = 200) /\
  (exists resp,
     http w (S n) (transactions_request w) = inr resp /\
     status_code resp = 200 /\ json_loads w (text resp) = inr j).

(** The JSON object carries no usable job id. *)
Definition inline_data (j : Json) : Prop :=
  JobId j = None \/ JobId j = Some "".

(** The valuation pipeline started in state [s] comes to its export with
    the report data [data], having logged the calls [new]: the template is
    accepted and the report GET is answered 200, either with [data] itself,
    which carries no job id, or with a job id whose poll number [k + 1],
    after [k < 30] polls answered 202, is answered 200 with [data]. *)
Definition report_data_obtained (w : World) (s : State) (data : Json)
           (new : list Event) : Prop :=
  let n := requests_made (log s) in
  (valuation_started w n data /\ inline_data data /\
   new = valuation_opening w s)
  \/
  (exists j job_id k resp,
     valuation_started w n j /\ JobId j = Some job_id /\ job_id <> "" /\
     ValuationSpec.pending w (ValuationSpec.poll_request w job_id) (S (S n)) k /\
     (k < 30)%nat /\
     http w (S (S n) + k) (ValuationSpec.poll_request w job_id) = inr resp /\
     status_code resp = 200 /\ json_loads w (text resp) = inr data /\
     new = valuation_opening w s
           ++ Observe.attempts w (ValuationSpec.poll_request w job_id)
                               (S (S n)) k 5
           ++ [EvRequest (ValuationSpec.poll_request w job_id) (inr resp)]).

(** The frame written by the valuation exporter at time [t]. *)
Definition valuation_frame (t : Z) (items : list Item) : DataFrame :=
  {| columns := "RunDate" :: columns (DataFrame_of items);
     rows := (fun r => <["RunDate" := CTime t]> r) <$> items |}.

(** The disk accepts the valuation export. *)
Definition valuation_disk_ok (w : World) : Prop :=
  makedirs_fault w Valuation.OUTPUT_FOLDER = None /\
  to_excel_fault w ValuationSpec.valuation_path = None.

(** The state after the valuation export of [df] from state [s]. *)
Definition after_valuation_export (s : State) (df : DataFrame) : State :=
  {| log := log s ++ [EvMakedirs Valuation.OUTPUT_FOLDER;
                      EvWrite ValuationSpec.valuation_path df];
     files := <[ValuationSpec.valuation_path := df]> (files s);
     dirs := {[Valuation.OUTPUT_FOLDER]} ∪ dirs s |}.

(** Lines 150-166 of the valuation pipeline: what follows once the report
    data is there. *)
Definition valuation_finish (w : World) (report_data : Json)
  : Effects.M Result :=
  bind (Valuation.export_to_excel w report_data Valuation.FILENAME)
    (fun exported =>
       let '(file_path, record_count) := exported in
       match file_path with
       | Some (String c p) =>
           bind (path_exists (String c p)) (fun present =>
             if present then
               bind (getsize w (String c p)) (fun size =>
                 ret (succeeded (abspath w (String c p)) size record_count))
             else ret (failed "Report file was not created or contains no data"))
       | Some EmptyString | None =>
           ret (failed "Report file was not created or contains no data")
       end).

End PathSpec.

(** More endpoints. *)
Module Scenes.
Import Effects.

(** A portfolio in which no element is a loan of the expected namespace. *)
Definition no_loan : Xml.Element :=
  Xml.Elem (Xml.qualified Debt.ns_uri "Portfolio") None
    [Xml.Elem (Xml.qualified Debt.ns_uri "Instruments") None
       [Xml.Elem "Loan" None [Xml.Elem "Amount" (Some "1") []]]].

(** A portfolio whose loan has a field named like the timestamp column. *)
Definition stamped_loan : Xml.Element :=
  Xml.Elem (Xml.qualified Debt.ns_uri "Portfolio") None
    [Xml.Elem (Xml.qualified Debt.ns_uri "Instruments") None
       [Xml.Elem (Xml.qualified Debt.ns_uri "Loan") None
          [Xml.Elem (Xml.qualified Debt.ns_uri "Terms") None
             [Xml.Elem (Xml.qualified Debt.ns_uri "RunDate")
                       (Some "2020-01-01") []]]]].

Definition two_items : Json :=
  mkJson None (Some [Mock.item "A"; Mock.item "B"]) None.

Definition two_of_three : Json :=
  mkJson None (Some [Mock.item "A"; Mock.item "B"]) (Some (mkPaging (Some 3))).

Definition stamped_item : Json :=
  mkJson None (Some [ {[ "RunDate" := CStr "2020-01-01" ]} ]) None.

Definition decode (t : string) : Exn + Json :=
  if String.eqb t "full/200" then inr (Mock.full_page 200)
  else if String.eqb t "two" then inr two_items
  else if String.eqb t "two/3" then inr two_of_three
  else if String.eqb t "stamped" then inr stamped_item
  else if String.eqb t "empty-id" then inr (mkJson (Some "") (Some [Mock.item "A"]) None)
  else Mock.decode t.

Definition parse (t : string) : Exn + Xml.Element :=
  if String.eqb t "<NoLoan/>" then inr no_loan
  else if String.eqb t "<Stamped/>" then inr stamped_loan
  else Mock.parse t.

(** The world of [Mock.world] with the two decoders above. *)
Definition world (respond : nat -> Request -> Exn + Response) : World :=
  {| api_token := "secret";
     api_endpoint := "https://api.example.test/";
     http := respond;
     json_loads := decode;
     fromstring := parse;
     clock := fun n => 1700000000 + Z.of_nat n;
     strftime := fun _ => "2023-11-14 22:13:20";
     makedirs_fault := fun _ => None;
     to_excel_fault := fun _ => None;
     abspath := fun p => "/srv/reports/" +:+ p;
     xlsx_size := fun df => 4096 + 64 * len_df df |}.

(** Answers in the order of the calls, then 500. *)
Definition scripted (script : list (Exn + Response)) : World :=
  world (fun n _ => default (inr (mkResponse 500 "Internal Server Error"))
                            (script !! n)).

(** An endpoint that holds exactly 200 records: the page at offset 100 is
    full like the first one, and there is nothing after it. *)
Definition offset_of (req : Request) : Z :=
  match List.find (fun kv => String.eqb (fst kv) "offset") (params req) with
  | Some (_, PInt z) => z
  | _ => 0
  end.

Definition two_hundred : World :=
  world (fun _ req =>
           if (offset_of req <? 200)%Z
           then inr (mkResponse 200 "full/200")
           else inr (mkResponse 200 "none")).

Definition ok (t : string) : Exn + Response := inr (mkResponse 200 t).
Definition status (c : Z) (t : string) : Exn + Response := inr (mkResponse c t).
Definition down : Exn + Response :=
  inl (mkExn "ConnectionError" "Connection reset by peer").

End Scenes.
(* ===================================================================== *)
(** * 8. The logging helpers ([utils/logger.py])                          *)
(* ===================================================================== *)

Module Logging.

(** The levels of the [logging] module. *)
Definition NOTSET : Z := 0.
Definition DEBUG : Z := 10.
Definition INFO : Z := 20.
Definition WARNING : Z := 30.
Definition ERROR : Z := 40.
Definition CRITICAL : Z := 50.

(** An argument of an f-string.  A duration is a float and only its place
    is kept. *)
Inductive Arg :=
  | AStr (s : string)
  | AInt (z : Z)
  | ADict (d : list (string * string))
  | ASeconds.

(** One call [logger.debug/info/warning/error/exception(f"...")]: its
    level, the f-string with [{}] for its fields (format specifications
    kept), the values of the fields, and whether the traceback goes with
    it ([logger.exception]).  The text is not rendered. *)
Record Call := mkCall {
  levelno : Z;
  template : string;
  args : list Arg;
  exc_info : bool
}.

Definition debug (template : string) (args : list Arg) : Call :=
  mkCall DEBUG template args false.
Definition info (template : string) (args : list Arg) : Call :=
  mkCall INFO template args false.
Definition warning (template : string) (args : list Arg) : Call :=
  mkCall WARNING template args false.
Definition error (template : string) (args : list Arg) : Call :=
  mkCall ERROR template args false.
Definition exception (template : string) (args : list Arg) : Call :=
  mkCall ERROR template args true.

(** ** [setup_logger] *)

Inductive Stream := FileStream (path : string) | Stdout | Stderr.

(** The two formatters of [setup_logger]; [no_formatter] is a handler
    whose formatter was never set. *)
Inductive Formatter := detailed_formatter | simple_formatter | no_formatter.

Record Handler := mkHandler {
  stream : Stream;
  handler_level : Z;
  formatter : Formatter
}.

(** A [logging.Logger]: its own level and its handlers. *)
Record Logger := mkLogger { level : Z; handlers : list Handler }.

(** The loggers [logging.getLogger] knows by name, and the folders made. *)
Record LogSystem := mkLogSystem {
  loggers : gmap string Logger;
  folders : gset string
}.

(** [logging.getLogger(name)]: the logger of that name, a new one (level
    [NOTSET], no handler) the first time. *)
Definition getLogger (name : string) (sys : LogSystem) : Logger :=
  default (mkLogger NOTSET []) (loggers sys !! name).

(** [setup_logger(name, log_folder, level)]: what it returns or raises, and
    the state it leaves.  [today] is [datetime.now().strftime('%Y%m%d')];
    [fault] tells on which paths [mkdir] and the opening of the log file
    raise. *)
Definition setup_logger (fault : string -> option Effects.Exn)
           (today : string) (name log_folder : string) (level : Z)
           (sys : LogSystem) : (Effects.Exn + Logger) * LogSystem :=
  match fault log_folder with
  | Some e => (inl e, sys)
  | None =>
      let folders1 := {[log_folder]} ∪ folders sys in
      let logger := mkLogger level (handlers (getLogger name sys)) in
      let sys1 := mkLogSystem (<[name := logger]> (loggers sys)) folders1 in
      match handlers logger with
      | _ :: _ => (inr logger, sys1)
      | [] =>
          let log_file :=
            log_folder +:+ "/" +:+ name +:+ "_" +:+ today +:+ ".log" in
          match fault log_file with
          | Some e => (inl e, sys1)
          | None =>
              let file_handler :=
                mkHandler (FileStream log_file) DEBUG detailed_formatter in
              let console_handler :=
                mkHandler Stdout level simple_formatter in
              let logger := mkLogger level [file_handler; console_handler] in
              (inr logger,
               mkLogSystem (<[name := logger]> (loggers sys)) folders1)
          end
      end
  end.

(** ** What a call on a logger reaches

    The loggers form a tree by their dotted names, under the root logger.
    [logging.getLogger("root")] is the root logger itself: it is kept under
    the name ["root"], at level [WARNING] and without handler as long as
    nothing configures it.  No logger has [propagate] set to false and
    [logging.disable] is never called: the program does neither. *)

Definition root (sys : LogSystem) : Logger :=
  default (mkLogger WARNING []) (loggers sys !! "root").

(** [getLogger("")] is the root logger too. *)
Definition is_root (name : string) : bool :=
  String.eqb name "root" || String.eqb name "".

(** The logger of a name, as it stands. *)
Definition logger_named (name : string) (sys : LogSystem) : Logger :=
  if is_root name then root sys else getLogger name sys.

(** [name.rfind(".", 0, stop)]: the index of the last dot before [stop]. *)
Fixpoint rfind_dot (name : string) (stop : nat) : option nat :=
  match stop with
  | O => None
  | S i =>
      match String.get i name with
      | Some c => if Ascii.eqb c "."%char then Some i else rfind_dot name i
      | None => rfind_dot name i
      end
  end.

(** The loop of [Manager._fixupParents]: the prefixes [name[:i]] it looks up,
    nearest first, [i] running over [name.rfind(".")],
    [name.rfind(".", 0, i - 1)], ... while [i > 0]. *)
Fixpoint prefixes_from (fuel : nat) (name : string) (i : option nat)
  : list string :=
  match fuel, i with
  | S fuel', Some (S i') =>
      String.substring 0 (S i') name
      :: prefixes_from fuel' name (rfind_dot name i')
  | _, _ => []
  end.

Definition prefixes (name : string) : list string :=
  prefixes_from (String.length name) name
                (rfind_dot name (String.length name)).

(** [logger.parent]: the nearest of these prefixes that names a logger, the
    root logger when there is none. *)
Definition parent (name : string) (sys : LogSystem) : option string :=
  List.find (fun prefix => bool_decide (is_Some (loggers sys !! prefix)))
            (prefixes name).

(** The loggers above the one called [name], nearest first, the root
    logger last.  A parent has a shorter name than its child: the length
    of the name bounds the walk. *)
Fixpoint ancestors_from (fuel : nat) (name : string) (sys : LogSystem)
  : list Logger :=
  if is_root name then []
  else
    match fuel with
    | O => [root sys]
    | S fuel' =>
        match parent name sys with
        | Some p => logger_named p sys :: ancestors_from fuel' p sys
        | None => [root sys]
        end
    end.

Definition ancestors (name : string) (sys : LogSystem) : list Logger :=
  ancestors_from (String.length name) name sys.

(** [Logger.getEffectiveLevel()]: the level of the nearest logger, from
    this one up, whose level is set; [NOTSET] when none is. *)
Definition getEffectiveLevel (name : string) (sys : LogSystem) : Z :=
  match List.find (fun l => negb (level l =? NOTSET)%Z)
                  (logger_named name sys :: ancestors name sys) with
  | Some l => level l
  | None => NOTSET
  end.

(** [logging.lastResort] *)
Definition lastResort : Handler := mkHandler Stderr WARNING no_formatter.

(** The handlers that let a call of level [levelno] through. *)
Definition accepting (levelno : Z) (hs : list Handler) : list Handler :=
  List.filter (fun h => (handler_level h <=? levelno)%Z) hs.

(** [Logger.callHandlers(record)]: the handlers of this logger and of the
    loggers above it, each asked whether its own level lets the record
    through; [lastResort] when there is no handler at all. *)
Definition callHandlers (name : string) (sys : LogSystem) (c : Call)
  : list Handler :=
  match flat_map handlers (logger_named name sys :: ancestors name sys) with
  | [] => accepting (levelno c) [lastResort]
  | found => accepting (levelno c) found
  end.

(** The handlers that emit a call made on the logger called [name]:
    [isEnabledFor] first ([manager.disable] is 0), then [callHandlers]. *)
Definition emitted (name : string) (sys : LogSystem) (c : Call)
  : list Handler :=
  if ((levelno c <=? 0) || (levelno c <? getEffectiveLevel name sys))%Z
  then []
  else callHandlers name sys c.


(** ** [log_api_request] *)

(** [c.lower()] and [s.lower()] on ASCII letters (header names are
    ASCII). *)
Definition lower_char (c : ascii) : ascii :=
  let n := nat_of_ascii c in
  if ((65 <=? n) && (n <=? 90))%nat then ascii_of_nat (n + 32) else c.

Fixpoint lower (s : string) : string :=
  match s with
  | EmptyString => EmptyString
  | String c s' => String (lower_char c) (lower s')
  end.

(** [p in s] *)
Fixpoint is_in (p s : string) : bool :=
  if String.prefix p s then true
  else match s with
       | EmptyString => false
       | String _ s' => is_in p s'
       end.

(** [{k: v for k, v in headers.items() if 'authorization' not in k.lower()}] *)
Definition safe_headers (headers : list (string * string))
  : list (string * string) :=
  List.filter (fun kv => negb (is_in "authorization" (lower (fst kv)))) headers.

(** [log_api_request(logger, method, url, params, headers, payload)]: the
    calls made on the logger, in order.  A dictionary that is [None] or
    empty is the empty list. *)
Definition log_api_request (method url : string)
           (params headers payload : list (string * string)) : list Call :=
  [info "API Request: {} {}" [AStr method; AStr url]]
  ++ (match params with
      | [] => []
      | _ :: _ => [debug "Parameters: {}" [ADict params]]
      end)
  ++ (match headers with
      | [] => []
      | _ :: _ => [debug "Headers: {}" [ADict (safe_headers headers)]]
      end)
  ++ (match payload with
      | [] => []
      | _ :: _ => [debug "Payload: {}" [ADict payload]]
      end).

(** ** [log_api_response] *)

(** [s[:n]] *)
Fixpoint prefix_of (n : nat) (s : string) : string :=
  match n, s with
  | O, _ => EmptyString
  | S n', String c s' => String c (prefix_of n' s')
  | S _, EmptyString => EmptyString
  end.

(** [response.text[:500] + "..." if len(response.text) > 500 else
    response.text] *)
Definition content_preview (text : string) : string :=
  if (500 <? String.length text)%nat then prefix_of 500 text +:+ "..."
  else text.

(** [log_api_response(logger, response)], [response_headers] being
    [dict(response.headers)]. *)
Definition log_api_response (status_code : Z) (text : string)
           (response_headers : list (string * string)) : list Call :=
  [info "API Response: {}" [AInt status_code];
   debug "Response Headers: {}" [ADict response_headers]]
  ++ (if (400 <=? status_code)%Z
      then [error "Error Response: {}" [AStr text]]
      else [debug "Response Content: {}" [AStr (content_preview text)]]).

(** ** [log_file_operation] *)

(** [log_file_operation(logger, operation, file_path, size, records)];
    [abs_path] is [os.path.abspath(file_path)]. *)
Definition log_file_operation (operation abs_path : string)
           (size records : option Z) : list Call :=
  [info "File {}: {}" [AStr operation; AStr abs_path]]
  ++ (match size with
      | Some z => if (z =? 0)%Z then []
                  else [info "File size: {:,} bytes" [AInt z]]
      | None => []
      end)
  ++ (match records with
      | Some n => [info "Records: {:,}" [AInt n]]
      | None => []
      end).

End Logging.
(* ===================================================================== *)
(** * 9. The orchestrator ([main.py])                                     *)
(* ===================================================================== *)

Module Main.
Import Effects Logging.

(** The state of a run of the orchestrator: the state of the pipelines and
    the calls made on the logger ['main'], oldest first. *)
Record MainState := mkMainState {
  run : State;
  calls : list Call
}.

Definition O (A : Type) : Type := MainState -> (Exn + A) * MainState.

Definition oret {A} (a : A) : O A := fun ms => (inr a, ms).

Definition obind {A B} (m : O A) (k : A -> O B) : O B :=
  fun ms =>
    match m ms with
    | (inl e, ms') => (inl e, ms')
    | (inr a, ms') => k a ms'
    end.

(** [try: body except Exception as e: handler(e)] *)
Definition otry {A} (body : O A) (handler : Exn -> O A) : O A :=
  fun ms =>
    match body ms with
    | (inl e, ms') => handler e ms'
    | (inr a, ms') => (inr a, ms')
    end.

(** A pipeline computation run inside the orchestrator. *)
Definition call {A} (m : M A) : O A :=
  fun ms =>
    match m (run ms) with
    | (r, s') => (r, mkMainState s' (calls ms))
    end.

(** [logger.<level>(...)] *)
Definition log (c : Call) : O unit :=
  fun ms => (inr tt, mkMainState (run ms) (calls ms ++ [c])).

(** [with LoggerContext(logger, function_name, **kwargs): body]:
    [__enter__], the body, [__exit__], which returns [False] and so lets
    an exception of the body go on. *)
Definition LoggerContext {A} (function_name : string)
           (kwargs : list (string * string)) (body : O A) : O A :=
  obind (log (info "Starting {}" [AStr function_name])) (fun _ =>
  obind (match kwargs with
         | [] => oret tt
         | _ :: _ => log (debug "Parameters: {}" [ADict kwargs])
         end) (fun _ =>
  fun ms =>
    match body ms with
    | (inr a, ms') =>
        obind (log (info "Completed {} in {:.2f}s"
                         [AStr function_name; ASeconds]))
              (fun _ => oret a) ms'
    | (inl e, ms') =>
        obind (log (error "Failed {} after {:.2f}s: {}"
                          [AStr function_name; ASeconds; AStr (str e)]))
              (fun _ => fun ms'' => (inl e, ms'')) ms'
    end)).

(** An element of [results]: [{"name": ..., "result": ...}] (the duration
    is left out). *)
Record Entry := mkEntry { name : string; result : Result }.

Section Orchestrator.
Variable w : World.

(** The list [reports]. *)
Definition reports : list (string * M Result) :=
  [("Payment Report", Payment.generate_payment_report w);
   ("Debt Report", Debt.generate_debt_report w);
   ("Valuation Report", Valuation.generate_valuation_report w)].

(** The body of the loop [for report in reports]. *)
Definition run_report (report : string * M Result) (results : list Entry)
  : O (list Entry) :=
  let '(report_name, function) := report in
  obind (log (info "Starting {}..." [AStr report_name])) (fun _ =>
  otry
    (obind (call function) (fun result =>
     obind (if success result
            then log (info "{} completed in {:.2f}s" [AStr report_name; ASeconds])
            else log (error "{} failed: {}"
                            [AStr report_name;
                             AStr (default "Unknown error" (Effects.error result))]))
           (fun _ => oret (results ++ [mkEntry report_name result]))))
    (fun e =>
       obind (log (exception "{} crashed after {:.2f}s"
                             [AStr report_name; ASeconds]))
             (fun _ => oret (results ++ [mkEntry report_name (failed (str e))])))).

Fixpoint run_loop (reports : list (string * M Result)) (results : list Entry)
  : O (list Entry) :=
  match reports with
  | [] => oret results
  | report :: reports' =>
      obind (run_report report results) (fun results' =>
      run_loop reports' results')
  end.

(** [run_reports_sequentially()] *)
Definition run_reports_sequentially : O (list Entry) :=
  LoggerContext "run_reports_sequentially" [] (run_loop reports []).

(** The loop [for item in results] of [print_summary], with its three
    counters. *)
Fixpoint summary_loop (results : list Entry) (successful failed : nat)
         (total_records : Z) : O (nat * nat * Z) :=
  match results with
  | [] => oret (successful, failed, total_records)
  | item :: results' =>
      if success (result item) then
        let records := default 0 (records (result item)) in
        obind (log (info "{}: {:,} records{}"
                         [AStr (name item); AInt records; ASeconds])) (fun _ =>
        obind (log (info "  File: {} ({:,} bytes)"
                         [AStr (default "Unknown location"
                                        (file_path (result item)));
                          AInt (default 0 (file_size (result item)))])) (fun _ =>
        summary_loop results' (S successful) failed (total_records + records)))
      else
        obind (log (error "{}: {}"
                          [AStr (name item);
                           AStr (default "Unknown error"
                                         (Effects.error (result item)))])) (fun _ =>
        summary_loop results' successful (S failed) total_records)
  end.

(** [print_summary(results)] *)
Definition print_summary (results : list Entry) : O (nat * nat * Z) :=
  obind (log (info "==================================================" [])) (fun _ =>
  obind (log (info "REPORT GENERATION SUMMARY" [])) (fun _ =>
  obind (log (info "==================================================" [])) (fun _ =>
  obind (summary_loop results 0 0 0) (fun counts =>
  let '(successful, failed, total_records) := counts in
  obind (log (info "--------------------------------------------------" [])) (fun _ =>
  obind (log (info "Total: {} successful, {} failed"
                   [AInt (Z.of_nat successful); AInt (Z.of_nat failed)])) (fun _ =>
  obind (log (info "Total records: {:,}" [AInt total_records])) (fun _ =>
  obind (log (info "Total time: {:.2f}s" [ASeconds])) (fun _ =>
  obind (log (info "Output folder: {}" [AStr (abspath w "Generated Files")])) (fun _ =>
  obind (log (info "Log folder: {}" [AStr (abspath w "logs")])) (fun _ =>
  oret (successful, failed, total_records))))))))))).

(** [run_reports_parallel(max_workers)] is not modelled: the order in which
    its threads finish is not fixed by the program. *)
Variable run_reports_parallel : Z -> O (list Entry).

Definition DEFAULT_EXECUTION_METHOD : string := "1".

(** The block under [if __name__ == "__main__":], [cwd] being
    [os.getcwd()].  The handler of [KeyboardInterrupt] is left out, no
    computation of the model raising it, and so is the [print] of the last
    handler. *)
Definition main (cwd : string) : O unit :=
  otry
    (obind (log (info "Nexmetro Chatham Financial Report Generator Starting" []))
       (fun _ =>
     obind (log (info "Working directory: {}" [AStr cwd])) (fun _ =>
     obind (log (info "Output directory: {}"
                      [AStr (abspath w "Generated Files")])) (fun _ =>
     obind (log (info "Log directory: {}" [AStr (abspath w "logs")])) (fun _ =>
     let choice := DEFAULT_EXECUTION_METHOD in
     obind (log (info "Using execution method: {} ({})"
                      [AStr choice;
                       AStr (if String.eqb choice "1" then "Sequential"
                             else "Parallel")])) (fun _ =>
     obind (if String.eqb choice "2" then run_reports_parallel 2
            else run_reports_sequentially) (fun results =>
     obind (print_summary results) (fun counts =>
     let '(successful, failed, total_records) := counts in
     obind (log (info "All operations completed in {:.2f}s" [ASeconds]))
       (fun _ =>
     if Nat.eqb failed 0
     then log (info "All reports generated successfully!" [])
     else log (warning "{} report(s) failed. Check logs for details."
                       [AInt (Z.of_nat failed)]))))))))))
    (fun e => log (exception "Fatal error occurred" [])).

End Orchestrator.

(** What is counted in a list of results. *)
Definition successes (results : list Entry) : nat :=
  length (List.filter (fun item => success (result item)) results).

Definition failures (results : list Entry) : nat :=
  length (List.filter (fun item => negb (success (result item))) results).

Fixpoint records_total (results : list Entry) : Z :=
  match results with
  | [] => 0
  | item :: results' =>
      (if success (result item) then default 0 (records (result item)) else 0)
      + records_total results'
  end.

(** The calls at level [ERROR] in a list of calls. *)
Definition errors (l : list Call) : list Call :=
  List.filter (fun c => (levelno c =? ERROR)%Z) l.

(** The calls made for one report by [run_reports_sequentially]. *)
Definition report_calls (report_name : string) (r : Result) : list Call :=
  [info "Starting {}..." [AStr report_name];
   if success r
   then info "{} completed in {:.2f}s" [AStr report_name; ASeconds]
   else error "{} failed: {}"
              [AStr report_name; AStr (default "Unknown error" (Effects.error r))]].

(** The first calls of the main block. *)
Definition opening_calls (w : World) (cwd : string) : list Call :=
  [info "Nexmetro Chatham Financial Report Generator Starting" [];
   info "Working directory: {}" [AStr cwd];
   info "Output directory: {}" [AStr (abspath w "Generated Files")];
   info "Log directory: {}" [AStr (abspath w "logs")];
   info "Using execution method: {} ({})" [AStr "1"; AStr "Sequential"]].

(** The last call of the main block. *)
Definition verdict (results : list Entry) : Call :=
  if Nat.eqb (failures results) 0
  then info "All reports generated successfully!" []
  else warning "{} report(s) failed. Check logs for details."
               [AInt (Z.of_nat (failures results))].

End Main.
(* ===================================================================== *)
(** * 10. The flattener: theorems                                         *)
(* ===================================================================== *)

Module XmlFacts.
Import Xml.

Example split_ex1 : split rbrace "{ns}Foo" = ["{ns"; "Foo"].
Proof. reflexivity. Qed.
Example split_ex2 : split rbrace "{a}b}Foo" = ["{a"; "b"; "Foo"].
Proof. reflexivity. Qed.
Example split_ex3 : split rbrace "" = [""].
Proof. reflexivity. Qed.
Example split_ex4 : split rbrace "}" = [""; ""].
Proof. reflexivity. Qed.

Lemma split_nonempty sep s : split sep s <> [].
Proof.
  destruct s as [|c s]; simpl; [done|].
  destruct (Ascii.eqb c sep); [done|].
  destruct (split sep s); done.
Qed.

Lemma split_contains_length sep s :
  contains sep s = true -> (2 <= length (split sep s))%nat.
Proof.
  induction s as [|c s IH]; simpl; [done|].
  destruct (Ascii.eqb c sep).
  - intros _. pose proof (split_nonempty sep s).
    destruct (split sep s); simpl; [done | lia].
  - intros H. specialize (IH H).
    destruct (split sep s); simpl in *; lia.
Qed.

Lemma split_absent sep s : contains sep s = false -> split sep s = [s].
Proof.
  induction s as [|c s IH]; simpl; [done|].
  destruct (Ascii.eqb c sep); [done|].
  intros H. by rewrite IH.
Qed.

Lemma contains_app sep a b :
  contains sep (a +:+ b) = contains sep a || contains sep b.
Proof.
  induction a as [|c a IH]; simpl; [done|].
  by destruct (Ascii.eqb c sep).
Qed.

Lemma split_app_sep sep a b :
  contains sep a = false ->
  split sep (a +:+ String sep b) = a :: split sep b.
Proof.
  induction a as [|c a IH]; simpl.
  - intros _. by rewrite Ascii.eqb_refl.
  - destruct (Ascii.eqb c sep); [done|].
    intros H. by rewrite IH.
Qed.

Lemma local_tag_qualified ns name :
  contains rbrace ns = false ->
  contains rbrace name = false ->
  local_tag (qualified ns name) = name.
Proof.
  intros Hns Hname. unfold local_tag, qualified.
  assert (Hsplit : split rbrace ("{" +:+ ns +:+ "}" +:+ name)
                   = ("{" +:+ ns) :: [name]).
  { change ("{" +:+ ns +:+ "}" +:+ name)
      with (("{" +:+ ns) +:+ String rbrace name).
    rewrite split_app_sep.
    - by rewrite split_absent.
    - simpl. done. }
  rewrite Hsplit.
  change ("{" +:+ ns +:+ "}" +:+ name)
    with (("{" +:+ ns) +:+ String rbrace name).
  rewrite contains_app. 
  replace (contains rbrace (String rbrace name)) with true by done.
  by rewrite orb_true_r.
Qed.

Lemma local_tag_plain t : contains rbrace t = false -> local_tag t = t.
Proof. unfold local_tag. by intros ->. Qed.

Lemma flatten_xml_unfold e p :
  flatten_xml e p = fold_left step (children e) ∅.
Proof.
  destruct e as [t x cs]. simpl.
  generalize (∅ : gmap string (option string)).
  induction cs as [|c cs IH]; intros acc; simpl; [done|].
  rewrite IH. f_equal. unfold step, fields.
  destruct (has_children c); [done|].
  by rewrite insert_union_singleton_l.
Qed.

Lemma flatten_xml_parent_tag e p q : flatten_xml e p = flatten_xml e q.
Proof. by rewrite !flatten_xml_unfold. Qed.

Lemma fold_step_miss cs acc k :
  Forall (fun c => fields c !! k = None) cs ->
  fold_left step cs acc !! k = acc !! k.
Proof.
  intros H. revert acc. induction H as [|c cs Hc _ IH]; intros acc; simpl; [done|].
  rewrite IH. unfold step. rewrite lookup_union_r; done.
Qed.

Lemma fold_step_last before c after acc k v :
  fields c !! k = Some v ->
  Forall (fun c' => fields c' !! k = None) after ->
  fold_left step (before ++ c :: after) acc !! k = Some v.
Proof.
  intros Hc Hafter. rewrite fold_left_app. simpl.
  rewrite fold_step_miss by done.
  unfold step. by apply lookup_union_Some_l.
Qed.

Lemma fold_step_keeps cs acc k :
  is_Some (acc !! k) -> is_Some (fold_left step cs acc !! k).
Proof.
  revert acc. induction cs as [|c cs IH]; intros acc H; simpl; [done|].
  apply IH. unfold step. rewrite lookup_union. 
  destruct H as [v ->]. destruct (fields c !! k); done.
Qed.

Lemma fold_step_leaves cs acc :
  Forall (fun c => has_children c = false) cs ->
  fold_left step cs acc
  = fold_left (fun d c => <[local_tag (tag c) := text c]> d) cs acc.
Proof.
  intros H. revert acc. induction H as [|c cs Hc _ IH]; intros acc; simpl; [done|].
  rewrite IH. f_equal. unfold step, fields. rewrite Hc.
  by rewrite insert_union_singleton_l.
Qed.

Lemma fields_leaf_other c k :
  has_children c = false -> local_tag (tag c) <> k -> fields c !! k = None.
Proof.
  intros Hc Hk. unfold fields. rewrite Hc. by rewrite lookup_singleton_ne.
Qed.

Lemma fields_leaf_own c :
  has_children c = false -> fields c !! local_tag (tag c) = Some (text c).
Proof.
  intros Hc. unfold fields. rewrite Hc. by rewrite lookup_singleton_eq.
Qed.

(** Induction on elements, with the hypothesis for all the children. *)
Lemma Element_induction (P : Element -> Prop) :
  (forall t x cs, Forall P cs -> P (Elem t x cs)) -> forall e, P e.
Proof.
  intros H. fix IH 1. intros [t x cs]. apply H.
  induction cs as [|c cs IHcs]; constructor; [apply IH | exact IHcs].
Qed.

Lemma fold_put_union l d :
  fold_left put l d = fold_left put l ∅ ∪ d.
Proof.
  revert d. induction l as [|[k v] l IH]; intros d; simpl.
  - by rewrite (left_id_L ∅ (∪)).
  - rewrite IH. rewrite (IH (put ∅ (k, v))). unfold put. simpl.
    rewrite <- (assoc_L (∪)). f_equal.
    by rewrite insert_union_singleton_l.
Qed.

Lemma flatten_xml_leaves e p :
  flatten_xml e p = fold_left put (leaves e) ∅.
Proof.
  revert p. induction e as [t x cs IH] using Element_induction. intros p.
  rewrite flatten_xml_unfold. simpl.
  generalize (∅ : gmap string (option string)).
  induction IH as [|c cs Hc _ IHcs]; intros acc; simpl; [done|].
  rewrite fold_left_app, IHcs. f_equal.
  unfold step, fields. destruct (has_children c).
  - rewrite Hc. symmetry. apply fold_put_union.
  - simpl. unfold put. simpl. by rewrite insert_union_singleton_l.
Qed.

Lemma fold_put_last l1 k v l2 d :
  k ∉ l2.*1 -> fold_left put (l1 ++ (k, v) :: l2) d !! k = Some v.
Proof.
  intros Hk. rewrite fold_left_app. simpl.
  generalize (fold_left put l1 d). intros acc.
  assert (H : put acc (k, v) !! k = Some v) by apply lookup_insert_eq.
  revert H. generalize (put acc (k, v)). 
  induction l2 as [|[k' v'] l2 IH]; intros acc' H; simpl; [done|].
  apply IH.
  - rewrite fmap_cons in Hk. by apply not_elem_of_cons in Hk as [_ Hk].
  - unfold put. simpl. rewrite lookup_insert_ne; [done|].
    rewrite fmap_cons in Hk. apply not_elem_of_cons in Hk as [Hk _].
    simpl in Hk. congruence.
Qed.

Example flatten_loan_with_terms :
  flatten_xml loan_with_terms "Loan"
  = {[ "Id" := Some "9"; "Rate" := Some "1.5"; "Note" := None ]}.
Proof. vm_compute. reflexivity. Qed.

Example flatten_flat_loan :
  flatten_xml flat_loan "Loan"
  = {[ "Amount" := Some "1000"; "Currency" := Some "USD" ]}.
Proof. vm_compute. reflexivity. Qed.

(** The last leaf of a name in document order gives the flattened value. *)
Lemma flatten_document_order e p l1 k v l2 :
  leaves e = l1 ++ (k, v) :: l2 -> k ∉ l2.*1 ->
  flatten_xml e p !! k = Some v.
Proof.
  intros Hleaves Hk. rewrite flatten_xml_leaves, Hleaves.
  by apply fold_put_last.
Qed.

Lemma fold_tags_plain cs (acc : gmap string (option string)) :
  Forall (fun c => contains rbrace (tag c) = false) cs ->
  fold_left (fun d c => <[local_tag (tag c) := text c]> d) cs acc
  = fold_left (fun d c => <[tag c := text c]> d) cs acc.
Proof.
  intros H. revert acc. induction H as [|c cs Hc _ IH]; intros acc; simpl; [done|].
  by rewrite IH, (local_tag_plain _ Hc).
Qed.

(** C4.  Namespace stripping.  The parser writes the tag of an element
    [name] in the namespace [ns] as ["{ns}name"], and accepts the character
    '}' neither in a namespace name nor in a local name.  For every such
    [ns] and [name] the tag ["{ns}name"] is normalised to [name]; a leaf
    so tagged is flattened to the key [name], and [name] is a key of the
    flattening of any element that has such a leaf among its children. *)
Theorem namespace_stripping ns name :
  contains rbrace ns = false ->
  contains rbrace name = false ->
  local_tag (qualified ns name) = name
  /\ strips_namespace ns name
  /\ (forall e p y,
        Elem (qualified ns name) y [] ∈ children e ->
        is_Some (flatten_xml e p !! name)).
Proof.
  intros Hns Hname.
  pose proof (local_tag_qualified _ _ Hns Hname) as Hkey.
  split; [done|]. split.
  - intros t x y p. rewrite flatten_xml_unfold. simpl.
    unfold step, fields. simpl. rewrite Hkey.
    rewrite lookup_union_l by done. apply lookup_singleton_eq.
  - intros e p y Hin. rewrite flatten_xml_unfold.
    apply list_elem_of_split in Hin as (l1 & l2 & ->).
    rewrite fold_left_app. simpl. apply fold_step_keeps.
    unfold step, fields. simpl. rewrite Hkey.
    exists y. apply lookup_union_Some_l, lookup_singleton_eq.
Qed.

Lemma namespace_stripping_witness :
  local_tag (qualified "http://schemas.datacontract.org/2009/11/Chatham.FMS.Data"
                       "Amount") = "Amount"
  /\ strips_namespace "http://schemas.datacontract.org/2009/11/Chatham.FMS.Data"
                      "Amount"
  /\ (forall e p y,
        Elem (qualified "http://schemas.datacontract.org/2009/11/Chatham.FMS.Data"
                        "Amount") y [] ∈ children e ->
        is_Some (flatten_xml e p !! "Amount")).
Proof.
  apply (namespace_stripping
           "http://schemas.datacontract.org/2009/11/Chatham.FMS.Data" "Amount");
    reflexivity.
Defined.

(** C6.  Key collision: when two different children [c1] and [c2] of an
    element, [c1] before [c2], both produce a field named [k], and no child
    after [c2] produces it, the flattened dictionary holds for [k] the
    value produced by [c2], the one visited last. *)
Theorem flatten_last_write_wins e p l1 c1 l2 c2 l3 k v1 v2 :
  children e = l1 ++ c1 :: l2 ++ c2 :: l3 ->
  fields c1 !! k = Some v1 ->
  fields c2 !! k = Some v2 ->
  Forall (fun c => fields c !! k = None) l3 ->
  flatten_xml e p !! k = Some v2.
Proof.
  intros Hcs _ H2 H3. rewrite flatten_xml_unfold, Hcs.
  replace (l1 ++ c1 :: l2 ++ c2 :: l3) with ((l1 ++ c1 :: l2) ++ c2 :: l3)
    by (by rewrite <- app_assoc).
  by apply fold_step_last.
Qed.

Lemma flatten_last_write_wins_witness :
  flatten_xml loan_with_terms "Loan" !! "Id" = Some (Some "9").
Proof.
  apply (flatten_last_write_wins loan_with_terms "Loan"
           [] (Elem "{u}Id" (Some "7") []) []
           (Elem "{u}Terms" None
              [Elem "{u}Rate" (Some "1.5") []; Elem "{u}Id" (Some "9") []])
           [Elem "Note" None []] "Id" (Some "7") (Some "9")).
  - reflexivity.
  - vm_compute. reflexivity.
  - vm_compute. reflexivity.
  - repeat constructor.
Defined.

(** C7.  Flat input: when every child of an element is a leaf, flattening
    gives exactly the dictionary [{key(c): c.text for c in children}],
    where the key of a child is its tag name (without the namespace part);
    with distinct keys every child is found under its key with its text;
    and with tags that carry no namespace the keys are the tags
    themselves. *)
Theorem flatten_flat_input e p :
  Forall (fun c => children c = []) (children e) ->
  flatten_xml e p = dict_of_children (children e)
  /\ (NoDup (local_tag <$> (tag <$> children e)) ->
      forall c, c ∈ children e ->
        flatten_xml e p !! local_tag (tag c) = Some (text c))
  /\ (Forall (fun c => contains rbrace (tag c) = false) (children e) ->
      flatten_xml e p = dict_of_tags (children e)).
Proof.
  intros Hflat.
  assert (Hleaf : Forall (fun c => has_children c = false) (children e)).
  { eapply Forall_impl; [exact Hflat|]. intros c Hc. unfold has_children.
    by rewrite Hc. }
  assert (Hdict : flatten_xml e p = dict_of_children (children e)).
  { rewrite flatten_xml_unfold. by apply fold_step_leaves. }
  split; [done|]. split.
  - intros Hnd c Hin. rewrite flatten_xml_unfold.
    apply list_elem_of_split in Hin as (l1 & l2 & Heq).
    rewrite Heq in *.
    apply fold_step_last.
    + apply fields_leaf_own. rewrite Forall_app, Forall_cons in Hleaf. tauto.
    + rewrite !fmap_app, !fmap_cons in Hnd.
      apply NoDup_app in Hnd as (_ & _ & Hnd).
      apply NoDup_cons in Hnd as [Hnotin _].
      rewrite Forall_app, Forall_cons in Hleaf.
      destruct Hleaf as (_ & _ & Hl2).
      rewrite Forall_forall in Hl2. apply Forall_forall. intros c' Hc'.
      apply fields_leaf_other; [by apply Hl2|].
      intros Hk. apply Hnotin. rewrite <- Hk.
      apply list_elem_of_fmap. exists (tag c'). split; [done|].
      apply list_elem_of_fmap. by exists c'.
  - intros Hplain. rewrite Hdict. by apply fold_tags_plain.
Qed.

Lemma flatten_flat_input_witness :
  flatten_xml flat_loan "Loan" = dict_of_children (children flat_loan)
  /\ (NoDup (local_tag <$> (tag <$> children flat_loan)) ->
      forall c, c ∈ children flat_loan ->
        flatten_xml flat_loan "Loan" !! local_tag (tag c) = Some (text c))
  /\ (Forall (fun c => contains rbrace (tag c) = false) (children flat_loan) ->
      flatten_xml flat_loan "Loan" = dict_of_tags (children flat_loan)).
Proof.
  apply (flatten_flat_input flat_loan "Loan").
  repeat constructor.
Defined.

End XmlFacts.

(* ===================================================================== *)
(** * 11. Running computations: generic facts                             *)
(* ===================================================================== *)

Module RunFacts.
Import Effects Effects.Notations Observe.

Lemma requests_made_app l1 l2 :
  requests_made (l1 ++ l2) = (requests_made l1 + requests_made l2)%nat.
Proof. unfold requests_made, requests_of. by rewrite flat_map_app, length_app. Qed.

Lemma bind_inr {A B} (m : M A) (k : A -> M B) s a s' :
  m s = (inr a, s') -> bind m k s = k a s'.
Proof. unfold bind. by intros ->. Qed.

Lemma send_answer w req s :
  send w req s
  = (http w (requests_made (log s)) req,
     emit (EvRequest req (http w (requests_made (log s)) req)) s).
Proof. reflexivity. Qed.

Lemma lift_run {A} (r : Exn + A) s : lift r s = (r, s).
Proof. by destruct r. Qed.

Lemma logged_nil s : logged s [] = s.
Proof. destruct s. unfold logged. simpl. by rewrite app_nil_r. Qed.

Lemma logged_logged s l1 l2 : logged (logged s l1) l2 = logged s (l1 ++ l2).
Proof. unfold logged. simpl. by rewrite app_assoc. Qed.

Lemma emit_logged ev s : emit ev s = logged s [ev].
Proof. reflexivity. Qed.

Lemma requests_made_emit req a s :
  requests_made (log (emit (EvRequest req a) s)) = S (requests_made (log s)).
Proof.
  simpl. rewrite requests_made_app.
  change (requests_made [EvRequest req a]) with 1%nat. lia.
Qed.

Lemma requests_made_logged s new :
  requests_made (log (logged s new))
  = (requests_made (log s) + requests_made new)%nat.
Proof. simpl. apply requests_made_app. Qed.

Lemma drop_logged s new : drop (length (log s)) (log (logged s new)) = new.
Proof. simpl. by rewrite drop_app_length. Qed.

Lemma attempts_gets w req n k d :
  is_get req = true -> gets (attempts w req n k d) = replicate k req.
Proof.
  intros Hm. revert n. induction k as [|k IH]; intros n; [done|].
  simpl. rewrite Hm. simpl. by rewrite IH.
Qed.

Lemma attempts_sleeps w req n k d :
  sleeps (attempts w req n k d) = replicate k d.
Proof. revert n. induction k as [|k IH]; intros n; [done|]. simpl. by rewrite IH. Qed.

Lemma attempts_writes w req n k d : writes (attempts w req n k d) = [].
Proof. revert n. induction k as [|k IH]; intros n; [done|]. simpl. by rewrite IH. Qed.

Lemma attempts_requests w req n k d :
  requests_made (attempts w req n k d) = k.
Proof.
  revert n. induction k as [|k IH]; intros n; [done|].
  unfold requests_made in *. simpl. by rewrite IH.
Qed.

(** A [try]/[except Exception] whose handler returns never raises, and turns
    an exception of the body into what the handler returns. *)
Lemma try_except_run {A} (body : M A) (h : Exn -> A) s :
  (exists a s', try_except body (fun e => ret (h e)) s = (inr a, s')) /\
  (forall e s', body s = (inl e, s') ->
     try_except body (fun e => ret (h e)) s = (inr (h e), s')) /\
  (forall a s', body s = (inr a, s') ->
     try_except body (fun e => ret (h e)) s = (inr a, s')).
Proof.
  unfold try_except, ret.
  destruct (body s) as [[e|a] s'] eqn:Hb.
  - split; [by eexists _, _|]. split; intros ? ? [= <- <-]; done.
  - split; [by eexists _, _|]. split; intros ? ? [= <- <-]; done.
Qed.

End RunFacts.

(* ===================================================================== *)
(** * 12. Protocol A: theorems                                            *)
(* ===================================================================== *)

Module DebtFacts.
Import Effects Effects.Notations Observe RunFacts Debt DebtSpec.

Lemma jobid_queued w s job_id :
  job_queued w (requests_made (log s)) job_id ->
  jobid w s
  = (inr (Some job_id),
     logged s [EvRequest (queue_request w)
                         (http w (requests_made (log s)) (queue_request w))]).
Proof.
  intros (resp & j & Hresp & Hcode & Hj & Hid & _).
  unfold jobid, requests_post.
  erewrite bind_inr;
    [|rewrite send_answer; fold (queue_request w); rewrite Hresp at 1; reflexivity].
  rewrite Hcode. simpl.
  erewrite bind_inr; [|unfold json; rewrite Hj; reflexivity].
  by rewrite Hid.
Qed.

(** While every answer is a non-200, the loop spends all its attempts, a
    request and a sleep each, and leaves with [success = False]. *)
Lemma retry_loop_exhausted w job_id k : forall s,
  (forall i, (i < k)%nat ->
     exists resp,
       http w (requests_made (log s) + i) (report_request w job_id) = inr resp
       /\ status_code resp <> 200) ->
  retry_loop w ("https://api.chathamdirect.com/report/" +:+ job_id) k s
  = (inr None,
     logged s (attempts w (report_request w job_id) (requests_made (log s)) k 30)).
Proof.
  induction k as [|k IH]; intros s H.
  - simpl. unfold ret. by rewrite logged_nil.
  - cbn [retry_loop]. unfold requests_get.
    destruct (H 0%nat ltac:(lia)) as (resp & Hresp & Hcode).
    rewrite Nat.add_0_r in Hresp.
    erewrite bind_inr;
      [|rewrite send_answer; fold (report_request w job_id);
        rewrite Hresp at 1; reflexivity].
    apply Z.eqb_neq in Hcode. rewrite Hcode.
    erewrite bind_inr; [|reflexivity].
    rewrite !emit_logged, logged_logged.
    rewrite IH.
    + rewrite logged_logged. do 2 f_equal. simpl.
      do 3 f_equal. rewrite requests_made_app. unfold requests_made. simpl. lia.
    + intros i Hi.
      destruct (H (S i) ltac:(lia)) as (r & Hr & Hc). exists r. split; [|done].
      rewrite <- Hr. f_equal. rewrite requests_made_logged.
      unfold requests_made. simpl. lia.
Qed.

(** C2.  Retry bound of the debt report.  Once the job is queued, if the
    report GET is answered with a non-200 status every time, the pipeline
    sends exactly five GETs for the report, sleeps 30 seconds after each of
    them (the log after the submission is five times a request then a
    sleep), returns [success = False] with the error "Failed to retrieve
    data after multiple attempts", and writes no file. *)
Theorem debt_retry_bound w s job_id :
  job_queued w (requests_made (log s)) job_id ->
  always_non200 w (report_request w job_id) ->
  exists post new,
    generate_debt_report w s
    = (inr (failed "Failed to retrieve data after multiple attempts"),
       logged s (EvRequest (queue_request w) post :: new))
    /\ new = attempts w (report_request w job_id)
                       (S (requests_made (log s))) 5 30
    /\ gets new = replicate 5 (report_request w job_id)
    /\ sleeps new = [30; 30; 30; 30; 30]
    /\ writes new = [].
Proof.
  intros Hq Hnon.
  pose proof (jobid_queued _ _ _ Hq) as Hjob.
  destruct Hq as (_ & _ & _ & _ & _ & _ & Hne).
  eexists _, _.
  unfold generate_debt_report, try_except, body.
  erewrite bind_inr; [|exact Hjob].
  destruct job_id as [|c job_id]; [done|].
  erewrite bind_inr; [|apply retry_loop_exhausted; intros i _; apply Hnon].
  rewrite logged_logged, requests_made_logged. cbv beta iota. unfold ret.
  change (requests_made [EvRequest (queue_request w)
                           (http w (requests_made (log s)) (queue_request w))])
    with 1%nat.
  replace (requests_made (log s) + 1)%nat with (S (requests_made (log s))) by lia.
  split; [reflexivity|].
  split; [reflexivity|].
  split; [by apply attempts_gets|].
  split; [apply (attempts_sleeps _ _ _ 5)|apply attempts_writes].
Qed.

Lemma debt_retry_bound_witness :
  exists post new,
    generate_debt_report Mock.never_ready Mock.initial
    = (inr (failed "Failed to retrieve data after multiple attempts"),
       logged Mock.initial
              (EvRequest (queue_request Mock.never_ready) post :: new))
    /\ new = attempts Mock.never_ready (report_request Mock.never_ready "J1")
                       1 5 30
    /\ gets new = replicate 5 (report_request Mock.never_ready "J1")
    /\ sleeps new = [30; 30; 30; 30; 30]
    /\ writes new = [].
Proof.
  apply (debt_retry_bound Mock.never_ready Mock.initial "J1").
  - eexists _, _. repeat split; try reflexivity. discriminate.
  - intros n. eexists. split; [reflexivity | discriminate].
Defined.

(** End to end: one loan with an amount and a currency gives one row with
    the timestamp and the two fields, [records = 1] and
    [success = True]. *)
Example debt_one_loan :
  fst (generate_debt_report Mock.one_loan_ready Mock.initial)
  = inr (succeeded "/srv/reports/./Generated Files/Debt_Report.xlsx" 4160 1)
  /\ (rows <$> files (snd (generate_debt_report Mock.one_loan_ready Mock.initial))
                !! output_path)
     = Some [ {[ "RunDate" := CStr "2023-11-14 22:13:20";
                 "Amount" := CStr "1000";
                 "Currency" := CStr "USD" ]} ].
Proof. vm_compute. split; reflexivity. Qed.

End DebtFacts.

(* ===================================================================== *)
(** * 13. Protocol C: theorems                                            *)
(* ===================================================================== *)

Module ValuationFacts.
Import Effects Effects.Notations Observe RunFacts Valuation ValuationSpec.

Lemma poll_step w job_id retries delay s :
  poll_report_status w job_id (S retries) delay s
  = let req := poll_request w job_id in
    let answer := http w (requests_made (log s)) req in
    let s1 := logged s [EvRequest req answer] in
    match answer with
    | inl e => (inl e, s1)
    | inr response =>
        if (status_code response =? 200)%Z then
          (json_loads w (text response), s1)
        else if (status_code response =? 202)%Z then
          poll_report_status w job_id retries delay (logged s1 [EvSleep delay])
        else (inl (unexpected_status response), s1)
    end.
Proof.
  cbn [poll_report_status]. unfold requests_get, bind at 1.
  rewrite send_answer. fold (poll_request w job_id).
  cbv zeta. rewrite emit_logged.
  destruct (http w (requests_made (log s)) (poll_request w job_id))
    as [e|response]; [done|].
  destruct (status_code response =? 200)%Z.
  - unfold json. apply lift_run.
  - destruct (status_code response =? 202)%Z; [|done].
    unfold bind, sleep. by rewrite emit_logged.
Qed.

(** While the answers are 202 the loop goes on: [k] pending answers cost
    [k] of the attempts, a request and a sleep each. *)
Lemma poll_pending w job_id delay m k : forall s,
  pending w (poll_request w job_id) (requests_made (log s)) k ->
  poll_report_status w job_id (k + m) delay s
  = poll_report_status w job_id m delay
      (logged s (attempts w (poll_request w job_id)
                          (requests_made (log s)) k delay)).
Proof.
  induction k as [|k IH]; intros s H.
  - simpl. by rewrite logged_nil.
  - change (S k + m)%nat with (S (k + m)). rewrite poll_step. cbv zeta.
    destruct (H 0%nat ltac:(lia)) as (resp & Hresp & Hcode).
    rewrite Nat.add_0_r in Hresp. rewrite Hresp, Hcode. simpl (_ =? _)%Z.
    cbv iota. rewrite logged_logged, IH.
    + rewrite logged_logged. do 2 f_equal. simpl.
      rewrite Hresp. do 3 f_equal.
      rewrite requests_made_app. unfold requests_made. simpl. lia.
    + intros i Hi. destruct (H (S i) ltac:(lia)) as (r & Hr & Hc).
      exists r. split; [|done]. rewrite <- Hr. f_equal.
      rewrite requests_made_logged. unfold requests_made. simpl. lia.
Qed.

(** C3.  Polling of the valuation job, with the defaults of 30 attempts and
    5 seconds.  After [k] answers 202 (a request and a 5-second sleep each):
    - if [k < 30] and the next answer is a 200, polling returns what
      [response.json()] gives on that answer;
    - if [k < 30] and the next answer is neither 200 nor 202, polling raises
      at once the exception "Unexpected status: ..." and returns no data;
    - if [k = 30], polling raises [TimeoutError] after these 30 attempts and
      returns no data. *)
Theorem poll_protocol w s job_id k :
  pending w (poll_request w job_id) (requests_made (log s)) k ->
  (forall resp,
     (k < 30)%nat ->
     http w (requests_made (log s) + k) (poll_request w job_id) = inr resp ->
     (status_code resp = 200 ->
      poll_report_status w job_id 30 5 s
      = (json_loads w (text resp),
         logged s (attempts w (poll_request w job_id) (requests_made (log s)) k 5
                   ++ [EvRequest (poll_request w job_id) (inr resp)])))
     /\
     (status_code resp <> 200 -> status_code resp <> 202 ->
      poll_report_status w job_id 30 5 s
      = (inl (unexpected_status resp),
         logged s (attempts w (poll_request w job_id) (requests_made (log s)) k 5
                   ++ [EvRequest (poll_request w job_id) (inr resp)]))))
  /\
  (k = 30%nat ->
   poll_report_status w job_id 30 5 s
   = (inl timed_out,
      logged s (attempts w (poll_request w job_id) (requests_made (log s)) 30 5))).
Proof.
  intros Hpending. split.
  - intros resp Hk Hresp.
    replace 30%nat with (k + S (29 - k))%nat by lia.
    rewrite (poll_pending _ _ _ _ _ _ Hpending), poll_step. cbv zeta.
    rewrite requests_made_logged, attempts_requests, Hresp, logged_logged.
    split.
    + intros ->. done.
    + intros H200 H202. apply Z.eqb_neq in H200, H202. by rewrite H200, H202.
  - intros ->.
    change 30%nat with (30 + 0)%nat at 1.
    by rewrite (poll_pending _ _ _ _ _ _ Hpending).
Qed.

Lemma poll_protocol_witness :
  pending Mock.ready_third (poll_request Mock.ready_third "J1") 0 2
  /\ poll_report_status Mock.ready_third "J1" 30 5 Mock.initial
     = (inr Mock.one_more,
        logged Mock.initial
               (attempts Mock.ready_third (poll_request Mock.ready_third "J1") 0 2 5
                ++ [EvRequest (poll_request Mock.ready_third "J1")
                              (inr (mkResponse 200 "one"))])).
Proof.
  assert (Hpending : pending Mock.ready_third
                             (poll_request Mock.ready_third "J1") 0 2).
  { intros i Hi. destruct i as [|[|i]].
    - eexists. split; reflexivity.
    - eexists. split; reflexivity.
    - lia. }
  split; [exact Hpending|].
  destruct (poll_protocol Mock.ready_third Mock.initial "J1" 2 Hpending)
    as [Hnext _].
  destruct (Hnext (mkResponse 200 "one") ltac:(lia) eq_refl) as [Hready _].
  exact (Hready eq_refl).
Defined.

(** An endpoint that always answers 202 is asked exactly 30 times, with 30
    sleeps of 5 seconds, before the time-out. *)
Example poll_always_pending :
  exists new,
    poll_report_status Mock.always_pending "J1" 30 5 Mock.initial
    = (inl timed_out, logged Mock.initial new)
    /\ length (gets new) = 30%nat
    /\ sleeps new = replicate 30 5.
Proof.
  eexists. change 30%nat with (30 + 0)%nat at 1.
  rewrite poll_pending.
  - split; [reflexivity|]. split.
    + rewrite attempts_gets by done. reflexivity.
    + apply attempts_sleeps.
  - intros i _. eexists. split; reflexivity.
Qed.

(** A 404 on the second attempt ends the polling there. *)
Example poll_unexpected :
  fst (poll_report_status
         (Mock.scripted [mkResponse 202 "Accepted"; mkResponse 404 "Not Found"])
         "J1" 30 5 Mock.initial)
  = inl (mkExn "Exception" "Unexpected status: 404, Not Found").
Proof. vm_compute. reflexivity. Qed.

End ValuationFacts.

(* ===================================================================== *)
(** * 14. Protocol B: theorems                                            *)
(* ===================================================================== *)

Module PaymentFacts.
Import Effects Effects.Notations Observe RunFacts Payment PaymentSpec.

(** One iteration of the loop. *)
Lemma fetch_step w fuel N all_items s :
  fetch_pages w (S fuel) N all_items s
  = if (len all_items <? N)%Z then
      let req := page_request w (len all_items) in
      let answer := http w (requests_made (log s)) req in
      let s1 := logged s [EvRequest req answer] in
      match answer with
      | inl e => (inl e, s1)
      | inr resp =>
          if (status_code resp =? 200)%Z then
            match json_loads w (text resp) with
            | inl e => (inl e, s1)
            | inr j =>
                match Items j with
                | Some (item :: items) =>
                    fetch_pages w fuel N (all_items ++ item :: items) s1
                | Some [] | None => (inr all_items, s1)
                end
            end
          else (inr all_items, s1)
      end
    else (inr all_items, s).
Proof.
  cbn [fetch_pages]. destruct (len all_items <? N)%Z; [|done].
  unfold requests_get, bind at 1. rewrite send_answer.
  change (mkRequest GET (report_url w) (headers w)
                    (params (len all_items) limit) NoBody)
    with (page_request w (len all_items)).
  cbv zeta. rewrite emit_logged.
  destruct (http w (requests_made (log s)) (page_request w (len all_items)))
    as [e|resp]; [done|].
  destruct (status_code resp =? 200)%Z; [|done].
  unfold bind, json. rewrite lift_run.
  destruct (json_loads w (text resp)) as [e|j]; [done|].
  by destruct (Items j) as [[|item items]|].
Qed.

Lemma len_app a b : len (a ++ b) = len a + len b.
Proof. unfold len. rewrite length_app. lia. Qed.

(** The fuel is never what ends the loop: any amount from
    [total_records - len(all_items)] on gives the same run. *)
Lemma fetch_pages_fuel w N f1 : forall f2 all_items s,
  (Z.to_nat (N - len all_items) <= f1)%nat ->
  (Z.to_nat (N - len all_items) <= f2)%nat ->
  fetch_pages w f1 N all_items s = fetch_pages w f2 N all_items s.
Proof.
  induction f1 as [|f1 IH]; intros f2 all_items s H1 H2.
  - destruct f2 as [|f2]; [done|]. rewrite fetch_step.
    destruct (Z.ltb_spec (len all_items) N); [lia|done].
  - destruct f2 as [|f2].
    + rewrite fetch_step.
      destruct (Z.ltb_spec (len all_items) N); [lia|done].
    + rewrite !fetch_step.
      destruct (Z.ltb_spec (len all_items) N); [|done]. cbv zeta.
      destruct (http w _ _) as [e|resp]; [done|].
      destruct (status_code resp =? 200)%Z; [|done].
      destruct (json_loads w (text resp)) as [e|j]; [done|].
      destruct (Items j) as [[|item items]|]; [done| |done].
      apply IH; rewrite len_app; unfold len in *; simpl; lia.
Qed.

(** What a run of the loop that returns has accumulated: every item of
    every page it was served, and nothing else; and it wrote nothing. *)
Lemma fetch_pages_served w N fuel : forall all_items s items s',
  fetch_pages w fuel N all_items s = (inr items, s') ->
  exists new,
    s' = logged s new /\
    len items = len all_items + served w new /\
    (page_limit w new -> len items <= Z.max (len all_items) (N + 99)).
Proof.
  induction fuel as [|fuel IH]; intros all_items s items s' Hrun.
  - injection Hrun as <- <-. exists []. rewrite logged_nil.
    split; [done|]. split; simpl; lia.
  - rewrite fetch_step in Hrun.
    destruct (Z.ltb_spec (len all_items) N) as [Hlt|Hge].
    2:{ injection Hrun as <- <-. exists []. rewrite logged_nil.
        split; [done|]. split; simpl; lia. }
    cbv zeta in Hrun.
    destruct (http w _ _) as [e|resp] eqn:Hresp; [done|].
    destruct (status_code resp =? 200)%Z eqn:Hcode.
    2:{ injection Hrun as <- <-. eexists. split; [done|].
        simpl. rewrite Hcode. split; lia. }
    destruct (json_loads w (text resp)) as [e|j] eqn:Hj; [done|].
    destruct (Items j) as [[|item page]|] eqn:Hitems.
    + injection Hrun as <- <-. eexists. split; [done|].
      simpl. rewrite Hcode, Hj, Hitems. simpl. split; lia.
    + apply IH in Hrun as (new & -> & Hlen & Hbound).
      eexists. rewrite logged_logged. split; [done|].
      split.
      * rewrite Hlen, len_app. simpl served.
        rewrite Hcode, Hj, Hitems. unfold len. simpl. lia.
      * intros Hlimit. unfold page_limit in Hlimit.
        change ([EvRequest (page_request w (len all_items)) (inr resp)] ++ new)
          with (EvRequest (page_request w (len all_items)) (inr resp) :: new)
          in Hlimit.
        apply Forall_cons in Hlimit as [Hpage Hlimit].
        specialize (Hbound Hlimit).
        cbn [items_served] in Hpage. rewrite Hcode, Hj, Hitems in Hpage.
        rewrite len_app in Hbound. unfold len in *. simpl in *. lia.
    + injection Hrun as <- <-. eexists. split; [done|].
      simpl. rewrite Hcode, Hj, Hitems. simpl. split; lia.
Qed.

(** With full pages the loop goes on until the announced total is
    reached: [ceil(gap / 100)] more requests for a gap of [gap] records. *)
Lemma fetch_pages_full w N : forall fuel all_items s,
  full_pages w (requests_made (log s)) (len all_items) N ->
  (Z.to_nat (N - len all_items) <= fuel)%nat ->
  exists items new,
    fetch_pages w fuel N all_items s = (inr items, logged s new) /\
    len items
    = len all_items + 100 * Z.max 0 ((N - len all_items + 99) / 100) /\
    Z.of_nat (requests_made new)
    = Z.max 0 ((N - len all_items + 99) / 100).
Proof.
  induction fuel as [|fuel IH]; intros all_items s Hfull Hfuel.
  - exists all_items, []. rewrite logged_nil. split; [done|].
    change (requests_made []) with 0%nat.
    split; Z.div_mod_to_equations; lia.
  - rewrite fetch_step.
    destruct (Z.ltb_spec (len all_items) N) as [Hlt|Hge].
    2:{ exists all_items, []. rewrite logged_nil. split; [done|].
        change (requests_made []) with 0%nat.
        split; Z.div_mod_to_equations; lia. }
    cbv zeta.
    destruct (Hfull 0%nat ltac:(lia))
      as (page & paging & (j & (resp & Hresp & Hcode & Hj) & Hitems & _) & Hlen).
    rewrite Nat.add_0_r in Hresp.
    replace (len all_items + 100 * Z.of_nat 0) with (len all_items) in Hresp
      by lia.
    rewrite Hresp, Hcode, Hj, Hitems. simpl (_ =? _)%Z. cbv iota.
    destruct page as [|item page]; [done|].
    assert (Hpage : len (item :: page) = 100) by (unfold len; rewrite Hlen; lia).
    destruct (IH (all_items ++ item :: page)
                 (logged s [EvRequest (page_request w (len all_items)) (inr resp)]))
      as (items & new & Hrun & Hitems' & Hreqs).
    { intros k Hk. rewrite len_app, Hpage in Hk |- *.
      rewrite requests_made_logged.
      change (requests_made [EvRequest (page_request w (len all_items))
                                       (inr resp)]) with 1%nat.
      destruct (Hfull (S k) ltac:(lia)) as (page' & paging' & Hans & Hlen').
      exists page', paging'. split; [|done].
      replace (requests_made (log s) + 1 + k)%nat
        with (requests_made (log s) + S k)%nat by lia.
      replace (len all_items + 100 + 100 * Z.of_nat k)
        with (len all_items + 100 * Z.of_nat (S k)) by lia.
      done. }
    { rewrite len_app. unfold len in *. rewrite Hlen. lia. }
    exists items. eexists. rewrite Hrun, logged_logged. split; [done|].
    rewrite len_app in Hitems', Hreqs.
    rewrite Hpage in Hitems', Hreqs.
    rewrite requests_made_app. unfold requests_made at 1. simpl length.
    split; Z.div_mod_to_equations; lia.
Qed.

Lemma collect_paged w data first N s :
  Items data = Some first ->
  Paging data = Some (mkPaging (Some N)) ->
  collect w data s = fetch_pages w (Z.to_nat (N - len first)) N first s.
Proof. unfold collect. by intros -> ->. Qed.

(** A run of the collection that returns has every item it was served. *)
Lemma collect_served w data first N s items s' :
  Items data = Some first ->
  Paging data = Some (mkPaging (Some N)) ->
  collect w data s = (inr items, s') ->
  exists new,
    s' = logged s new /\
    len items = len first + served w new /\
    (page_limit w new -> len items <= Z.max (len first) (N + 99)).
Proof.
  intros Hitems Hpaging. rewrite (collect_paged _ _ _ _ _ Hitems Hpaging).
  apply fetch_pages_served.
Qed.

(** With full pages the collection returns, after the requests that the
    announced total calls for. *)
Lemma collect_full w data first N s :
  Items data = Some first ->
  Paging data = Some (mkPaging (Some N)) ->
  full_pages w (requests_made (log s)) (len first) N ->
  length first = 100%nat ->
  exists items new,
    collect w data s = (inr items, logged s new) /\
    len items = 100 * Z.max 1 (pages_needed N) /\
    1 + Z.of_nat (requests_made new) = Z.max 1 (pages_needed N).
Proof.
  intros Hitems Hpaging Hfull Hlen.
  rewrite (collect_paged _ _ _ _ _ Hitems Hpaging).
  destruct (fetch_pages_full w N (Z.to_nat (N - len first)) first s Hfull)
    as (items & new & Hrun & Hcount & Hreqs); [done|].
  exists items, new. split; [done|].
  assert (Hfirst : len first = 100) by (unfold len; rewrite Hlen; lia).
  rewrite Hfirst in Hcount, Hreqs. unfold pages_needed.
  split; Z.div_mod_to_equations; lia.
Qed.

Lemma full_pages_overshoot n offset N : full_pages Mock.overshoot n offset N.
Proof.
  intros k _. exists (replicate 100 (Mock.item "R")), (Some (mkPaging (Some 150))).
  split; [|reflexivity].
  exists (Mock.full_page 150). split; [|done].
  by exists (mkResponse 200 "full/150").
Qed.

Lemma full_pages_full_of_none n offset N :
  full_pages Mock.full_of_none n offset N.
Proof.
  intros k _. exists (replicate 100 (Mock.item "R")), (Some (mkPaging (Some 0))).
  split; [|reflexivity].
  exists (Mock.full_page 0). split; [|done].
  by exists (mkResponse 200 "full/0").
Qed.

(** C1, as written, fails.  An endpoint that announces 150 records and
    serves full pages makes the client keep both pages: 200 items, not
    [min(150, 200)].  An endpoint that announces no record still receives
    the request for the first page: one request, not [ceil(0 / 100)]. *)
Lemma pagination_counterexample :
  ~ accumulates_min Mock.overshoot Mock.initial (Mock.full_page 150) 150
  /\ ~ requests_ceil Mock.full_of_none Mock.initial (Mock.full_page 0) 0.
Proof.
  split; intros H.
  - destruct (collect_full Mock.overshoot (Mock.full_page 150) _ 150 Mock.initial
                eq_refl eq_refl (full_pages_overshoot _ _ _) eq_refl)
      as (items & new & Hrun & Hcount & _).
    pose proof (H _ _ Hrun) as Hmin.
    destruct (collect_served Mock.overshoot (Mock.full_page 150)
                (replicate 100 (Mock.item "R")) 150 _ _ _
                eq_refl eq_refl Hrun)
      as (new' & Heq & Hserved & _).
    change (default [] (Items (Mock.full_page 150)))
      with (replicate 100 (Mock.item "R")) in Hmin.
    rewrite Heq, drop_logged, <- Hserved, Hcount in Hmin.
    vm_compute in Hmin. discriminate.
  - destruct (collect_full Mock.full_of_none (Mock.full_page 0) _ 0 Mock.initial
                eq_refl eq_refl (full_pages_full_of_none _ _ _) eq_refl)
      as (items & new & Hrun & _ & Hreqs).
    pose proof (H _ _ Hrun) as Hceil.
    rewrite drop_logged, Hreqs in Hceil.
    vm_compute in Hceil. discriminate.
Qed.

(** C1, amended.  For a first page [first] announcing [N] records:
    - a collection that returns has accumulated every item of every page
      it was served, [len first + served], without cutting at [N]; this is
      [min(N, items served)] when no more than [N] items were served; when
      none of the pages it was served has more than 100 items and
      [N >= 1], it never exceeds [N + 99];
    - when every page the client is served is full (100 items: the first
      one, and each page it asks for while the total is not reached) the
      collection returns [100 * max(1, ceil(N/100))] items after
      [max(1, ceil(N/100))] page requests in all, the first page's
      included: [ceil(N/100)] requests whenever [N >= 1]. *)
Theorem pagination_accumulates w s data first N :
  Items data = Some first ->
  Paging data = Some (mkPaging (Some N)) ->
  (forall items s',
     collect w data s = (inr items, s') ->
     exists new,
       s' = logged s new /\
       len items = len first + served w new /\
       (len first + served w new <= N ->
        len items = Z.min N (len first + served w new)) /\
       (page_limit w new -> (length first <= 100)%nat -> 1 <= N ->
        len items <= N + 99))
  /\
  (full_pages w (requests_made (log s)) (len first) N ->
   length first = 100%nat ->
   exists items new,
     collect w data s = (inr items, logged s new) /\
     len items = 100 * Z.max 1 (pages_needed N) /\
     1 + Z.of_nat (requests_made new) = Z.max 1 (pages_needed N) /\
     (1 <= N -> 1 + Z.of_nat (requests_made new) = pages_needed N)).
Proof.
  intros Hitems Hpaging. split.
  - intros items s' Hrun.
    destruct (collect_served _ _ _ _ _ _ _ Hitems Hpaging Hrun)
      as (new & -> & Hserved & Hbound).
    exists new. split; [done|]. split; [done|]. split; [lia|].
    intros Hlimit Hfirst HN. specialize (Hbound Hlimit). unfold len in *. lia.
  - intros Hfull Hfirst.
    destruct (collect_full _ _ _ _ s Hitems Hpaging Hfull Hfirst)
      as (items & new & Hrun & Hcount & Hreqs).
    exists items, new. split; [done|]. split; [done|]. split; [done|].
    intros HN. rewrite Hreqs. unfold pages_needed.
    Z.div_mod_to_equations; lia.
Qed.

(** An endpoint with exactly 200 records: the first page and the page at
    offset 100 are full, and the client stops there, after
    [ceil(200/100) = 2] page requests and with the 200 items. *)
Lemma pagination_accumulates_witness :
  exists items new,
    collect Scenes.two_hundred (Mock.full_page 200) Mock.initial
    = (inr items, logged Mock.initial new) /\
    len items = 100 * Z.max 1 (pages_needed 200) /\
    1 + Z.of_nat (requests_made new) = Z.max 1 (pages_needed 200) /\
    (1 <= 200 -> 1 + Z.of_nat (requests_made new) = pages_needed 200).
Proof.
  apply (pagination_accumulates Scenes.two_hundred Mock.initial
           (Mock.full_page 200) (replicate 100 (Mock.item "R")) 200
           eq_refl eq_refl).
  - intros k Hk. change (len (replicate 100 (Mock.item "R"))) with 100 in *.
    assert (k = 0%nat) as -> by lia.
    exists (replicate 100 (Mock.item "R")), (Some (mkPaging (Some 200))).
    split; [|reflexivity].
    exists (Mock.full_page 200). split; [|split; reflexivity].
    exists (mkResponse 200 "full/200"). split; [reflexivity|].
    split; reflexivity.
  - reflexivity.
Defined.

(** The same endpoint run to its end: two requests after the first page
    would be one too many. *)
Example two_hundred_collected :
  (let '(r, s') := collect Scenes.two_hundred (Mock.full_page 200) Mock.initial in
   (len (match r with inr items => items | inl _ => [] end),
    requests_made (log s')))
  = (200, 1%nat).
Proof. vm_compute. reflexivity. Qed.

(** ** The exporter and the end of the pipeline *)

Lemma RunDate_fresh items :
  no_RunDate items -> "RunDate" ∉ columns (DataFrame_of items).
Proof.
  intros Hno Hin. unfold DataFrame_of in Hin. simpl in Hin.
  apply elem_of_elements, elem_of_union_list in Hin as (X & HX & Hin).
  apply list_elem_of_fmap in HX as (item & -> & Hitem).
  unfold no_RunDate in Hno. rewrite Forall_forall in Hno.
  apply elem_of_dom in Hin as [v Hv]. rewrite (Hno _ Hitem) in Hv. done.
Qed.

Lemma export_run w items s :
  disk_ok w -> no_RunDate items ->
  export w items s
  = (inr (payment_path, exported (clock w (S (length (log s)))) items),
     after_export s (exported (clock w (S (length (log s)))) items)).
Proof.
  intros [Hmk Hxl] Hno. unfold export.
  erewrite bind_inr; [|unfold makedirs; rewrite Hmk; reflexivity].
  assert (Hclock : forall l : list Event,
             length (l ++ [EvMakedirs OUTPUT_FOLDER]) = S (length l)).
  { intros l. rewrite length_app. simpl. lia. }
  destruct items as [|item items].
  - erewrite bind_inr; [|reflexivity].
    erewrite bind_inr;
      [|unfold to_excel;
        change (OUTPUT_FOLDER +:+ "/" +:+ FILENAME) with payment_path;
        rewrite Hxl; reflexivity].
    unfold ret, after_export. simpl. rewrite Hclock, <- app_assoc. done.
  - erewrite bind_inr; [|reflexivity].
    erewrite bind_inr;
      [|unfold df_insert;
        rewrite (bool_decide_eq_false_2 _ (RunDate_fresh _ Hno));
        rewrite bool_decide_eq_true_2 by (simpl; lia); reflexivity].
    erewrite bind_inr;
      [|unfold to_excel;
        change (OUTPUT_FOLDER +:+ "/" +:+ FILENAME) with payment_path;
        rewrite Hxl; reflexivity].
    unfold ret, after_export. simpl log. rewrite Hclock, <- app_assoc. done.
Qed.

Lemma finish_run w items s :
  disk_ok w -> no_RunDate items ->
  finish w items s
  = (inr (succeeded (abspath w payment_path)
                    (xlsx_size w (exported (clock w (S (length (log s)))) items))
                    (len_df (exported (clock w (S (length (log s)))) items))),
     after_export s (exported (clock w (S (length (log s)))) items)).
Proof.
  intros Hdisk Hno. unfold finish.
  erewrite bind_inr; [|by apply export_run].
  cbv beta iota.
  erewrite bind_inr;
    [|unfold path_exists; cbn [files after_export];
      rewrite lookup_insert_eq;
      rewrite bool_decide_eq_true_2 by (by eexists); reflexivity].
  cbn [orb]. cbv beta iota.
  erewrite bind_inr;
    [|unfold getsize; cbn [files after_export];
      rewrite lookup_insert_eq; reflexivity].
  done.
Qed.

Lemma body_first_page w s data :
  template_created w (requests_made (log s)) ->
  answers_json w (S (requests_made (log s))) 0 data ->
  body w s = bind (collect w data) (finish w) (logged s (opening w s)).
Proof.
  intros (resp & Hput & Hcode) (resp1 & Hget & Hcode1 & Hj).
  unfold body, requests_put, requests_get.
  erewrite bind_inr;
    [|rewrite send_answer; fold (template_request w);
      rewrite Hput at 1; reflexivity].
  rewrite Hcode. change (negb (200 =? 200)%Z) with false. cbv iota.
  erewrite bind_inr;
    [|rewrite send_answer; fold (page_request w 0%Z);
      rewrite requests_made_emit; rewrite Hget at 1; reflexivity].
  rewrite Hcode1. change (negb (200 =? 200)%Z) with false. cbv iota.
  erewrite bind_inr; [|unfold json; rewrite Hj; reflexivity].
  rewrite !emit_logged, logged_logged. unfold opening. simpl app.
  reflexivity.
Qed.

(** ** Pages served, then a failure *)

Lemma serves_length w n offset pages :
  serves w n offset pages -> Z.of_nat (length pages) <= len (concat pages).
Proof.
  revert n offset. induction pages as [|page pages IH]; intros n offset H.
  - unfold len. simpl. lia.
  - destruct H as (Hne & _ & H). apply IH in H.
    simpl concat. rewrite len_app.
    destruct page; [done|]. unfold len in *. simpl in *. lia.
Qed.

Lemma requests_of_snoc l req a :
  requests_of (l ++ [EvRequest req a]) = requests_of l ++ [req].
Proof. unfold requests_of. by rewrite flat_map_app. Qed.

Lemma writes_app l1 l2 : writes (l1 ++ l2) = writes l1 ++ writes l2.
Proof. unfold writes. by rewrite flat_map_app. Qed.

(** While pages are served and the total is not reached, the loop takes
    them in, one request each. *)
Lemma fetch_pages_serves w N pages : forall fuel all_items s,
  serves w (requests_made (log s)) (len all_items) pages ->
  len (all_items ++ concat pages) < N ->
  exists new,
    fetch_pages w (length pages + fuel) N all_items s
    = fetch_pages w fuel N (all_items ++ concat pages) (logged s new)
    /\ requests_made new = length pages
    /\ writes new = [].
Proof.
  induction pages as [|page pages IH]; intros fuel all_items s Hserves Hlt.
  - exists []. simpl. by rewrite app_nil_r, logged_nil.
  - destruct Hserves as (Hne & (paging & j & (resp & Hresp & Hcode & Hj)
                                & Hitems & _) & Hserves).
    simpl concat in *. rewrite app_assoc in Hlt.
    change (length (page :: pages) + fuel)%nat
      with (S (length pages + fuel)).
    rewrite fetch_step.
    destruct (Z.ltb_spec (len all_items) N) as [_|Hge].
    2:{ rewrite !len_app in Hlt. unfold len in *. lia. }
    cbv zeta. rewrite Hresp, Hcode, Hj, Hitems. simpl (_ =? _)%Z. cbv iota.
    destruct page as [|item page]; [done|].
    destruct (IH fuel (all_items ++ item :: page)
                 (logged s [EvRequest (page_request w (len all_items)) (inr resp)]))
      as (new & Hrun & Hreqs & Hwrites).
    { rewrite requests_made_logged, len_app.
      change (requests_made [EvRequest (page_request w (len all_items)) (inr resp)])
        with 1%nat.
      by replace (requests_made (log s) + 1)%nat
        with (S (requests_made (log s))) by lia. }
    { done. }
    eexists. rewrite Hrun, logged_logged, <- app_assoc. split; [done|].
    split.
    + rewrite requests_made_app, Hreqs. done.
    + rewrite writes_app, Hwrites. done.
Qed.

(** The collection when the fetch after the pages [pages] fails: it
    returns what it has. *)
Lemma collect_breaks_off w data first N pages s :
  Items data = Some first ->
  Paging data = Some (mkPaging (Some N)) ->
  serves w (requests_made (log s)) (len first) pages ->
  len (first ++ concat pages) < N ->
  answers_failure w (requests_made (log s) + length pages)
                  (len (first ++ concat pages)) ->
  exists new a,
    collect w data s
    = (inr (first ++ concat pages),
       logged s (new ++ [EvRequest (page_request w (len (first ++ concat pages))) a]))
    /\ requests_made new = length pages
    /\ writes new = [].
Proof.
  intros Hitems Hpaging Hserves Hlt (resp & Hfail & Hcode).
  rewrite (collect_paged _ _ _ _ _ Hitems Hpaging).
  pose proof (serves_length _ _ _ _ Hserves) as Hpages.
  rewrite len_app in Hlt.
  replace (Z.to_nat (N - len first))
    with (length pages + S (Z.to_nat (N - len first) - length pages - 1))%nat
    by lia.
  destruct (fetch_pages_serves w N pages
              (S (Z.to_nat (N - len first) - length pages - 1)) first s)
    as (new & Hrun & Hreqs & Hwrites); [done|by rewrite len_app|].
  exists new, (inr resp). rewrite Hrun, fetch_step.
  destruct (Z.ltb_spec (len (first ++ concat pages)) N) as [_|Hge].
  2:{ rewrite len_app in Hge. lia. }
  cbv zeta. rewrite requests_made_logged, Hreqs, Hfail.
  apply Z.eqb_neq in Hcode. rewrite Hcode, logged_logged. done.
Qed.

(** C8.  A failing page fetch is swallowed.  Let the template be accepted,
    the first page [first] announce [N] records, the endpoint then serve
    the pages [pages] (possibly none), all this short of [N] records, and
    the next page fetch be answered with a status other than 200.  Then no
    further request is sent, the items collected so far are exported (the
    marker row if there are none), and the pipeline returns
    [success = True].  (The disk accepts the export; no item has a
    [RunDate] field.) *)
Theorem pagination_failure_swallowed w s first N pages :
  template_created w (requests_made (log s)) ->
  answers_page w (S (requests_made (log s))) 0 first (Some (mkPaging (Some N))) ->
  serves w (S (S (requests_made (log s)))) (len first) pages ->
  len (first ++ concat pages) < N ->
  answers_failure w (S (S (requests_made (log s))) + length pages)
                  (len (first ++ concat pages)) ->
  disk_ok w ->
  no_RunDate (first ++ concat pages) ->
  exists new t,
    generate_payment_report w s
    = (inr (succeeded (abspath w payment_path)
                      (xlsx_size w (exported t (first ++ concat pages)))
                      (len_df (exported t (first ++ concat pages)))),
       after_export (logged s new) (exported t (first ++ concat pages)))
    /\ requests_made new = (3 + length pages)%nat
    /\ last (requests_of new)
       = Some (page_request w (len (first ++ concat pages)))
    /\ writes new = [].
Proof.
  intros Hput (data & Hget & Hitems & Hpaging) Hserves Hlt Hfail Hdisk Hno.
  assert (Hn : requests_made (log (logged s (opening w s)))
               = S (S (requests_made (log s)))).
  { rewrite requests_made_logged. unfold opening, requests_made. simpl. lia. }
  destruct (collect_breaks_off w data first N pages (logged s (opening w s))
              Hitems Hpaging)
    as (new & a & Hrun & Hreqs & Hwrites); [by rewrite Hn|done|by rewrite Hn|].
  eexists _, _.
  unfold generate_payment_report, try_except.
  rewrite (body_first_page _ _ _ Hput Hget).
  erewrite bind_inr; [|exact Hrun].
  rewrite (finish_run _ _ _ Hdisk Hno), logged_logged.
  split; [reflexivity|].
  split; [|split].
  - rewrite !requests_made_app, Hreqs. unfold opening, requests_made. simpl. lia.
  - rewrite app_assoc, requests_of_snoc. apply last_snoc.
  - rewrite !writes_app, Hwrites. done.
Qed.

Lemma pagination_failure_swallowed_witness :
  exists new t,
    generate_payment_report Mock.breaks_off Mock.initial
    = (inr (succeeded
              (abspath Mock.breaks_off payment_path)
              (xlsx_size Mock.breaks_off
                 (exported t [Mock.item "A"; Mock.item "B"; Mock.item "C"]))
              (len_df (exported t [Mock.item "A"; Mock.item "B"; Mock.item "C"]))),
       after_export (logged Mock.initial new)
                    (exported t [Mock.item "A"; Mock.item "B"; Mock.item "C"]))
    /\ requests_made new = 4%nat
    /\ last (requests_of new) = Some (page_request Mock.breaks_off 3)
    /\ writes new = [].
Proof.
  apply (pagination_failure_swallowed Mock.breaks_off Mock.initial
           [Mock.item "A"; Mock.item "B"] 5 [[Mock.item "C"]]).
  - exists (mkResponse 200 "{}"). split; reflexivity.
  - exists Mock.two_of_five. split; [|split; reflexivity].
    exists (mkResponse 200 "two/5"). split; [reflexivity|]. split; reflexivity.
  - split; [discriminate|]. split; [|exact I].
    exists None, Mock.one_more. split; [|split; reflexivity].
    exists (mkResponse 200 "one"). split; [reflexivity|]. split; reflexivity.
  - vm_compute. reflexivity.
  - exists (mkResponse 500 "Internal Server Error").
    split; [reflexivity|discriminate].
  - split; reflexivity.
  - repeat constructor.
Defined.

(** C10.  When the collection ends with no item at all, the pipeline
    writes the single marker row ("No data found") and returns
    [success = True] with [records = 1]: the marker row is what [len(df)]
    counts. *)
Theorem payment_empty_counts_one w s data s3 :
  template_created w (requests_made (log s)) ->
  answers_json w (S (requests_made (log s))) 0 data ->
  collect w data (logged s (opening w s)) = (inr [], s3) ->
  disk_ok w ->
  exists t,
    generate_payment_report w s
    = (inr (succeeded (abspath w payment_path)
                      (xlsx_size w (DataFrame_of [no_data_row t])) 1),
       after_export s3 (DataFrame_of [no_data_row t]))
    /\ no_data_row t !! "Message" = Some (CStr "No data found").
Proof.
  intros Hput Hget Hrun Hdisk.
  exists (clock w (S (length (log s3)))).
  unfold generate_payment_report, try_except.
  rewrite (body_first_page _ _ _ Hput Hget).
  erewrite bind_inr; [|exact Hrun].
  rewrite (finish_run w [] s3 Hdisk ltac:(constructor)).
  split; [reflexivity|].
  unfold no_data_row. rewrite lookup_insert_ne by done.
  apply lookup_singleton_eq.
Qed.

Lemma payment_empty_counts_one_witness :
  exists t,
    generate_payment_report Mock.nothing_to_report Mock.initial
    = (inr (succeeded (abspath Mock.nothing_to_report payment_path)
                      (xlsx_size Mock.nothing_to_report
                                 (DataFrame_of [no_data_row t])) 1),
       after_export (logged Mock.initial
                            (opening Mock.nothing_to_report Mock.initial))
                    (DataFrame_of [no_data_row t]))
    /\ no_data_row t !! "Message" = Some (CStr "No data found").
Proof.
  apply (payment_empty_counts_one Mock.nothing_to_report Mock.initial
           Mock.no_items).
  - exists (mkResponse 200 "{}"). split; reflexivity.
  - exists (mkResponse 200 "none"). split; [reflexivity|]. split; reflexivity.
  - reflexivity.
  - split; reflexivity.
Defined.

End PaymentFacts.



(* ===================================================================== *)
(** * 15. More facts on runs and logs                                     *)
(* ===================================================================== *)

Module RunMore.
Import Effects Effects.Notations Observe RunFacts.

Lemma bind_inl {A B} (m : M A) (k : A -> M B) s e s' :
  m s = (inl e, s') -> bind m k s = (inl e, s').
Proof. unfold bind. by intros ->. Qed.

Lemma gets_app l1 l2 : gets (l1 ++ l2) = gets l1 ++ gets l2.
Proof. unfold gets. by rewrite flat_map_app. Qed.

Lemma sleeps_app l1 l2 : sleeps (l1 ++ l2) = sleeps l1 ++ sleeps l2.
Proof. unfold sleeps. by rewrite flat_map_app. Qed.

Lemma sleeps_snoc_request l req a : sleeps (l ++ [EvRequest req a]) = sleeps l.
Proof. unfold sleeps. rewrite flat_map_app. simpl. apply app_nil_r. Qed.

Lemma requests_made_two s e1 e2 a1 a2 :
  requests_made (log (logged s [EvRequest e1 a1; EvRequest e2 a2]))
  = S (S (requests_made (log s))).
Proof. rewrite requests_made_logged. unfold requests_made. simpl. lia. Qed.

End RunMore.

(* ===================================================================== *)
(** * 16. Protocol A: the other paths                                     *)
(* ===================================================================== *)

Module DebtPaths.
Import Effects Effects.Notations Observe RunFacts RunMore Debt DebtSpec PathSpec.

Lemma jobid_unavailable w s :
  job_unavailable w (requests_made (log s)) ->
  exists r,
    jobid w s
    = (inr r,
       logged s [EvRequest (queue_request w)
                           (http w (requests_made (log s)) (queue_request w))])
    /\ (r = None \/ r = Some "").
Proof.
  intros (resp & Hresp & Hcase).
  unfold jobid, requests_post.
  erewrite bind_inr;
    [|rewrite send_answer; fold (queue_request w); rewrite Hresp at 1; reflexivity].
  rewrite emit_logged.
  destruct Hcase as [Hcode|(Hcode & j & Hj & Hid)].
  - apply Z.eqb_neq in Hcode. rewrite Hcode. exists None. by split; [|left].
  - rewrite Hcode. change (200 =? 200)%Z with true. cbv iota.
    erewrite bind_inr; [|unfold json; rewrite Hj; reflexivity].
    destruct Hid as [-> | ->].
    + exists None. by split; [|left].
    + exists (Some ""). by split; [|right].
Qed.

(** X1.  No job id, no report: when the submission is answered with a
    status other than 200, or with a 200 whose JSON has no [JobId] or an
    empty one, the debt pipeline returns the failure "Failed to retrieve
    jobid" after that single POST: no GET is sent, nothing sleeps, nothing
    is written. *)
Theorem debt_job_unavailable w s :
  job_unavailable w (requests_made (log s)) ->
  generate_debt_report w s
  = (inr (failed "Failed to retrieve jobid"),
     logged s [EvRequest (queue_request w)
                         (http w (requests_made (log s)) (queue_request w))]).
Proof.
  intros H. destruct (jobid_unavailable _ _ H) as (r & Hrun & Hr).
  unfold generate_debt_report, try_except, body.
  erewrite bind_inr; [|exact Hrun].
  by destruct Hr as [-> | ->].
Qed.

Lemma debt_job_unavailable_witness :
  generate_debt_report (Scenes.scripted [Scenes.ok "two"]) Mock.initial
  = (inr (failed "Failed to retrieve jobid"),
     logged Mock.initial
       [EvRequest (queue_request (Scenes.scripted [Scenes.ok "two"]))
                  (Scenes.ok "two")]).
Proof.
  apply (debt_job_unavailable (Scenes.scripted [Scenes.ok "two"]) Mock.initial).
  exists (mkResponse 200 "two"). split; [reflexivity|].
  right. split; [reflexivity|].
  exists Scenes.two_items. split; [reflexivity|]. by left.
Defined.

(** One turn of the retry loop. *)
Lemma retry_step w job_id m s :
  retry_loop w ("https://api.chathamdirect.com/report/" +:+ job_id) (S m) s
  = let req := report_request w job_id in
    let answer := http w (requests_made (log s)) req in
    let s1 := logged s [EvRequest req answer] in
    match answer with
    | inl e => (inl e, s1)
    | inr response =>
        if (status_code response =? 200)%Z then
          bind (parse_and_export w response) (fun df => ret (Some df)) s1
        else
          retry_loop w ("https://api.chathamdirect.com/report/" +:+ job_id) m
                     (logged s1 [EvSleep 30])
    end.
Proof.
  cbn [retry_loop]. unfold requests_get, bind at 1.
  rewrite send_answer. fold (report_request w job_id).
  cbv zeta. rewrite emit_logged.
  destruct (http w (requests_made (log s)) (report_request w job_id))
    as [e|response]; [done|].
  destruct (status_code response =? 200)%Z; [done|].
  unfold bind at 1, sleep. by rewrite emit_logged.
Qed.

(** Failed attempts are paid for one by one. *)
Lemma retry_loop_skip w job_id m k : forall s,
  failing w (report_request w job_id) (requests_made (log s)) k ->
  retry_loop w ("https://api.chathamdirect.com/report/" +:+ job_id) (k + m) s
  = retry_loop w ("https://api.chathamdirect.com/report/" +:+ job_id) m
      (logged s (attempts w (report_request w job_id)
                          (requests_made (log s)) k 30)).
Proof.
  induction k as [|k IH]; intros s H.
  - simpl. by rewrite logged_nil.
  - change (S k + m)%nat with (S (k + m)). rewrite retry_step. cbv zeta.
    destruct (H 0%nat ltac:(lia)) as (resp & Hresp & Hcode).
    rewrite Nat.add_0_r in Hresp. rewrite Hresp.
    apply Z.eqb_neq in Hcode. rewrite Hcode.
    rewrite logged_logged, IH.
    + rewrite logged_logged. do 2 f_equal. simpl.
      rewrite Hresp. do 3 f_equal.
      rewrite requests_made_app. unfold requests_made. simpl. lia.
    + intros i Hi. destruct (H (S i) ltac:(lia)) as (r & Hr & Hc).
      exists r. split; [|done]. rewrite <- Hr. f_equal.
      rewrite requests_made_logged. unfold requests_made. simpl. lia.
Qed.

(** The 200 branch: parse, flatten, stamp, write. *)
Lemma parse_and_export_run w response root s :
  fromstring w (text response) = inr root ->
  PaymentSpec.no_RunDate (loan_rows root) ->
  makedirs_fault w output_dir = None ->
  to_excel_fault w output_path = None ->
  exists new dirs',
    parse_and_export w response s
    = (inr (debt_frame w (clock w (length (log s))) root),
       {| log := log s ++ new;
          files := <[output_path := debt_frame w (clock w (length (log s))) root]>
                     (files s);
          dirs := dirs' |})
    /\ requests_of new = []
    /\ sleeps new = []
    /\ writes new = [output_path].
Proof.
  intros Hroot Hno Hmk Hxl. unfold parse_and_export.
  erewrite bind_inr; [|rewrite Hroot; reflexivity].
  erewrite bind_inr; [|reflexivity].
  erewrite bind_inr;
    [|unfold df_insert;
      rewrite (bool_decide_eq_false_2 _ (PaymentFacts.RunDate_fresh _ Hno));
      rewrite bool_decide_eq_true_2 by (simpl; lia); reflexivity].
  erewrite bind_inr; [|reflexivity].
  destruct (bool_decide (is_Some (files s !! output_dir))
            || bool_decide (output_dir ∈ dirs s)).
  - erewrite bind_inr; [|reflexivity].
    erewrite bind_inr; [|unfold to_excel; rewrite Hxl; reflexivity].
    eexists [_], _. split; [reflexivity|]. by repeat split.
  - erewrite bind_inr; [|unfold makedirs; rewrite Hmk; reflexivity].
    erewrite bind_inr; [|unfold to_excel; rewrite Hxl; reflexivity].
    eexists [_; _], _. split.
    + unfold ret. simpl. rewrite <- app_assoc. reflexivity.
    + by repeat split.
Qed.

(** The run of the pipeline when the report comes after [k] refusals. *)
Lemma debt_success_run w s job_id k resp root :
  job_queued w (requests_made (log s)) job_id ->
  (k < 5)%nat ->
  failing w (report_request w job_id) (S (requests_made (log s))) k ->
  http w (S (requests_made (log s)) + k) (report_request w job_id) = inr resp ->
  status_code resp = 200 ->
  fromstring w (text resp) = inr root ->
  PaymentSpec.no_RunDate (loan_rows root) ->
  makedirs_fault w output_dir = None ->
  to_excel_fault w output_path = None ->
  exists t s' new,
    generate_debt_report w s
    = (inr (succeeded (abspath w output_path)
                      (xlsx_size w (debt_frame w t root))
                      (Z.of_nat (length (findall_loans root)))),
       s')
    /\ log s' = log s ++ new
    /\ files s' !! output_path = Some (debt_frame w t root)
    /\ gets new = replicate (S k) (report_request w job_id)
    /\ sleeps new = replicate k 30
    /\ writes new = [output_path].
Proof.
  intros Hq Hk Hfail Hresp Hcode Hroot Hno Hmk Hxl.
  pose proof (DebtFacts.jobid_queued _ _ _ Hq) as Hjob.
  destruct Hq as (_ & _ & _ & _ & _ & _ & Hne).
  set (s1 := logged s [EvRequest (queue_request w)
                         (http w (requests_made (log s)) (queue_request w))])
    in *.
  assert (Hn1 : requests_made (log s1) = S (requests_made (log s))).
  { unfold s1. rewrite requests_made_logged. unfold requests_made. simpl. lia. }
  set (s2 := logged s1 (attempts w (report_request w job_id)
                                 (requests_made (log s1)) k 30)).
  assert (Hn2 : requests_made (log s2) = (S (requests_made (log s)) + k)%nat).
  { unfold s2. by rewrite requests_made_logged, attempts_requests, Hn1. }
  set (s3 := logged s2 [EvRequest (report_request w job_id) (inr resp)]).
  destruct (parse_and_export_run w resp root s3 Hroot Hno Hmk Hxl)
    as (new & dirs' & Hrun & Hreq & Hsl & Hwr).
  eexists _, _, _.
  unfold generate_debt_report, try_except, body.
  erewrite bind_inr; [|exact Hjob].
  destruct job_id as [|c job_id]; [done|].
  fold s1.
  replace max_retries with (k + S (4 - k))%nat by (unfold max_retries; lia).
  erewrite bind_inr; cycle 1.
  { rewrite retry_loop_skip by (by rewrite Hn1). fold s2.
    rewrite retry_step. cbv zeta. rewrite Hn2, Hresp, Hcode.
    change (200 =? 200)%Z with true. cbv iota. fold s3.
    erewrite bind_inr; [|exact Hrun]. reflexivity. }
  cbv beta iota.
  erewrite bind_inr;
    [|unfold path_exists; cbn [files];
      rewrite lookup_insert_eq;
      rewrite bool_decide_eq_true_2 by (by eexists); reflexivity].
  cbn [orb]. cbv beta iota.
  erewrite bind_inr;
    [|unfold getsize; cbn [files]; rewrite lookup_insert_eq; reflexivity].
  split.
  { unfold ret. do 3 f_equal. unfold len_df, debt_frame, loan_rows. simpl.
    by rewrite !length_fmap. }
  cbn [log files].
  split.
  { unfold s3, s2, s1. simpl. rewrite <- !app_assoc. reflexivity. }
  split; [apply lookup_insert_eq|].
  split; [|split].
  - rewrite !gets_app, attempts_gets by done. simpl.
    assert (Hg : gets new = []).
    { clear -Hreq. induction new as [|[req a| | |] new IH]; simpl in *;
        try done; auto. }
    rewrite Hg.
    change (report_request w (String c job_id)
            :: replicate k (report_request w (String c job_id)))
      with (replicate (S k) (report_request w (String c job_id))).
    replace (S k) with (k + 1)%nat by lia. by rewrite replicate_add.
  - rewrite !sleeps_app, attempts_sleeps, Hsl. simpl.
    by rewrite app_nil_r.
  - rewrite !PaymentFacts.writes_app, attempts_writes, Hwr. done.
Qed.

(** X2.  The report after [k < 5] refusals.  Once the job is queued, if the
    report GET is refused [k] times (non-200) and then answered 200 with
    XML that parses, the debt pipeline has sent [k + 1] GETs and slept [k]
    times 30 seconds, has written one file whose rows are the flattened
    loans with the timestamp column in front, and returns [success = True]
    with [records] the number of loans found.  (No loan has a [RunDate]
    field; the disk accepts the export.) *)
Theorem debt_succeeds w s job_id k resp root :
  job_queued w (requests_made (log s)) job_id ->
  (k < 5)%nat ->
  failing w (report_request w job_id) (S (requests_made (log s))) k ->
  http w (S (requests_made (log s)) + k) (report_request w job_id) = inr resp ->
  status_code resp = 200 ->
  fromstring w (text resp) = inr root ->
  PaymentSpec.no_RunDate (loan_rows root) ->
  makedirs_fault w output_dir = None ->
  to_excel_fault w output_path = None ->
  exists t s' new,
    generate_debt_report w s
    = (inr (succeeded (abspath w output_path)
                      (xlsx_size w (debt_frame w t root))
                      (Z.of_nat (length (findall_loans root)))),
       s')
    /\ log s' = log s ++ new
    /\ files s' !! output_path = Some (debt_frame w t root)
    /\ gets new = replicate (S k) (report_request w job_id)
    /\ sleeps new = replicate k 30
    /\ writes new = [output_path].
Proof. apply debt_success_run. Qed.

Lemma debt_succeeds_witness :
  exists t s' new,
    generate_debt_report
      (Scenes.scripted [Scenes.ok "job"; Scenes.status 503 "";
                        Scenes.ok "<Portfolio/>"])
      Mock.initial
    = (inr (succeeded
              "/srv/reports/./Generated Files/Debt_Report.xlsx"
              (4096 + 64 * len_df (debt_frame
                 (Scenes.scripted [Scenes.ok "job"; Scenes.status 503 "";
                                   Scenes.ok "<Portfolio/>"]) t Mock.one_loan))
              1),
       s')
    /\ log s' = log Mock.initial ++ new
    /\ files s' !! output_path
       = Some (debt_frame
                 (Scenes.scripted [Scenes.ok "job"; Scenes.status 503 "";
                                   Scenes.ok "<Portfolio/>"]) t Mock.one_loan)
    /\ gets new
       = replicate 2 (report_request
                        (Scenes.scripted [Scenes.ok "job"; Scenes.status 503 "";
                                          Scenes.ok "<Portfolio/>"]) "J1")
    /\ sleeps new = replicate 1 30
    /\ writes new = [output_path].
Proof.
  apply (debt_succeeds
           (Scenes.scripted [Scenes.ok "job"; Scenes.status 503 "";
                             Scenes.ok "<Portfolio/>"])
           Mock.initial "J1" 1 (mkResponse 200 "<Portfolio/>") Mock.one_loan).
  - eexists _, _. repeat split; try reflexivity. discriminate.
  - lia.
  - intros i Hi. destruct i as [|i]; [|lia].
    eexists. split; [reflexivity|discriminate].
  - reflexivity.
  - reflexivity.
  - reflexivity.
  - repeat constructor.
  - reflexivity.
  - reflexivity.
Defined.

(** X3.  A report without loans.  When the XML that comes back holds no
    [Loan] under an [Instruments] element of the expected namespace, the
    debt pipeline still succeeds: it writes a file with the timestamp
    column and no row, and returns [records = 0]. *)
Theorem debt_no_loans w s job_id k resp root :
  job_queued w (requests_made (log s)) job_id ->
  (k < 5)%nat ->
  failing w (report_request w job_id) (S (requests_made (log s))) k ->
  http w (S (requests_made (log s)) + k) (report_request w job_id) = inr resp ->
  status_code resp = 200 ->
  fromstring w (text resp) = inr root ->
  findall_loans root = [] ->
  makedirs_fault w output_dir = None ->
  to_excel_fault w output_path = None ->
  exists s' df,
    generate_debt_report w s
    = (inr (succeeded (abspath w output_path) (xlsx_size w df) 0), s')
    /\ files s' !! output_path = Some df
    /\ columns df = ["RunDate"]
    /\ rows df = [].
Proof.
  intros Hq Hk Hfail Hresp Hcode Hroot Hnone Hmk Hxl.
  assert (Hrows : loan_rows root = []) by (unfold loan_rows; by rewrite Hnone).
  destruct (debt_success_run w s job_id k resp root)
    as (t & s' & new & Hrun & _ & Hfile & _); try done.
  { unfold PaymentSpec.no_RunDate. rewrite Hrows. constructor. }
  exists s', (debt_frame w t root). rewrite Hrun, Hnone.
  split; [done|]. split; [done|].
  unfold debt_frame. rewrite Hrows. simpl. split; [|done].
  by rewrite elements_empty.
Qed.

Lemma debt_no_loans_witness :
  exists s' df,
    generate_debt_report
      (Scenes.scripted [Scenes.ok "job"; Scenes.ok "<NoLoan/>"]) Mock.initial
    = (inr (succeeded "/srv/reports/./Generated Files/Debt_Report.xlsx"
                      (4096 + 64 * len_df df) 0), s')
    /\ files s' !! output_path = Some df
    /\ columns df = ["RunDate"]
    /\ rows df = [].
Proof.
  apply (debt_no_loans
           (Scenes.scripted [Scenes.ok "job"; Scenes.ok "<NoLoan/>"])
           Mock.initial "J1" 0 (mkResponse 200 "<NoLoan/>") Scenes.no_loan).
  - eexists _, _. repeat split; try reflexivity. discriminate.
  - lia.
  - intros i Hi. lia.
  - reflexivity.
  - reflexivity.
  - reflexivity.
  - vm_compute. reflexivity.
  - reflexivity.
  - reflexivity.
Defined.

End DebtPaths.
(* ===================================================================== *)
(** * 17. Protocol B: the other paths                                     *)
(* ===================================================================== *)

Module PaymentPaths.
Import Effects Effects.Notations Observe RunFacts RunMore Payment PaymentSpec PathSpec.
Import PaymentFacts.

(** X4.  The template is refused: when the template PUT is answered with a
    status [c] other than 200, the payment pipeline returns the failure
    "Failed to create/update payment template. Status: c" after that single
    request; the report is not asked for and nothing is written. *)
Theorem payment_template_refused w s resp :
  http w (requests_made (log s)) (template_request w) = inr resp ->
  status_code resp <> 200 ->
  generate_payment_report w s
  = (inr (failed ("Failed to create/update payment template. Status: "
                  +:+ pretty (status_code resp))),
     logged s [EvRequest (template_request w) (inr resp)]).
Proof.
  intros Hput Hcode.
  unfold generate_payment_report, try_except, body, requests_put.
  erewrite bind_inr;
    [|rewrite send_answer; fold (template_request w); rewrite Hput; reflexivity].
  apply Z.eqb_neq in Hcode. rewrite Hcode. done.
Qed.

Lemma payment_template_refused_witness :
  generate_payment_report (Scenes.scripted [Scenes.status 401 "Unauthorized"])
                          Mock.initial
  = (inr (failed "Failed to create/update payment template. Status: 401"),
     logged Mock.initial
       [EvRequest
          (template_request (Scenes.scripted [Scenes.status 401 "Unauthorized"]))
          (Scenes.status 401 "Unauthorized")]).
Proof.
  apply (payment_template_refused
           (Scenes.scripted [Scenes.status 401 "Unauthorized"]) Mock.initial
           (mkResponse 401 "Unauthorized")).
  - reflexivity.
  - discriminate.
Defined.

(** X5.  The report is refused: when the template is accepted and the first
    report GET is answered with a status [c] other than 200, the payment
    pipeline returns the failure "Failed to generate payment report.
    Status: c" after these two requests and writes nothing. *)
Theorem payment_report_refused w s resp :
  template_created w (requests_made (log s)) ->
  http w (S (requests_made (log s))) (page_request w 0) = inr resp ->
  status_code resp <> 200 ->
  generate_payment_report w s
  = (inr (failed ("Failed to generate payment report. Status: "
                  +:+ pretty (status_code resp))),
     logged s (opening w s)).
Proof.
  intros (resp0 & Hput & Hcode0) Hget Hcode.
  unfold generate_payment_report, try_except, body, requests_put, requests_get.
  erewrite bind_inr;
    [|rewrite send_answer; fold (template_request w);
      rewrite Hput at 1; reflexivity].
  rewrite Hcode0. change (negb (200 =? 200)%Z) with false. cbv iota.
  erewrite bind_inr;
    [|rewrite send_answer; fold (page_request w 0%Z);
      rewrite requests_made_emit; rewrite Hget at 1; reflexivity].
  apply Z.eqb_neq in Hcode. rewrite Hcode.
  rewrite !emit_logged, logged_logged. unfold opening. simpl app.
  cbn [negb]. cbv iota. unfold ret. by rewrite Hget.
Qed.

Lemma payment_report_refused_witness :
  generate_payment_report
    (Scenes.scripted [Scenes.ok "{}"; Scenes.status 404 "Not Found"])
    Mock.initial
  = (inr (failed "Failed to generate payment report. Status: 404"),
     logged Mock.initial
       (opening (Scenes.scripted [Scenes.ok "{}"; Scenes.status 404 "Not Found"])
                Mock.initial)).
Proof.
  apply (payment_report_refused
           (Scenes.scripted [Scenes.ok "{}"; Scenes.status 404 "Not Found"])
           Mock.initial (mkResponse 404 "Not Found")).
  - exists (mkResponse 200 "{}"). split; reflexivity.
  - reflexivity.
  - discriminate.
Defined.

(** ** The pages, one by one *)

Lemma collect_announced w data first s :
  Items data = Some first ->
  collect w data s
  = fetch_pages w (Z.to_nat (announced data - len first)) (announced data)
                first s.
Proof.
  intros Hitems. unfold collect, announced. rewrite Hitems. simpl app.
  destruct (Paging data) as [paging|]; [done|].
  replace (Z.to_nat (0 - len first)) with 0%nat by (unfold len; lia).
  reflexivity.
Qed.

Lemma fetch_pages_done w fuel N all_items s :
  N <= len all_items -> fetch_pages w fuel N all_items s = (inr all_items, s).
Proof.
  intros H. destruct fuel as [|fuel]; [done|]. rewrite fetch_step.
  destruct (Z.ltb_spec (len all_items) N); [lia|done].
Qed.

(** The pages that are served while the total is not reached are taken in,
    each asked for at the offset of what is already there. *)
Lemma fetch_pages_wanted w N pages : forall all_items s,
  serves w (requests_made (log s)) (len all_items) pages ->
  wanted N (len all_items) pages ->
  exists new,
    fetch_pages w (Z.to_nat (N - len all_items)) N all_items s
    = fetch_pages w (Z.to_nat (N - len (all_items ++ concat pages))) N
                  (all_items ++ concat pages) (logged s new)
    /\ requests_of new = page_request w <$> page_offsets (len all_items) pages
    /\ sleeps new = []
    /\ writes new = [].
Proof.
  induction pages as [|page pages IH]; intros all_items s Hserves Hwanted.
  - exists []. simpl. by rewrite app_nil_r, logged_nil.
  - destruct Hserves as (Hne & (paging & j & (resp & Hresp & Hcode & Hj)
                                & Hitems & _) & Hserves).
    destruct Hwanted as (Hlt & Hwanted).
    simpl concat. rewrite app_assoc.
    destruct (Z.to_nat (N - len all_items)) as [|fuel] eqn:Hfuel; [lia|].
    rewrite fetch_step.
    destruct (Z.ltb_spec (len all_items) N) as [_|Hge]; [|lia].
    cbv zeta. rewrite Hresp, Hcode, Hj, Hitems. simpl (_ =? _)%Z. cbv iota.
    destruct page as [|item page]; [done|].
    rewrite (fetch_pages_fuel w N fuel
               (Z.to_nat (N - len (all_items ++ item :: page))));
      [| rewrite len_app; unfold len in *; simpl; lia | lia].
    destruct (IH (all_items ++ item :: page)
                 (logged s [EvRequest (page_request w (len all_items)) (inr resp)]))
      as (new & Hrun & Hreqs & Hsleeps & Hwrites).
    { rewrite requests_made_logged, len_app.
      change (requests_made [EvRequest (page_request w (len all_items)) (inr resp)])
        with 1%nat.
      by replace (requests_made (log s) + 1)%nat
        with (S (requests_made (log s))) by lia. }
    { by rewrite len_app. }
    eexists. rewrite Hrun, logged_logged. split; [done|].
    split; [|split].
    + simpl. f_equal. rewrite Hreqs. by rewrite len_app.
    + done.
    + done.
Qed.

Lemma len_df_exported t items :
  items <> [] -> len_df (exported t items) = len items.
Proof.
  destruct items as [|item items]; [done|]. intros _.
  unfold len_df, exported, stamped, len. simpl. by rewrite length_fmap.
Qed.

(** X6.  Pagination to the end.  Let the template be accepted, the first
    page hold the items [first], and the endpoint serve the non-empty pages
    [pages] (none, in particular), each while the announced total is not
    reached, the total being reached after the last of them.  Then the
    pipeline asks for each page exactly once, at the offset equal to the
    number of items already collected, sleeps nowhere, exports all the
    items collected and returns [success = True]; [records] is their number
    when there is one at least.  (The total is [TotalRecords], and 0 when
    the first page has no paging data.) *)
Theorem payment_pagination_completes w s data first pages :
  template_created w (requests_made (log s)) ->
  answers_json w (S (requests_made (log s))) 0 data ->
  Items data = Some first ->
  serves w (S (S (requests_made (log s)))) (len first) pages ->
  wanted (announced data) (len first) pages ->
  announced data <= len (first ++ concat pages) ->
  disk_ok w ->
  no_RunDate (first ++ concat pages) ->
  exists new t,
    generate_payment_report w s
    = (inr (succeeded (abspath w payment_path)
                      (xlsx_size w (exported t (first ++ concat pages)))
                      (len_df (exported t (first ++ concat pages)))),
       after_export (logged s new) (exported t (first ++ concat pages)))
    /\ requests_of new
       = template_request w :: page_request w 0
         :: (page_request w <$> page_offsets (len first) pages)
    /\ sleeps new = []
    /\ writes new = []
    /\ (first ++ concat pages <> [] ->
        len_df (exported t (first ++ concat pages))
        = len (first ++ concat pages)).
Proof.
  intros Hput Hget Hitems Hserves Hwanted Hdone Hdisk Hno.
  assert (Hn : requests_made (log (logged s (opening w s)))
               = S (S (requests_made (log s)))).
  { rewrite requests_made_logged. unfold opening, requests_made. simpl. lia. }
  destruct (fetch_pages_wanted w (announced data) pages first
              (logged s (opening w s)))
    as (new & Hrun & Hreqs & Hsleeps & Hwrites); [by rewrite Hn|done|].
  rewrite (fetch_pages_done w _ _ (first ++ concat pages)) in Hrun by done.
  eexists _, _.
  unfold generate_payment_report, try_except.
  rewrite (body_first_page _ _ _ Hput Hget).
  erewrite bind_inr; [|rewrite (collect_announced _ _ _ _ Hitems); exact Hrun].
  rewrite (finish_run _ _ _ Hdisk Hno), logged_logged.
  split; [reflexivity|].
  split; [|split; [|split]].
  - unfold requests_of in *. rewrite flat_map_app, Hreqs. reflexivity.
  - rewrite sleeps_app, Hsleeps. reflexivity.
  - rewrite writes_app, Hwrites. reflexivity.
  - apply len_df_exported.
Qed.

Lemma payment_pagination_completes_witness :
  exists new t,
    generate_payment_report
      (Scenes.scripted [Scenes.ok "{}"; Scenes.ok "two/3"; Scenes.ok "one"])
      Mock.initial
    = (inr (succeeded
              "/srv/reports/Generated Files/Payment_Report.xlsx"
              (4096 + 64 * len_df (exported t [Mock.item "A"; Mock.item "B";
                                               Mock.item "C"]))
              (len_df (exported t [Mock.item "A"; Mock.item "B"; Mock.item "C"]))),
       after_export (logged Mock.initial new)
                    (exported t [Mock.item "A"; Mock.item "B"; Mock.item "C"]))
    /\ requests_of new
       = template_request
           (Scenes.scripted [Scenes.ok "{}"; Scenes.ok "two/3"; Scenes.ok "one"])
         :: page_request
              (Scenes.scripted [Scenes.ok "{}"; Scenes.ok "two/3"; Scenes.ok "one"]) 0
         :: [page_request
               (Scenes.scripted [Scenes.ok "{}"; Scenes.ok "two/3"; Scenes.ok "one"]) 2]
    /\ sleeps new = []
    /\ writes new = []
    /\ ([Mock.item "A"; Mock.item "B"; Mock.item "C"] <> [] ->
        len_df (exported t [Mock.item "A"; Mock.item "B"; Mock.item "C"]) = 3).
Proof.
  apply (payment_pagination_completes
           (Scenes.scripted [Scenes.ok "{}"; Scenes.ok "two/3"; Scenes.ok "one"])
           Mock.initial Scenes.two_of_three
           [Mock.item "A"; Mock.item "B"] [[Mock.item "C"]]).
  - exists (mkResponse 200 "{}"). split; reflexivity.
  - exists (mkResponse 200 "two/3"). split; [reflexivity|]. split; reflexivity.
  - reflexivity.
  - split; [discriminate|]. split; [|exact I].
    exists None, Mock.one_more. split; [|split; reflexivity].
    exists (mkResponse 200 "one"). split; [reflexivity|]. split; reflexivity.
  - split; [vm_compute; reflexivity|exact I].
  - vm_compute. discriminate.
  - split; reflexivity.
  - repeat constructor.
Defined.

Lemma page_offsets_length pages : forall offset,
  length (page_offsets offset pages) = length pages.
Proof.
  induction pages as [|page pages IH]; intros offset; [done|].
  simpl. by rewrite IH.
Qed.

Lemma short_wanted N pages : forall offset,
  offset + len (concat pages) < N -> wanted N offset pages.
Proof.
  induction pages as [|page pages IH]; intros offset H; [done|].
  simpl concat in H. rewrite len_app in H. split.
  - unfold len in *. lia.
  - apply IH. lia.
Qed.

(** The collection up to the call that follows the pages [pages], which
    are all short of the total. *)
Lemma collect_up_to w data first pages s :
  Items data = Some first ->
  serves w (requests_made (log s)) (len first) pages ->
  len (first ++ concat pages) < announced data ->
  exists new fuel,
    collect w data s
    = fetch_pages w (S fuel) (announced data) (first ++ concat pages)
                  (logged s new)
    /\ requests_made new = length pages
    /\ sleeps new = []
    /\ writes new = [].
Proof.
  intros Hitems Hserves Hlt.
  rewrite (collect_announced _ _ _ _ Hitems).
  destruct (fetch_pages_wanted w (announced data) pages first s Hserves)
    as (new & Hrun & Hreqs & Hsleeps & Hwrites).
  { apply short_wanted. by rewrite <- len_app. }
  exists new, (Z.to_nat (announced data - len (first ++ concat pages)) - 1)%nat.
  rewrite Hrun.
  replace (S (Z.to_nat (announced data - len (first ++ concat pages)) - 1))
    with (Z.to_nat (announced data - len (first ++ concat pages))) by lia.
  split; [done|]. split; [|done].
  unfold requests_made. by rewrite Hreqs, length_fmap, page_offsets_length.
Qed.

(** X7.  An empty page ends the pagination.  Let the template be accepted,
    the first page hold [first], the endpoint then serve the pages [pages]
    (possibly none), all this short of the announced total, and the next
    page come back 200 without items (no ["Items"] key, or an empty list).
    Then that request is the last one, the items collected so far are
    exported (the marker row if there are none) and the pipeline returns
    [success = True].  (The disk accepts the export; no item has a
    [RunDate] field.) *)
Theorem payment_empty_page_stops w s data first pages :
  template_created w (requests_made (log s)) ->
  answers_json w (S (requests_made (log s))) 0 data ->
  Items data = Some first ->
  serves w (S (S (requests_made (log s)))) (len first) pages ->
  len (first ++ concat pages) < announced data ->
  answers_nothing w (S (S (requests_made (log s))) + length pages)
                  (len (first ++ concat pages)) ->
  disk_ok w ->
  no_RunDate (first ++ concat pages) ->
  exists new t,
    generate_payment_report w s
    = (inr (succeeded (abspath w payment_path)
                      (xlsx_size w (exported t (first ++ concat pages)))
                      (len_df (exported t (first ++ concat pages)))),
       after_export (logged s new) (exported t (first ++ concat pages)))
    /\ requests_made new = (3 + length pages)%nat
    /\ last (requests_of new)
       = Some (page_request w (len (first ++ concat pages)))
    /\ sleeps new = []
    /\ writes new = [].
Proof.
  intros Hput Hget Hitems Hserves Hlt (j & (resp & Hresp & Hcode & Hj) & Hnone)
         Hdisk Hno.
  assert (Hn : requests_made (log (logged s (opening w s)))
               = S (S (requests_made (log s)))).
  { rewrite requests_made_logged. unfold opening, requests_made. simpl. lia. }
  destruct (collect_up_to w data first pages (logged s (opening w s)) Hitems)
    as (new & fuel & Hrun & Hreqs & Hsleeps & Hwrites); [by rewrite Hn|done|].
  rewrite fetch_step in Hrun.
  destruct (Z.ltb_spec (len (first ++ concat pages)) (announced data))
    as [_|Hge]; [|lia].
  cbv zeta in Hrun.
  rewrite requests_made_logged, Hn, Hreqs, Hresp, Hcode, Hj in Hrun.
  change (200 =? 200)%Z with true in Hrun. cbv iota in Hrun.
  assert (Hrun' : collect w data (logged s (opening w s))
                  = (inr (first ++ concat pages),
                     logged (logged (logged s (opening w s)) new)
                       [EvRequest (page_request w (len (first ++ concat pages)))
                                  (inr resp)])).
  { rewrite Hrun. by destruct Hnone as [-> | ->]. }
  eexists _, _.
  unfold generate_payment_report, try_except.
  rewrite (body_first_page _ _ _ Hput Hget).
  erewrite bind_inr; [|exact Hrun'].
  rewrite (finish_run _ _ _ Hdisk Hno), !logged_logged.
  split; [reflexivity|].
  split; [|split; [|split]].
  - rewrite !requests_made_app, Hreqs. unfold opening, requests_made. simpl. lia.
  - rewrite app_assoc, requests_of_snoc. apply last_snoc.
  - rewrite app_assoc, sleeps_snoc_request, sleeps_app, Hsleeps.
    reflexivity.
  - rewrite !writes_app, Hwrites. reflexivity.
Qed.

Lemma payment_empty_page_stops_witness :
  exists new t,
    generate_payment_report
      (Scenes.scripted [Scenes.ok "{}"; Scenes.ok "two/5"; Scenes.ok "none"])
      Mock.initial
    = (inr (succeeded
              "/srv/reports/Generated Files/Payment_Report.xlsx"
              (4096 + 64 * len_df (exported t [Mock.item "A"; Mock.item "B"]))
              (len_df (exported t [Mock.item "A"; Mock.item "B"]))),
       after_export (logged Mock.initial new)
                    (exported t [Mock.item "A"; Mock.item "B"]))
    /\ requests_made new = 3%nat
    /\ last (requests_of new)
       = Some (page_request
                 (Scenes.scripted [Scenes.ok "{}"; Scenes.ok "two/5";
                                   Scenes.ok "none"]) 2)
    /\ sleeps new = []
    /\ writes new = [].
Proof.
  apply (payment_empty_page_stops
           (Scenes.scripted [Scenes.ok "{}"; Scenes.ok "two/5"; Scenes.ok "none"])
           Mock.initial Mock.two_of_five [Mock.item "A"; Mock.item "B"] []).
  - exists (mkResponse 200 "{}"). split; reflexivity.
  - exists (mkResponse 200 "two/5"). split; [reflexivity|]. split; reflexivity.
  - reflexivity.
  - exact I.
  - vm_compute. reflexivity.
  - exists Mock.no_items. split; [|by right].
    exists (mkResponse 200 "none"). split; [reflexivity|]. split; reflexivity.
  - split; reflexivity.
  - repeat constructor.
Defined.

(** X8.  A page fetch that raises loses everything.  Let the template be
    accepted, the first page hold [first], the endpoint serve the pages
    [pages], all this short of the announced total, and the next page fetch
    raise an exception [e] (in the request, or in decoding a 200 answer).
    Then the pipeline returns [success = False] with the error [str(e)] and
    writes no file: the items already collected are not exported. *)
Theorem payment_page_exception w s data first pages e :
  template_created w (requests_made (log s)) ->
  answers_json w (S (requests_made (log s))) 0 data ->
  Items data = Some first ->
  serves w (S (S (requests_made (log s)))) (len first) pages ->
  len (first ++ concat pages) < announced data ->
  page_raises w (S (S (requests_made (log s))) + length pages)
              (len (first ++ concat pages)) e ->
  exists new,
    generate_payment_report w s = (inr (failed (str e)), logged s new)
    /\ requests_made new = (3 + length pages)%nat
    /\ writes new = [].
Proof.
  intros Hput Hget Hitems Hserves Hlt Hraise.
  assert (Hn : requests_made (log (logged s (opening w s)))
               = S (S (requests_made (log s)))).
  { rewrite requests_made_logged. unfold opening, requests_made. simpl. lia. }
  destruct (collect_up_to w data first pages (logged s (opening w s)) Hitems)
    as (new & fuel & Hrun & Hreqs & Hsleeps & Hwrites); [by rewrite Hn|done|].
  rewrite fetch_step in Hrun.
  destruct (Z.ltb_spec (len (first ++ concat pages)) (announced data))
    as [_|Hge]; [|lia].
  cbv zeta in Hrun. rewrite requests_made_logged, Hn, Hreqs in Hrun.
  assert (Hrun' : exists a,
             collect w data (logged s (opening w s))
             = (inl e,
                logged (logged (logged s (opening w s)) new)
                  [EvRequest (page_request w (len (first ++ concat pages))) a])).
  { destruct Hraise as [Hdown|(resp & Hresp & Hcode & Hj)].
    - exists (inl e). by rewrite Hrun, Hdown.
    - exists (inr resp). rewrite Hrun, Hresp, Hcode, Hj. done. }
  destruct Hrun' as (a & Hrun').
  eexists.
  unfold generate_payment_report, try_except.
  rewrite (body_first_page _ _ _ Hput Hget).
  erewrite bind_inl; [|exact Hrun'].
  rewrite !logged_logged. split; [reflexivity|]. split.
  - rewrite !requests_made_app, Hreqs. unfold opening, requests_made. simpl. lia.
  - rewrite !writes_app, Hwrites. reflexivity.
Qed.

Lemma payment_page_exception_witness :
  exists new,
    generate_payment_report
      (Scenes.scripted [Scenes.ok "{}"; Scenes.ok "two/5"; Scenes.ok "one";
                        Scenes.down])
      Mock.initial
    = (inr (failed "Connection reset by peer"), logged Mock.initial new)
    /\ requests_made new = 4%nat
    /\ writes new = [].
Proof.
  apply (payment_page_exception
           (Scenes.scripted [Scenes.ok "{}"; Scenes.ok "two/5"; Scenes.ok "one";
                             Scenes.down])
           Mock.initial Mock.two_of_five [Mock.item "A"; Mock.item "B"]
           [[Mock.item "C"]]
           (mkExn "ConnectionError" "Connection reset by peer")).
  - exists (mkResponse 200 "{}"). split; reflexivity.
  - exists (mkResponse 200 "two/5"). split; [reflexivity|]. split; reflexivity.
  - reflexivity.
  - split; [discriminate|]. split; [|exact I].
    exists None, Mock.one_more. split; [|split; reflexivity].
    exists (mkResponse 200 "one"). split; [reflexivity|]. split; reflexivity.
  - vm_compute. reflexivity.
  - left. reflexivity.
Defined.

Lemma RunDate_taken (items : list Item) item :
  item ∈ items -> is_Some (item !! "RunDate") ->
  "RunDate" ∈ columns (DataFrame_of items).
Proof.
  intros Hin Hkey. unfold DataFrame_of. simpl.
  apply elem_of_elements, elem_of_union_list.
  exists (dom item). split; [|by apply elem_of_dom].
  apply list_elem_of_fmap. by exists item.
Qed.

(** X9.  A field named [RunDate] in the data makes the export fail.  When
    the collection returns items one of which already has a [RunDate]
    field, inserting the timestamp column raises [ValueError]: the pipeline
    returns [success = False] with the error "cannot insert RunDate,
    already exists", and no file is written. *)
Theorem payment_RunDate_collision w s data s3 items item :
  template_created w (requests_made (log s)) ->
  answers_json w (S (requests_made (log s))) 0 data ->
  collect w data (logged s (opening w s)) = (inr items, s3) ->
  item ∈ items ->
  is_Some (item !! "RunDate") ->
  makedirs_fault w OUTPUT_FOLDER = None ->
  exists s',
    generate_payment_report w s
    = (inr (failed "cannot insert RunDate, already exists"), s')
    /\ files s' = files s3
    /\ log s' = log s3 ++ [EvMakedirs OUTPUT_FOLDER].
Proof.
  intros Hput Hget Hrun Hin Hkey Hmk.
  eexists.
  unfold generate_payment_report, try_except.
  rewrite (body_first_page _ _ _ Hput Hget).
  erewrite bind_inr; [|exact Hrun].
  unfold finish. erewrite bind_inl; cycle 1.
  { unfold export.
    erewrite bind_inr; [|unfold makedirs; rewrite Hmk; reflexivity].
    destruct items as [|i0 items]; [by apply elem_of_nil in Hin|].
    erewrite bind_inr; [|reflexivity].
    erewrite bind_inl; [reflexivity|].
    unfold df_insert.
    rewrite (bool_decide_eq_true_2 _ (RunDate_taken _ _ Hin Hkey)).
    reflexivity. }
  by repeat split.
Qed.

Lemma payment_RunDate_collision_witness :
  exists s',
    generate_payment_report
      (Scenes.scripted [Scenes.ok "{}"; Scenes.ok "stamped"]) Mock.initial
    = (inr (failed "cannot insert RunDate, already exists"), s')
    /\ files s'
       = files (logged Mock.initial
                  (opening (Scenes.scripted [Scenes.ok "{}"; Scenes.ok "stamped"])
                           Mock.initial))
    /\ log s'
       = log (logged Mock.initial
                (opening (Scenes.scripted [Scenes.ok "{}"; Scenes.ok "stamped"])
                         Mock.initial))
         ++ [EvMakedirs OUTPUT_FOLDER].
Proof.
  apply (payment_RunDate_collision
           (Scenes.scripted [Scenes.ok "{}"; Scenes.ok "stamped"]) Mock.initial
           Scenes.stamped_item _
           [ {[ "RunDate" := CStr "2020-01-01" ]} ]
           {[ "RunDate" := CStr "2020-01-01" ]}).
  - exists (mkResponse 200 "{}"). split; reflexivity.
  - exists (mkResponse 200 "stamped"). split; [reflexivity|]. split; reflexivity.
  - reflexivity.
  - apply list_elem_of_here.
  - by eexists.
  - reflexivity.
Defined.

End PaymentPaths.
(* ===================================================================== *)
(** * 18. Protocol C: the other paths                                     *)
(* ===================================================================== *)

Module ValuationPaths.
Import Effects Effects.Notations Observe RunFacts RunMore.
Import Valuation ValuationSpec PathSpec.

(** X10.  The template is refused: when the template PUT is answered with a
    status other than 200, the valuation pipeline returns the failure
    "Template creation failed" after that single request. *)
Theorem valuation_template_refused w s resp :
  http w (requests_made (log s)) (valuation_template_request w) = inr resp ->
  status_code resp <> 200 ->
  generate_valuation_report w s
  = (inr (failed "Template creation failed"),
     logged s [EvRequest (valuation_template_request w) (inr resp)]).
Proof.
  intros Hput Hcode.
  unfold generate_valuation_report, try_except, body.
  unfold create_valuation_template, requests_put.
  erewrite bind_inr; cycle 1.
  { erewrite bind_inr;
      [|rewrite send_answer; fold (valuation_template_request w);
        rewrite Hput; reflexivity].
    reflexivity. }
  apply Z.eqb_neq in Hcode. rewrite Hcode. done.
Qed.

Lemma valuation_template_refused_witness :
  generate_valuation_report (Scenes.scripted [Scenes.status 403 "Forbidden"])
                            Mock.initial
  = (inr (failed "Template creation failed"),
     logged Mock.initial
       [EvRequest (valuation_template_request
                     (Scenes.scripted [Scenes.status 403 "Forbidden"]))
                  (Scenes.status 403 "Forbidden")]).
Proof.
  apply (valuation_template_refused
           (Scenes.scripted [Scenes.status 403 "Forbidden"]) Mock.initial
           (mkResponse 403 "Forbidden")).
  - reflexivity.
  - discriminate.
Defined.

Lemma template_accepted w s :
  (exists resp,
     http w (requests_made (log s)) (valuation_template_request w) = inr resp /\
     status_code resp = 200) ->
  create_valuation_template w TEMPLATE_ID s
  = (inr true,
     logged s [EvRequest (valuation_template_request w)
                 (http w (requests_made (log s)) (valuation_template_request w))]).
Proof.
  intros (resp & Hput & Hcode).
  unfold create_valuation_template, requests_put.
  erewrite bind_inr;
    [|rewrite send_answer; fold (valuation_template_request w);
      rewrite Hput at 1; reflexivity].
  by rewrite Hcode.
Qed.

(** X11.  The report request is refused: when the template is accepted and
    the report GET is answered with a status [c] other than 200,
    [get_transaction_report] raises and the pipeline returns the failure
    "Failed to start report job. Status c: <response text>" after these two
    requests; nothing is written. *)
Theorem valuation_start_refused w s resp :
  (exists resp0,
     http w (requests_made (log s)) (valuation_template_request w) = inr resp0 /\
     status_code resp0 = 200) ->
  http w (S (requests_made (log s))) (transactions_request w) = inr resp ->
  status_code resp <> 200 ->
  generate_valuation_report w s
  = (inr (failed ("Failed to start report job. Status "
                  +:+ pretty (status_code resp) +:+ ": " +:+ text resp)),
     logged s (valuation_opening w s)).
Proof.
  intros Hput Hget Hcode.
  unfold generate_valuation_report, try_except, body.
  erewrite bind_inr; [|by apply template_accepted].
  cbn [negb]. cbv iota.
  erewrite bind_inl; cycle 1.
  { unfold get_transaction_report, requests_get.
    erewrite bind_inr;
      [|rewrite send_answer; fold (transactions_request w);
        rewrite requests_made_logged;
        change (requests_made [EvRequest (valuation_template_request w)
                  (http w (requests_made (log s)) (valuation_template_request w))])
          with 1%nat;
        replace (requests_made (log s) + 1)%nat
          with (S (requests_made (log s))) by lia;
        rewrite Hget at 1; reflexivity].
    apply Z.eqb_neq in Hcode. rewrite Hcode. reflexivity. }
  rewrite emit_logged, logged_logged. unfold ret, valuation_opening.
  simpl app. by rewrite Hget.
Qed.

Lemma valuation_start_refused_witness :
  generate_valuation_report
    (Scenes.scripted [Scenes.ok "{}"; Scenes.status 500 "boom"]) Mock.initial
  = (inr (failed "Failed to start report job. Status 500: boom"),
     logged Mock.initial
       (valuation_opening
          (Scenes.scripted [Scenes.ok "{}"; Scenes.status 500 "boom"])
          Mock.initial)).
Proof.
  apply (valuation_start_refused
           (Scenes.scripted [Scenes.ok "{}"; Scenes.status 500 "boom"])
           Mock.initial (mkResponse 500 "boom")).
  - exists (mkResponse 200 "{}"). split; reflexivity.
  - reflexivity.
  - discriminate.
Defined.

Lemma report_started w s j :
  (exists resp,
     http w (requests_made (log s)) (transactions_request w) = inr resp /\
     status_code resp = 200 /\ json_loads w (text resp) = inr j) ->
  get_transaction_report w TEMPLATE_ID s
  = (inr (match JobId j with
          | Some (String c job_id) => job_id_of (String c job_id)
          | Some EmptyString | None => data_of j
          end),
     logged s [EvRequest (transactions_request w)
                 (http w (requests_made (log s)) (transactions_request w))]).
Proof.
  intros (resp & Hget & Hcode & Hj).
  unfold get_transaction_report, requests_get.
  erewrite bind_inr;
    [|rewrite send_answer; fold (transactions_request w);
      rewrite Hget at 1; reflexivity].
  rewrite Hcode. change (200 =? 200)%Z with true. cbv iota.
  erewrite bind_inr; [|unfold json; rewrite Hj; reflexivity].
  rewrite emit_logged.
  by destruct (JobId j) as [[|c job_id]|].
Qed.

(** The pipeline once the report request has been answered 200. *)
Lemma body_started w s j :
  valuation_started w (requests_made (log s)) j ->
  body w s
  = bind (match JobId j with
          | Some (String c job_id) => poll_report_status w (String c job_id) 30 5
          | Some EmptyString | None => ret j
          end)
         (valuation_finish w)
         (logged s (valuation_opening w s)).
Proof.
  intros (Hput & Hget).
  unfold body.
  erewrite bind_inr; [|by apply template_accepted].
  cbn [negb]. cbv iota.
  erewrite bind_inr; cycle 1.
  { apply report_started. rewrite requests_made_logged.
    change (requests_made [EvRequest (valuation_template_request w)
              (http w (requests_made (log s)) (valuation_template_request w))])
      with 1%nat.
    by replace (requests_made (log s) + 1)%nat
      with (S (requests_made (log s))) by lia. }
  rewrite logged_logged, requests_made_logged.
  change (requests_made [EvRequest (valuation_template_request w)
            (http w (requests_made (log s)) (valuation_template_request w))])
    with 1%nat.
  replace (requests_made (log s) + 1)%nat
    with (S (requests_made (log s))) by lia.
  unfold valuation_opening. simpl app.
  destruct (JobId j) as [[|c job_id]|]; reflexivity.
Qed.

Lemma valuation_finish_run w data items s :
  default [] (Items data) = items ->
  items <> [] ->
  valuation_disk_ok w ->
  PaymentSpec.no_RunDate items ->
  valuation_finish w data s
  = (inr (succeeded (abspath w valuation_path)
                    (xlsx_size w (valuation_frame (clock w (S (length (log s)))) items))
                    (Payment.len items)),
     after_valuation_export s
       (valuation_frame (clock w (S (length (log s)))) items)).
Proof.
  intros Hitems Hne [Hmk Hxl] Hno.
  destruct items as [|item items]; [done|].
  unfold valuation_finish, export_to_excel.
  erewrite bind_inr; cycle 1.
  { erewrite bind_inr; [|unfold makedirs; rewrite Hmk; reflexivity].
    rewrite Hitems.
    erewrite bind_inr; [|reflexivity].
    erewrite bind_inr;
      [|unfold df_insert;
        rewrite (bool_decide_eq_false_2 _ (PaymentFacts.RunDate_fresh _ Hno));
        rewrite bool_decide_eq_true_2 by (simpl; lia); reflexivity].
    erewrite bind_inr;
      [|unfold to_excel;
        change (OUTPUT_FOLDER +:+ "/" +:+ FILENAME) with valuation_path;
        rewrite Hxl; reflexivity].
    reflexivity. }
  cbv beta iota.
  change (OUTPUT_FOLDER +:+ "/" +:+ FILENAME) with valuation_path.
  unfold valuation_path at 1. cbv iota. fold valuation_path.
  erewrite bind_inr;
    [|unfold path_exists; cbn [files];
      change (String "G" "enerated Files/Valuation_Report.xlsx") with valuation_path;
      rewrite lookup_insert_eq;
      rewrite bool_decide_eq_true_2 by (by eexists); reflexivity].
  cbn [orb]. cbv beta iota.
  erewrite bind_inr;
    [|unfold getsize; cbn [files];
      change (String "G" "enerated Files/Valuation_Report.xlsx") with valuation_path;
      rewrite lookup_insert_eq; reflexivity].
  unfold ret, after_valuation_export, valuation_frame. cbn [log files dirs].
  rewrite length_app. cbn [length].
  replace (length (log s) + 1)%nat with (S (length (log s))) by lia.
  rewrite <- app_assoc. f_equal.
  unfold succeeded. f_equal. f_equal.
  unfold len_df, Payment.len. cbn [rows DataFrame_of]. by rewrite length_fmap.
Qed.

(** X12.  Inline data.  When the report GET is answered 200 with a JSON
    object that has no [JobId] (or an empty one) and some items, the
    valuation pipeline polls nothing: after the two opening requests it
    writes the items with the timestamp column and returns
    [success = True] with [records] the number of items.  (The disk accepts
    the export; no item has a [RunDate] field.) *)
Theorem valuation_inline_report w s j items :
  valuation_started w (requests_made (log s)) j ->
  inline_data j ->
  Items j = Some items ->
  items <> [] ->
  valuation_disk_ok w ->
  PaymentSpec.no_RunDate items ->
  exists t,
    generate_valuation_report w s
    = (inr (succeeded (abspath w valuation_path)
                      (xlsx_size w (valuation_frame t items))
                      (Payment.len items)),
       after_valuation_export (logged s (valuation_opening w s))
                              (valuation_frame t items)).
Proof.
  intros Hstart Hinline Hitems Hne Hdisk Hno.
  eexists. unfold generate_valuation_report, try_except.
  rewrite (body_started _ _ _ Hstart).
  erewrite bind_inr; [|by destruct Hinline as [-> | ->]].
  erewrite (valuation_finish_run w j items); try done.
  by rewrite Hitems.
Qed.

Lemma valuation_inline_report_witness :
  exists t,
    generate_valuation_report
      (Scenes.scripted [Scenes.ok "{}"; Scenes.ok "empty-id"]) Mock.initial
    = (inr (succeeded "/srv/reports/Generated Files/Valuation_Report.xlsx"
                      (4096 + 64 * len_df (valuation_frame t [Mock.item "A"]))
                      1),
       after_valuation_export
         (logged Mock.initial
            (valuation_opening
               (Scenes.scripted [Scenes.ok "{}"; Scenes.ok "empty-id"])
               Mock.initial))
         (valuation_frame t [Mock.item "A"])).
Proof.
  apply (valuation_inline_report
           (Scenes.scripted [Scenes.ok "{}"; Scenes.ok "empty-id"]) Mock.initial
           (mkJson (Some "") (Some [Mock.item "A"]) None) [Mock.item "A"]).
  - split.
    + exists (mkResponse 200 "{}"). split; reflexivity.
    + exists (mkResponse 200 "empty-id"). split; [reflexivity|].
      split; reflexivity.
  - by right.
  - reflexivity.
  - discriminate.
  - split; reflexivity.
  - repeat constructor.
Defined.

Lemma opening_requests w s :
  requests_made (log (logged s (valuation_opening w s)))
  = S (S (requests_made (log s))).
Proof. unfold valuation_opening. apply requests_made_two. Qed.

(** The polling inside the pipeline, after [k] answers 202. *)
Lemma poll_after_pending w s job_id k :
  pending w (poll_request w job_id) (requests_made (log s)) k ->
  (k < 30)%nat ->
  poll_report_status w job_id 30 5 s
  = let s1 := logged s (attempts w (poll_request w job_id)
                                 (requests_made (log s)) k 5) in
    let answer := http w (requests_made (log s) + k) (poll_request w job_id) in
    let s2 := logged s1 [EvRequest (poll_request w job_id) answer] in
    match answer with
    | inl e => (inl e, s2)
    | inr response =>
        if (status_code response =? 200)%Z then
          (json_loads w (text response), s2)
        else if (status_code response =? 202)%Z then
          poll_report_status w job_id (29 - k) 5 (logged s2 [EvSleep 5])
        else (inl (unexpected_status response), s2)
    end.
Proof.
  intros Hpending Hk.
  replace 30%nat with (k + S (29 - k))%nat at 1 by lia.
  rewrite (ValuationFacts.poll_pending _ _ _ _ _ _ Hpending).
  rewrite ValuationFacts.poll_step. cbv zeta.
  by rewrite requests_made_logged, attempts_requests.
Qed.

(** X13.  A polled report.  When the report GET gives a job id, the job is
    pending [k < 30] times (202) and then done (200) with some items, the
    valuation pipeline has sent [k + 1] polls, slept [k] times 5 seconds,
    written the items with the timestamp column, and returns
    [success = True] with [records] the number of items. *)
Theorem valuation_polled_report w s j job_id k resp j' items :
  valuation_started w (requests_made (log s)) j ->
  JobId j = Some job_id ->
  job_id <> "" ->
  pending w (poll_request w job_id) (S (S (requests_made (log s)))) k ->
  (k < 30)%nat ->
  http w (S (S (requests_made (log s))) + k) (poll_request w job_id) = inr resp ->
  status_code resp = 200 ->
  json_loads w (text resp) = inr j' ->
  Items j' = Some items ->
  items <> [] ->
  valuation_disk_ok w ->
  PaymentSpec.no_RunDate items ->
  exists t new,
    generate_valuation_report w s
    = (inr (succeeded (abspath w valuation_path)
                      (xlsx_size w (valuation_frame t items))
                      (Payment.len items)),
       after_valuation_export (logged s new) (valuation_frame t items))
    /\ new = valuation_opening w s
             ++ attempts w (poll_request w job_id)
                         (S (S (requests_made (log s)))) k 5
             ++ [EvRequest (poll_request w job_id) (inr resp)]
    /\ requests_made new = (3 + k)%nat
    /\ sleeps new = replicate k 5.
Proof.
  intros Hstart Hid Hne Hpending Hk Hresp Hcode Hj' Hitems Hnonempty Hdisk Hno.
  eexists _, _. unfold generate_valuation_report, try_except.
  rewrite (body_started _ _ _ Hstart), Hid.
  destruct job_id as [|c job_id]; [done|].
  pose proof (opening_requests w s) as Hn.
  erewrite bind_inr; cycle 1.
  { rewrite poll_after_pending with (k := k); [|by rewrite Hn|done].
    cbv zeta. rewrite Hn, Hresp, Hcode, Hj'. reflexivity. }
  erewrite (valuation_finish_run w j' items); try done; [|by rewrite Hitems].
  rewrite !logged_logged.
  split; [reflexivity|]. split; [reflexivity|]. split.
  - rewrite !requests_made_app, attempts_requests.
    unfold valuation_opening, requests_made. simpl. lia.
  - rewrite !sleeps_app, attempts_sleeps.
    change (sleeps (valuation_opening w s)) with (@nil Z).
    change (sleeps [EvRequest (poll_request w (String c job_id)) (inr resp)])
      with (@nil Z).
    simpl. apply app_nil_r.
Qed.

Lemma valuation_polled_report_witness :
  exists t new,
    generate_valuation_report
      (Scenes.scripted [Scenes.ok "{}"; Scenes.ok "job";
                        Scenes.status 202 "Accepted"; Scenes.ok "two"])
      Mock.initial
    = (inr (succeeded
              "/srv/reports/Generated Files/Valuation_Report.xlsx"
              (4096 + 64 * len_df (valuation_frame t [Mock.item "A"; Mock.item "B"]))
              2),
       after_valuation_export (logged Mock.initial new)
         (valuation_frame t [Mock.item "A"; Mock.item "B"]))
    /\ new = valuation_opening
               (Scenes.scripted [Scenes.ok "{}"; Scenes.ok "job";
                                 Scenes.status 202 "Accepted"; Scenes.ok "two"])
               Mock.initial
             ++ attempts
                  (Scenes.scripted [Scenes.ok "{}"; Scenes.ok "job";
                                    Scenes.status 202 "Accepted"; Scenes.ok "two"])
                  (poll_request
                     (Scenes.scripted [Scenes.ok "{}"; Scenes.ok "job";
                                       Scenes.status 202 "Accepted";
                                       Scenes.ok "two"]) "J1")
                  2 1 5
             ++ [EvRequest
                   (poll_request
                      (Scenes.scripted [Scenes.ok "{}"; Scenes.ok "job";
                                        Scenes.status 202 "Accepted";
                                        Scenes.ok "two"]) "J1")
                   (inr (mkResponse 200 "two"))]
    /\ requests_made new = 4%nat
    /\ sleeps new = replicate 1 5.
Proof.
  apply (valuation_polled_report
           (Scenes.scripted [Scenes.ok "{}"; Scenes.ok "job";
                             Scenes.status 202 "Accepted"; Scenes.ok "two"])
           Mock.initial (mkJson (Some "J1") None None) "J1" 1
           (mkResponse 200 "two") Scenes.two_items
           [Mock.item "A"; Mock.item "B"]).
  - split.
    + exists (mkResponse 200 "{}"). split; reflexivity.
    + exists (mkResponse 200 "job"). split; [reflexivity|]. split; reflexivity.
  - reflexivity.
  - discriminate.
  - intros i Hi. destruct i as [|i]; [|lia].
    eexists. split; reflexivity.
  - lia.
  - reflexivity.
  - reflexivity.
  - reflexivity.
  - reflexivity.
  - discriminate.
  - split; reflexivity.
  - repeat constructor.
Defined.

(** X14.  The job never finishes.  When the report GET gives a job id and
    the 30 polls are all answered 202, the valuation pipeline returns
    [success = False] with the error "Report generation timed out." after
    32 requests and 30 sleeps of 5 seconds; it creates no folder and writes
    no file. *)
Theorem valuation_poll_times_out w s j job_id :
  valuation_started w (requests_made (log s)) j ->
  JobId j = Some job_id ->
  job_id <> "" ->
  pending w (poll_request w job_id) (S (S (requests_made (log s)))) 30 ->
  exists new,
    generate_valuation_report w s
    = (inr (failed "Report generation timed out."), logged s new)
    /\ new = valuation_opening w s
             ++ attempts w (poll_request w job_id)
                         (S (S (requests_made (log s)))) 30 5
    /\ requests_made new = 32%nat
    /\ sleeps new = replicate 30 5.
Proof.
  intros Hstart Hid Hne Hpending.
  eexists. unfold generate_valuation_report, try_except.
  rewrite (body_started _ _ _ Hstart), Hid.
  destruct job_id as [|c job_id]; [done|].
  pose proof (opening_requests w s) as Hn.
  erewrite bind_inl; cycle 1.
  { change 30%nat with (30 + 0)%nat at 1.
    rewrite ValuationFacts.poll_pending; [|by rewrite Hn].
    rewrite Hn. reflexivity. }
  rewrite logged_logged.
  split; [reflexivity|]. split; [reflexivity|]. split.
  - rewrite requests_made_app, attempts_requests.
    unfold valuation_opening, requests_made. simpl. lia.
  - rewrite sleeps_app, attempts_sleeps. reflexivity.
Qed.

Lemma valuation_poll_times_out_witness :
  exists new,
    generate_valuation_report
      (Scenes.world (fun n _ =>
         match n with
         | O => Scenes.ok "{}"
         | 1%nat => Scenes.ok "job"
         | _ => Scenes.status 202 "Accepted"
         end))
      Mock.initial
    = (inr (failed "Report generation timed out."), logged Mock.initial new)
    /\ new = valuation_opening
               (Scenes.world (fun n _ =>
                  match n with
                  | O => Scenes.ok "{}"
                  | 1%nat => Scenes.ok "job"
                  | _ => Scenes.status 202 "Accepted"
                  end))
               Mock.initial
             ++ attempts
                  (Scenes.world (fun n _ =>
                     match n with
                     | O => Scenes.ok "{}"
                     | 1%nat => Scenes.ok "job"
                     | _ => Scenes.status 202 "Accepted"
                     end))
                  (poll_request
                     (Scenes.world (fun n _ =>
                        match n with
                        | O => Scenes.ok "{}"
                        | 1%nat => Scenes.ok "job"
                        | _ => Scenes.status 202 "Accepted"
                        end)) "J1")
                  2 30 5
    /\ requests_made new = 32%nat
    /\ sleeps new = replicate 30 5.
Proof.
  apply (valuation_poll_times_out
           (Scenes.world (fun n _ =>
              match n with
              | O => Scenes.ok "{}"
              | 1%nat => Scenes.ok "job"
              | _ => Scenes.status 202 "Accepted"
              end))
           Mock.initial (mkJson (Some "J1") None None) "J1").
  - split.
    + exists (mkResponse 200 "{}"). split; reflexivity.
    + exists (mkResponse 200 "job"). split; [reflexivity|]. split; reflexivity.
  - reflexivity.
  - discriminate.
  - intros i Hi. eexists. split; reflexivity.
Defined.

(** The pipeline with the report data in hand, inline or polled. *)
Lemma body_obtained w s data new :
  report_data_obtained w s data new ->
  body w s = valuation_finish w data (logged s new).
Proof.
  intros [(Hstart & Hinline & ->)
         |(j & job_id & k & resp & Hstart & Hid & Hne & Hpending & Hk
           & Hresp & Hcode & Hdata & ->)].
  - rewrite (body_started _ _ _ Hstart).
    erewrite bind_inr; [|by destruct Hinline as [-> | ->]]. done.
  - rewrite (body_started _ _ _ Hstart), Hid.
    destruct job_id as [|c job_id]; [done|].
    pose proof (opening_requests w s) as Hn.
    erewrite bind_inr; cycle 1.
    { rewrite poll_after_pending with (k := k); [|by rewrite Hn|done].
      cbv zeta. rewrite Hn, Hresp, Hcode, Hdata. reflexivity. }
    by rewrite !logged_logged.
Qed.

(** The end of the pipeline on report data without items. *)
Lemma valuation_finish_empty w data s :
  default [] (Items data) = [] ->
  makedirs_fault w OUTPUT_FOLDER = None ->
  valuation_finish w data s
  = (inr (failed "Report file was not created or contains no data"),
     {| log := log s ++ [EvMakedirs OUTPUT_FOLDER];
        files := files s;
        dirs := {[OUTPUT_FOLDER]} ∪ dirs s |}).
Proof.
  intros Hempty Hmk.
  unfold valuation_finish, export_to_excel.
  erewrite bind_inr; cycle 1.
  { erewrite bind_inr; [|unfold makedirs; rewrite Hmk; reflexivity].
    rewrite Hempty. reflexivity. }
  reflexivity.
Qed.

(** X15.  A report without items.  When the report data, whether it came
    with the answer to the report GET or from the polling of the job, has
    no ["Items"] key or an empty list, the valuation pipeline creates the
    output folder, writes no file, and returns [success = False] with the
    error "Report file was not created or contains no data". *)
Theorem valuation_without_items w s data new :
  report_data_obtained w s data new ->
  default [] (Items data) = [] ->
  makedirs_fault w OUTPUT_FOLDER = None ->
  generate_valuation_report w s
  = (inr (failed "Report file was not created or contains no data"),
     {| log := log s ++ new ++ [EvMakedirs OUTPUT_FOLDER];
        files := files s;
        dirs := {[OUTPUT_FOLDER]} ∪ dirs s |}).
Proof.
  intros Hdata Hempty Hmk.
  unfold generate_valuation_report, try_except.
  rewrite (body_obtained _ _ _ _ Hdata).
  rewrite (valuation_finish_empty _ _ _ Hempty Hmk).
  cbn [log files dirs logged]. by rewrite <- app_assoc.
Qed.

(** The job is pending once and then done, without items. *)
Lemma valuation_without_items_witness :
  generate_valuation_report
    (Scenes.scripted [Scenes.ok "{}"; Scenes.ok "job";
                      Scenes.status 202 "Accepted"; Scenes.ok "none"])
    Mock.initial
  = (inr (failed "Report file was not created or contains no data"),
     {| log := log Mock.initial
               ++ (valuation_opening
                     (Scenes.scripted [Scenes.ok "{}"; Scenes.ok "job";
                                       Scenes.status 202 "Accepted";
                                       Scenes.ok "none"])
                     Mock.initial
                   ++ attempts
                        (Scenes.scripted [Scenes.ok "{}"; Scenes.ok "job";
                                          Scenes.status 202 "Accepted";
                                          Scenes.ok "none"])
                        (poll_request
                           (Scenes.scripted [Scenes.ok "{}"; Scenes.ok "job";
                                             Scenes.status 202 "Accepted";
                                             Scenes.ok "none"]) "J1")
                        2 1 5
                   ++ [EvRequest
                         (poll_request
                            (Scenes.scripted [Scenes.ok "{}"; Scenes.ok "job";
                                              Scenes.status 202 "Accepted";
                                              Scenes.ok "none"]) "J1")
                         (inr (mkResponse 200 "none"))])
               ++ [EvMakedirs OUTPUT_FOLDER];
        files := files Mock.initial;
        dirs := {[OUTPUT_FOLDER]} ∪ dirs Mock.initial |}).
Proof.
  apply (valuation_without_items
           (Scenes.scripted [Scenes.ok "{}"; Scenes.ok "job";
                             Scenes.status 202 "Accepted"; Scenes.ok "none"])
           Mock.initial Mock.no_items).
  - right. exists (mkJson (Some "J1") None None), "J1", 1%nat,
      (mkResponse 200 "none").
    split.
    { split.
      + exists (mkResponse 200 "{}"). split; reflexivity.
      + exists (mkResponse 200 "job"). split; [reflexivity|].
        split; reflexivity. }
    split; [reflexivity|]. split; [discriminate|].
    split.
    { intros i Hi. destruct i as [|i]; [|lia].
      eexists. split; reflexivity. }
    split; [lia|]. split; [reflexivity|]. split; [reflexivity|].
    split; reflexivity.
  - reflexivity.
  - reflexivity.
Defined.

(** The same with inline data. *)
Example valuation_without_items_inline :
  report_data_obtained (Scenes.scripted [Scenes.ok "{}"; Scenes.ok "none"])
    Mock.initial Mock.no_items
    (valuation_opening (Scenes.scripted [Scenes.ok "{}"; Scenes.ok "none"])
                       Mock.initial).
Proof.
  left. split; [|split; [by left|reflexivity]].
  split.
  - exists (mkResponse 200 "{}"). split; reflexivity.
  - exists (mkResponse 200 "none"). split; [reflexivity|]. split; reflexivity.
Qed.

End ValuationPaths.
(* ===================================================================== *)
(** * 19. The exporters on empty input, and the pipeline boundary         *)
(* ===================================================================== *)

Module BoundaryFacts.
Import Effects Effects.Notations Observe RunFacts.

(** C5, as written, fails for the valuation exporter: without items it
    returns before writing, and there is no file at the expected path. *)
Lemma empty_export_counterexample :
  ~ one_row_file
      (snd (Valuation.export_to_excel Mock.nothing_to_report Mock.no_items
                                      Valuation.FILENAME Mock.initial))
      ValuationSpec.valuation_path.
Proof.
  intros (df & row & t & marker & Hfile & _).
  vm_compute in Hfile. discriminate.
Qed.

(** C5, amended.  On an empty sequence of records:
    - the payment exporter still writes a file with exactly one row, which
      carries the run timestamp and the marker "No data found";
    - the valuation exporter ([export_to_excel]) writes nothing and returns
      [(None, 0)];
    - the valuation pipeline, once it has report data without items,
      inline or polled, returns the failure "Report file was not created
      or contains no data", having written no file.
    (The disk accepts the directory and, for the payment report, the
    file.) *)
Theorem empty_export w s :
  makedirs_fault w "Generated Files" = None ->
  (to_excel_fault w PaymentSpec.payment_path = None ->
   exists t,
     Payment.export w [] s
     = (inr (PaymentSpec.payment_path, DataFrame_of [Payment.no_data_row t]),
        PaymentSpec.after_export s (DataFrame_of [Payment.no_data_row t]))
     /\ Payment.no_data_row t !! "RunDate" = Some (CTime t)
     /\ Payment.no_data_row t !! "Message" = Some (CStr "No data found")
     /\ one_row_file
          (PaymentSpec.after_export s (DataFrame_of [Payment.no_data_row t]))
          PaymentSpec.payment_path)
  /\
  (forall data,
     default [] (Items data) = [] ->
     exists s',
       Valuation.export_to_excel w data Valuation.FILENAME s
       = (inr (None, 0), s')
       /\ files s' = files s
       /\ writes (drop (length (log s)) (log s')) = [])
  /\
  (forall data new,
     PathSpec.report_data_obtained w s data new ->
     default [] (Items data) = [] ->
     exists s',
       Valuation.body w s
       = (inr (failed "Report file was not created or contains no data"), s')
       /\ Valuation.generate_valuation_report w s
          = (inr (failed "Report file was not created or contains no data"),
             s')
       /\ files s' = files s
       /\ writes (drop (length (log s)) (log s')) = []).
Proof.
  intros Hmk. split; [|split].
  - intros Hxl. exists (clock w (S (length (log s)))).
    assert (Hrow : forall t,
               Payment.no_data_row t !! "RunDate" = Some (CTime t)
               /\ Payment.no_data_row t !! "Message" = Some (CStr "No data found")).
    { intros t. unfold Payment.no_data_row. split.
      - apply lookup_insert_eq.
      - rewrite lookup_insert_ne by done. apply lookup_singleton_eq. }
    split; [|split; [apply Hrow|split; [apply Hrow|]]].
    + apply (PaymentFacts.export_run w [] s); [by split|constructor].
    + eexists _, _, _, _. split; [apply lookup_insert_eq|].
      split; [reflexivity|apply Hrow].
  - intros data Hempty. eexists.
    unfold Valuation.export_to_excel.
    erewrite bind_inr;
      [|unfold makedirs, Valuation.OUTPUT_FOLDER; rewrite Hmk; reflexivity].
    rewrite Hempty. split; [reflexivity|]. split; [reflexivity|].
    simpl log. by rewrite drop_app_length.
  - intros data new Hdata Hempty.
    assert (Hbody : Valuation.body w s
              = (inr (failed "Report file was not created or contains no data"),
                 {| log := log s ++ new ++ [EvMakedirs Valuation.OUTPUT_FOLDER];
                    files := files s;
                    dirs := {[Valuation.OUTPUT_FOLDER]} ∪ dirs s |})).
    { rewrite (ValuationPaths.body_obtained _ _ _ _ Hdata).
      rewrite (ValuationPaths.valuation_finish_empty _ _ _ Hempty Hmk).
      cbn [log files dirs logged]. by rewrite <- app_assoc. }
    eexists. split; [exact Hbody|]. split; [|split].
    + unfold Valuation.generate_valuation_report, try_except.
      by rewrite Hbody.
    + reflexivity.
    + cbn [log]. rewrite drop_app_length, PaymentFacts.writes_app.
      replace (writes new) with (@nil string); [done|].
      symmetry. destruct Hdata as [(_ & _ & ->)
        |(j & job_id & k & resp & _ & _ & _ & _ & _ & _ & _ & _ & ->)].
      * reflexivity.
      * rewrite !PaymentFacts.writes_app, attempts_writes. reflexivity.
Qed.

Lemma empty_export_witness :
  (exists t,
     Payment.export Mock.nothing_to_report [] Mock.initial
     = (inr (PaymentSpec.payment_path, DataFrame_of [Payment.no_data_row t]),
        PaymentSpec.after_export Mock.initial
                                 (DataFrame_of [Payment.no_data_row t]))
     /\ Payment.no_data_row t !! "RunDate" = Some (CTime t)
     /\ Payment.no_data_row t !! "Message" = Some (CStr "No data found")
     /\ one_row_file
          (PaymentSpec.after_export Mock.initial
                                    (DataFrame_of [Payment.no_data_row t]))
          PaymentSpec.payment_path)
  /\
  (exists s',
     Valuation.export_to_excel Mock.nothing_to_report Mock.no_items
                               Valuation.FILENAME Mock.initial
     = (inr (None, 0), s')
     /\ files s' = files Mock.initial
     /\ writes (drop (length (log Mock.initial)) (log s')) = [])
  /\
  (exists s',
     Valuation.body Mock.nothing_to_report Mock.initial
     = (inr (failed "Report file was not created or contains no data"), s')
     /\ Valuation.generate_valuation_report Mock.nothing_to_report Mock.initial
        = (inr (failed "Report file was not created or contains no data"), s')
     /\ files s' = files Mock.initial
     /\ writes (drop (length (log Mock.initial)) (log s')) = []).
Proof.
  destruct (empty_export Mock.nothing_to_report Mock.initial eq_refl)
    as (Hpayment & Hexporter & Hpipeline).
  split; [|split].
  - apply Hpayment. reflexivity.
  - apply (Hexporter Mock.no_items). reflexivity.
  - apply (Hpipeline Mock.no_items
             (PathSpec.valuation_opening Mock.nothing_to_report Mock.initial)).
    + left. split; [|split; [by left|reflexivity]].
      split.
      * exists (mkResponse 200 "{}"). split; reflexivity.
      * exists (mkResponse 200 "none"). split; [reflexivity|].
        split; reflexivity.
    + reflexivity.
Defined.

(** C9.  The pipeline boundary.  Each of the three pipeline functions
    returns a result whatever happens in its body, never an exception; and
    when its body raises an exception [e], the result is
    [{success: False, error: str(e), file_path: None}]. *)
Theorem pipeline_boundary w s :
  ((exists r s', Debt.generate_debt_report w s = (inr r, s'))
   /\ (forall e s', Debt.body w s = (inl e, s') ->
         Debt.generate_debt_report w s = (inr (failed (str e)), s')))
  /\
  ((exists r s', Payment.generate_payment_report w s = (inr r, s'))
   /\ (forall e s', Payment.body w s = (inl e, s') ->
         Payment.generate_payment_report w s = (inr (failed (str e)), s')))
  /\
  ((exists r s', Valuation.generate_valuation_report w s = (inr r, s'))
   /\ (forall e s', Valuation.body w s = (inl e, s') ->
         Valuation.generate_valuation_report w s = (inr (failed (str e)), s'))).
Proof.
  split; [|split].
  - destruct (try_except_run (Debt.body w) (fun e => failed (str e)) s)
      as (H1 & H2 & _). by split.
  - destruct (try_except_run (Payment.body w) (fun e => failed (str e)) s)
      as (H1 & H2 & _). by split.
  - destruct (try_except_run (Valuation.body w) (fun e => failed (str e)) s)
      as (H1 & H2 & _). by split.
Qed.

(** With the network down every pipeline reports the connection error. *)
Lemma pipeline_boundary_witness :
  fst (Debt.generate_debt_report Mock.offline Mock.initial)
  = inr (failed "Connection refused")
  /\ fst (Payment.generate_payment_report Mock.offline Mock.initial)
     = inr (failed "Connection refused")
  /\ fst (Valuation.generate_valuation_report Mock.offline Mock.initial)
     = inr (failed "Connection refused").
Proof.
  destruct (pipeline_boundary Mock.offline Mock.initial)
    as ((_ & Hdebt) & (_ & Hpayment) & (_ & Hvaluation)).
  split; [|split].
  - by rewrite (Hdebt (mkExn "ConnectionError" "Connection refused") _ eq_refl).
  - by rewrite (Hpayment (mkExn "ConnectionError" "Connection refused") _ eq_refl).
  - by rewrite (Hvaluation (mkExn "ConnectionError" "Connection refused") _ eq_refl).
Defined.

(** An exception inside the body: undecodable JSON while polling. *)
Example valuation_bad_json :
  fst (Valuation.generate_valuation_report
         (Mock.scripted [mkResponse 200 "{}"; mkResponse 200 "job";
                         mkResponse 200 "<html>"])
         Mock.initial)
  = inr (failed "Expecting value: line 1 column 1 (char 0)").
Proof. vm_compute. reflexivity. Qed.

(** A valuation report without items is reported as a failure. *)
Example valuation_no_items :
  fst (Valuation.generate_valuation_report Mock.nothing_to_report Mock.initial)
  = inr (failed "Report file was not created or contains no data").
Proof. vm_compute. reflexivity. Qed.

End BoundaryFacts.
(* ===================================================================== *)
(** * 20. The logging helpers: theorems                                   *)
(* ===================================================================== *)

Module LoggingFacts.
Import Logging.

Lemma lower_char_lower c : lower_char (lower_char c) = lower_char c.
Proof.
  destruct c as [[] [] [] [] [] [] [] []]; vm_compute; reflexivity.
Qed.

Lemma lower_lower s : lower (lower s) = lower s.
Proof.
  induction s as [|c s IH]; [done|]. simpl. by rewrite lower_char_lower, IH.
Qed.

Lemma prefix_refl p : String.prefix p p = true.
Proof.
  induction p as [|c p IH]; [done|]. simpl.
  by destruct (ascii_dec c c).
Qed.

Lemma is_in_self p : is_in p p = true.
Proof. destruct p as [|c p]; [done|]. cbn [is_in]. by rewrite prefix_refl. Qed.

Lemma append_cons c s t : String c s +:+ t = String c (s +:+ t).
Proof. reflexivity. Qed.

Lemma append_nil t : "" +:+ t = t.
Proof. reflexivity. Qed.

Lemma prefix_app p post : String.prefix p (p +:+ post) = true.
Proof.
  induction p as [|c p IH]; [rewrite append_nil; by destruct post|].
  rewrite append_cons. cbn [String.prefix].
  by destruct (ascii_dec c c).
Qed.

(** [is_in] finds every occurrence. *)
Lemma is_in_app p pre post : is_in p (pre +:+ p +:+ post) = true.
Proof.
  induction pre as [|c pre IH].
  - rewrite append_nil.
    destruct (p +:+ post) eqn:E; cbn [is_in]; rewrite <- E; by rewrite prefix_app.
  - rewrite append_cons. cbn [is_in]. rewrite IH. by destruct (String.prefix _ _).
Qed.

Lemma safe_headers_In headers k v :
  In (k, v) (safe_headers headers) ->
  In (k, v) headers /\ is_in "authorization" (lower k) = false.
Proof.
  unfold safe_headers. intros Hin.
  apply List.filter_In in Hin as [Hin Hkeep]. split; [done|].
  simpl in Hkeep. by apply negb_true_iff in Hkeep.
Qed.

Lemma length_prefix_of n s : (String.length (prefix_of n s) <= n)%nat.
Proof.
  revert s. induction n as [|n IH]; intros [|c s]; simpl; try lia.
  specialize (IH s). lia.
Qed.

Lemma length_append s t :
  String.length (s +:+ t) = (String.length s + String.length t)%nat.
Proof.
  induction s as [|c s IH]; [done|]. rewrite append_cons. simpl. by rewrite IH.
Qed.

Lemma prefix_of_prefix_of n s : prefix_of n (prefix_of n s +:+ "...") = prefix_of n s
  \/ (String.length s < n)%nat.
Proof.
  revert s. induction n as [|n IH]; intros s; [by left|].
  destruct s as [|c s]; [right; simpl; lia|].
  destruct (IH s) as [E|E]; [left|right; simpl; lia].
  cbn [prefix_of]. rewrite append_cons. cbn [prefix_of]. by rewrite E.
Qed.

(** X16.  No authorization header in the log.  The headers dictionary that
    [log_api_request] logs holds only entries of the headers it was given,
    and none whose name, in lower case, contains "authorization": a header
    named like [Authorization] or [Proxy-Authorization], in any
    capitalisation (of ASCII letters), is left out.  *)
Theorem log_api_request_hides_authorization
        (method url : string) (params headers payload d : list (string * string))
        (k v : string) :
  In (debug "Headers: {}" [ADict d])
     (log_api_request method url params headers payload) ->
  In (k, v) d ->
  In (k, v) headers /\
  forall pre post, lower k <> pre +:+ "authorization" +:+ post.
Proof.
  intros Hc Hd.
  assert (Hsafe : d = safe_headers headers).
  { unfold log_api_request in Hc.
    destruct params, headers, payload; simpl in Hc;
      repeat match goal with
             | H : _ \/ _ |- _ => destruct H
             | H : False |- _ => destruct H
             | H : info _ _ = debug _ _ |- _ => discriminate H
             | H : debug _ _ = debug _ _ |- _ => injection H as H
             | H : _ = _ |- _ => discriminate H
             end; try done. }
  subst d. apply safe_headers_In in Hd as [Hin Hno]. split; [done|].
  intros pre post E. rewrite E, is_in_app in Hno. discriminate.
Qed.

Lemma log_api_request_hides_authorization_witness :
  In ("Accept", "*/*")
     [("AUTHORIZATION", "Bearer x"); ("Proxy-Authorization", "y");
      ("Accept", "*/*")] /\
  forall pre post, lower "Accept" <> pre +:+ "authorization" +:+ post.
Proof.
  apply (log_api_request_hides_authorization "GET" "https://api.example.test/x"
           [] [("AUTHORIZATION", "Bearer x"); ("Proxy-Authorization", "y");
               ("Accept", "*/*")] [] [("Accept", "*/*")] "Accept" "*/*").
  - vm_compute. right. left. reflexivity.
  - left. reflexivity.
Defined.

(** X17.  What [log_api_response] shows of a body.  At a status below 400
    the function makes three calls, none at level [ERROR], and the body
    logged is at most 503 characters long and starts with the first 500
    characters of the response text (all of them when the text is that
    short). *)
Theorem log_api_response_preview (status_code : Z) (text : string)
        (response_headers : list (string * string)) :
  status_code < 400 ->
  exists shown,
    log_api_response status_code text response_headers
    = [info "API Response: {}" [AInt status_code];
       debug "Response Headers: {}" [ADict response_headers];
       debug "Response Content: {}" [AStr shown]]
    /\ (String.length shown <= 503)%nat
    /\ prefix_of 500 shown = prefix_of 500 text.
Proof.
  intros Hlt. exists (content_preview text).
  unfold log_api_response.
  replace (400 <=? status_code) with false by (symmetry; apply Z.leb_gt; lia).
  split; [done|]. unfold content_preview.
  destruct (500 <? String.length text)%nat eqn:E.
  - apply Nat.ltb_lt in E. split.
    + rewrite length_append. pose proof (length_prefix_of 500 text).
      change (String.length "...") with 3%nat. lia.
    + by destruct (prefix_of_prefix_of 500 text) as [H|H]; [|lia].
  - apply Nat.ltb_ge in E. split; [lia|done].
Qed.

Lemma log_api_response_preview_witness :
  exists shown,
    log_api_response 200 "{}" []
    = [info "API Response: {}" [AInt 200];
       debug "Response Headers: {}" [ADict []];
       debug "Response Content: {}" [AStr shown]]
    /\ (String.length shown <= 503)%nat
    /\ prefix_of 500 shown = prefix_of 500 "{}".
Proof. apply (log_api_response_preview 200 "{}" []). lia. Defined.

(** A response of status 400 or more is logged in full, at level [ERROR]. *)
Lemma log_api_response_error status_code text response_headers :
  400 <= status_code ->
  log_api_response status_code text response_headers
  = [info "API Response: {}" [AInt status_code];
     debug "Response Headers: {}" [ADict response_headers];
     error "Error Response: {}" [AStr text]].
Proof.
  intros H. unfold log_api_response.
  by replace (400 <=? status_code) with true by (symmetry; apply Z.leb_le; lia).
Qed.

(** A successful [setup_logger] leaves the logger registered under its
    name, with a handler. *)
Lemma setup_logger_registered fault today name log_folder lvl sys logger sys1 :
  setup_logger fault today name log_folder lvl sys = (inr logger, sys1) ->
  loggers sys1 !! name = Some logger /\ handlers logger <> [] /\
  level logger = lvl.
Proof.
  unfold setup_logger. destruct (fault log_folder); [done|].
  cbn [handlers]. destruct (handlers (getLogger name sys)) eqn:Eh.
  - destruct (fault _); [done|]. intros [= <- <-]. cbn.
    by rewrite lookup_insert_eq.
  - intros [= <- <-]. cbn. by rewrite lookup_insert_eq.
Qed.

(** X18.  [setup_logger] on a name already set up.  After a successful
    call, a later call for the same name, with whatever level, folder and
    date, opens no file and adds no handler: it returns the logger with
    the handlers it had and the new level, so that the handlers keep their
    own levels, and it still creates the folder it is given. *)
Theorem setup_logger_again
        (fault : string -> option Effects.Exn) (today today' : string)
        (name log_folder log_folder' : string) (lvl lvl' : Z)
        (sys sys1 : LogSystem) (logger : Logger) :
  setup_logger fault today name log_folder lvl sys = (inr logger, sys1) ->
  fault log_folder' = None ->
  setup_logger fault today' name log_folder' lvl' sys1
  = (inr (mkLogger lvl' (handlers logger)),
     mkLogSystem (<[name := mkLogger lvl' (handlers logger)]> (loggers sys1))
                 ({[log_folder']} ∪ folders sys1)).
Proof.
  intros Hfirst Hfolder.
  apply setup_logger_registered in Hfirst as (Hreg & Hh & _).
  unfold setup_logger. rewrite Hfolder. unfold getLogger. rewrite Hreg.
  change (default _ (Some logger)) with logger. cbn [handlers].
  by destruct (handlers logger).
Qed.

Lemma setup_logger_again_witness :
  setup_logger (fun _ => None) "20240102" "main" "logs2" DEBUG
    (snd (setup_logger (fun _ => None) "20240101" "main" "logs" INFO
            (mkLogSystem ∅ ∅)))
  = (inr (mkLogger DEBUG
            [mkHandler (FileStream "logs/main_20240101.log") DEBUG
                       detailed_formatter;
             mkHandler Stdout INFO simple_formatter]),
     mkLogSystem
       (<["main" := mkLogger DEBUG
            [mkHandler (FileStream "logs/main_20240101.log") DEBUG
                       detailed_formatter;
             mkHandler Stdout INFO simple_formatter]]>
          (loggers (snd (setup_logger (fun _ => None) "20240101" "main" "logs"
                           INFO (mkLogSystem ∅ ∅)))))
       ({["logs2"]} ∪ folders (snd (setup_logger (fun _ => None) "20240101"
                                     "main" "logs" INFO (mkLogSystem ∅ ∅))))).
Proof.
  apply (setup_logger_again (fun _ => None) "20240101" "20240102" "main"
           "logs" "logs2" INFO DEBUG (mkLogSystem ∅ ∅)
           (snd (setup_logger (fun _ => None) "20240101" "main" "logs" INFO
                   (mkLogSystem ∅ ∅)))
           (mkLogger INFO
              [mkHandler (FileStream "logs/main_20240101.log") DEBUG
                         detailed_formatter;
               mkHandler Stdout INFO simple_formatter])); reflexivity.
Defined.



(** The parents of some names, as [_fixupParents] finds them. *)
Example prefixes_dotted : prefixes "a.b.c" = ["a.b"; "a"].
Proof. reflexivity. Qed.

Example prefixes_two_dots : prefixes "a..b" = ["a."].
Proof. reflexivity. Qed.

Example prefixes_leading_dot : prefixes ".a" = [].
Proof. reflexivity. Qed.

(** A child logger set up after its parent: a call on the child reaches
    its own two handlers and the two of the parent. *)
Example child_logger_four_handlers :
  let sys1 := snd (setup_logger (fun _ => None) "20240101" "vpar" "logs" INFO
                                (mkLogSystem ∅ ∅)) in
  let sys2 := snd (setup_logger (fun _ => None) "20240101" "vpar.child" "logs"
                                INFO sys1) in
  emitted "vpar.child" sys2 (info "API Request: {} {}" [AStr "GET"; AStr "/"])
  = [mkHandler (FileStream "logs/vpar.child_20240101.log") DEBUG
               detailed_formatter;
     mkHandler Stdout INFO simple_formatter;
     mkHandler (FileStream "logs/vpar_20240101.log") DEBUG detailed_formatter;
     mkHandler Stdout INFO simple_formatter].
Proof. vm_compute. reflexivity. Qed.

(** After a second set-up at [DEBUG] of a logger first set up at [INFO],
    a [DEBUG] call reaches the file and not the console. *)
Example debug_after_second_setup :
  let sys1 := snd (setup_logger (fun _ => None) "20240101" "main" "logs" INFO
                                (mkLogSystem ∅ ∅)) in
  let sys2 := snd (setup_logger (fun _ => None) "20240102" "main" "logs" DEBUG
                                sys1) in
  emitted "main" sys2 (debug "Parameters: {}" [ADict []])
  = [mkHandler (FileStream "logs/main_20240101.log") DEBUG detailed_formatter].
Proof. vm_compute. reflexivity. Qed.

(** A logger nobody set up, under an unconfigured root: a warning goes to
    the handler of last resort, an [INFO] call nowhere. *)
Example unconfigured_logger :
  emitted "urllib3" (mkLogSystem ∅ ∅) (warning "Retrying {}" [AStr "x"])
  = [lastResort]
  /\ emitted "urllib3" (mkLogSystem ∅ ∅) (info "Starting {}" [AStr "x"]) = [].
Proof. split; vm_compute; reflexivity. Qed.

End LoggingFacts.
(* ===================================================================== *)
(** * 21. The orchestrator: theorems                                      *)
(* ===================================================================== *)

Module MainFacts.
Import Effects Logging Main.

(** One turn of the loop when the report function returns. *)
Lemma run_report_returns report_name (function : M Result) results ms r s' :
  function (run ms) = (inr r, s') ->
  run_report (report_name, function) results ms
  = (inr (results ++ [mkEntry report_name r]),
     mkMainState s' (calls ms ++ report_calls report_name r)).
Proof.
  intros Hf. unfold run_report, obind, otry, call, log, oret, report_calls.
  cbn [run calls]. rewrite Hf. cbn [run calls].
  destruct (success r); cbn [run calls]; by rewrite <- app_assoc.
Qed.

(** One turn of the loop when the report function raises. *)
Lemma run_report_raises report_name (function : M Result) results ms e s' :
  function (run ms) = (inl e, s') ->
  run_report (report_name, function) results ms
  = (inr (results ++ [mkEntry report_name (failed (str e))]),
     mkMainState s'
       (calls ms ++ [info "Starting {}..." [AStr report_name];
                     exception "{} crashed after {:.2f}s"
                               [AStr report_name; ASeconds]])).
Proof.
  intros Hf. unfold run_report, obind, otry, call, log, oret.
  cbn [run calls]. rewrite Hf. cbn [run calls]. by rewrite <- app_assoc.
Qed.

(** The three pipelines return. *)
Lemma pipeline_returns (body : M Result) s :
  exists r s', try_except body (fun e => ret (failed (str e))) s = (inr r, s').
Proof.
  by destruct (RunFacts.try_except_run body (fun e => failed (str e)) s)
    as (H & _).
Qed.

(** X20.  The loop over the reports.  Whatever the report functions do,
    return a result or raise, the loop of [run_reports_sequentially] does
    not raise and adds one entry for each report, in the order of the list
    and under its name; the entries it was given stay in front. *)
Theorem run_loop_one_entry_each
        (reports : list (string * M Result)) (results : list Entry)
        (ms : MainState) :
  exists entries ms',
    run_loop reports results ms = (inr (results ++ entries), ms')
    /\ name <$> entries = fst <$> reports.
Proof.
  revert results ms. induction reports as [|[report_name function] reports IH];
    intros results ms.
  - exists [], ms. by rewrite app_nil_r.
  - cbn [run_loop]. unfold obind at 1.
    destruct (function (run ms)) as [[e|r] s'] eqn:Hf.
    + rewrite (run_report_raises _ _ _ _ _ _ Hf).
      destruct (IH (results ++ [mkEntry report_name (failed (str e))])
                   (mkMainState s'
                      (calls ms ++ [info "Starting {}..." [AStr report_name];
                                    exception "{} crashed after {:.2f}s"
                                              [AStr report_name; ASeconds]])))
        as (entries & ms' & Hrun & Hnames).
      exists (mkEntry report_name (failed (str e)) :: entries), ms'.
      rewrite Hrun, <- app_assoc. split; [done|]. rewrite !fmap_cons. by rewrite Hnames.
    + rewrite (run_report_returns _ _ _ _ _ _ Hf).
      destruct (IH (results ++ [mkEntry report_name r])
                   (mkMainState s' (calls ms ++ report_calls report_name r)))
        as (entries & ms' & Hrun & Hnames).
      exists (mkEntry report_name r :: entries), ms'.
      rewrite Hrun, <- app_assoc. split; [done|]. rewrite !fmap_cons. by rewrite Hnames.
Qed.

(** The sequential run, pipeline by pipeline. *)
Lemma sequential_run_eq (w : World) (ms : MainState) :
  exists r1 s1 r2 s2 r3 s3,
    Payment.generate_payment_report w (run ms) = (inr r1, s1) /\
    Debt.generate_debt_report w s1 = (inr r2, s2) /\
    Valuation.generate_valuation_report w s2 = (inr r3, s3) /\
    run_reports_sequentially w ms
    = (inr [mkEntry "Payment Report" r1; mkEntry "Debt Report" r2;
            mkEntry "Valuation Report" r3],
       mkMainState s3
         (calls ms
          ++ [info "Starting {}" [AStr "run_reports_sequentially"]]
          ++ report_calls "Payment Report" r1
          ++ report_calls "Debt Report" r2
          ++ report_calls "Valuation Report" r3
          ++ [info "Completed {} in {:.2f}s"
                   [AStr "run_reports_sequentially"; ASeconds]])).
Proof.
  destruct (pipeline_returns (Payment.body w) (run ms)) as (r1 & s1 & E1).
  destruct (pipeline_returns (Debt.body w) s1) as (r2 & s2 & E2).
  destruct (pipeline_returns (Valuation.body w) s2) as (r3 & s3 & E3).
  fold (Payment.generate_payment_report w) in E1.
  fold (Debt.generate_debt_report w) in E2.
  fold (Valuation.generate_valuation_report w) in E3.
  exists r1, s1, r2, s2, r3, s3. do 3 (split; [done|]).
  unfold run_reports_sequentially, LoggerContext, reports.
  unfold obind at 1. unfold log at 1. unfold obind at 1. unfold oret at 1.
  cbn [run_loop]. unfold obind at 1.
  erewrite run_report_returns; [|cbn [run]; exact E1].
  unfold obind at 1.
  erewrite run_report_returns; [|cbn [run]; exact E2].
  unfold obind at 1.
  erewrite run_report_returns; [|cbn [run]; exact E3].
  unfold oret at 1. unfold obind, log, oret. cbn [run calls app].
  by rewrite <- !app_assoc.
Qed.

(** X21.  [run_reports_sequentially].  The three pipelines run in the order
    payment, debt, valuation, each from the state the one before left; the
    function returns their three results under the names of the reports,
    and never takes the branch for a report that crashes: the calls on the
    logger are the two of [LoggerContext] around two calls for each
    report. *)
Theorem sequential_run (w : World) (ms : MainState) o1 s1 o2 s2 o3 s3 :
  Payment.generate_payment_report w (run ms) = (o1, s1) ->
  Debt.generate_debt_report w s1 = (o2, s2) ->
  Valuation.generate_valuation_report w s2 = (o3, s3) ->
  exists r1 r2 r3,
    o1 = inr r1 /\ o2 = inr r2 /\ o3 = inr r3 /\
    run_reports_sequentially w ms
    = (inr [mkEntry "Payment Report" r1; mkEntry "Debt Report" r2;
            mkEntry "Valuation Report" r3],
       mkMainState s3
         (calls ms
          ++ [info "Starting {}" [AStr "run_reports_sequentially"]]
          ++ report_calls "Payment Report" r1
          ++ report_calls "Debt Report" r2
          ++ report_calls "Valuation Report" r3
          ++ [info "Completed {} in {:.2f}s"
                   [AStr "run_reports_sequentially"; ASeconds]])).
Proof.
  intros H1 H2 H3.
  destruct (sequential_run_eq w ms)
    as (r1 & s1' & r2 & s2' & r3 & s3' & E1 & E2 & E3 & Hrun).
  rewrite H1 in E1. injection E1 as -> <-.
  rewrite H2 in E2. injection E2 as -> <-.
  rewrite H3 in E3. injection E3 as -> <-.
  by exists r1, r2, r3.
Qed.

(** Nothing is reachable: three failures, no crash, six calls between the
    two of the context. *)
Lemma sequential_run_witness :
  exists r1 r2 r3,
    @inr Exn Result (failed "Connection refused") = inr r1 /\
    @inr Exn Result (failed "Connection refused") = inr r2 /\
    @inr Exn Result (failed "Connection refused") = inr r3 /\
    run_reports_sequentially Mock.offline (mkMainState Mock.initial [])
    = (inr [mkEntry "Payment Report" r1; mkEntry "Debt Report" r2;
            mkEntry "Valuation Report" r3],
       mkMainState
         (snd (Valuation.generate_valuation_report Mock.offline
            (snd (Debt.generate_debt_report Mock.offline
               (snd (Payment.generate_payment_report Mock.offline
                       Mock.initial))))))
         ([]
          ++ [info "Starting {}" [AStr "run_reports_sequentially"]]
          ++ report_calls "Payment Report" r1
          ++ report_calls "Debt Report" r2
          ++ report_calls "Valuation Report" r3
          ++ [info "Completed {} in {:.2f}s"
                   [AStr "run_reports_sequentially"; ASeconds]])).
Proof.
  apply (sequential_run Mock.offline (mkMainState Mock.initial [])
           (inr (failed "Connection refused"))
           (snd (Payment.generate_payment_report Mock.offline Mock.initial))
           (inr (failed "Connection refused"))
           (snd (Debt.generate_debt_report Mock.offline
              (snd (Payment.generate_payment_report Mock.offline
                      Mock.initial))))
           (inr (failed "Connection refused"))
           (snd (Valuation.generate_valuation_report Mock.offline
              (snd (Debt.generate_debt_report Mock.offline
                 (snd (Payment.generate_payment_report Mock.offline
                         Mock.initial))))))); vm_compute; reflexivity.
Defined.

(** The loop of [print_summary], with its counters. *)
Lemma summary_loop_run results : forall successful failed_ total_records ms,
  exists l,
    summary_loop results successful failed_ total_records ms
    = (inr ((successful + successes results)%nat,
            (failed_ + failures results)%nat,
            total_records + records_total results),
       mkMainState (run ms) (calls ms ++ l))
    /\ length (errors l) = failures results
    /\ length l = (2 * successes results + failures results)%nat
    /\ Forall (fun c => exc_info c = false) l.
Proof.
  induction results as [|item results IH]; intros a b t ms.
  - exists []. unfold successes, failures. simpl.
    rewrite !Nat.add_0_r, Z.add_0_r, app_nil_r. by destruct ms.
  - cbn [summary_loop]. unfold successes, failures in *.
    cbn [List.filter records_total].
    destruct (success (result item)) eqn:Hs; cbn [negb].
    + unfold obind at 1. unfold log at 1. unfold obind at 1. unfold log at 1.
      cbn [run calls].
      edestruct IH as (l & Hrun & Herr & Hlen & Hpl). rewrite Hrun.
      cbn [run calls].
      eexists (_ :: _ :: l). split; [|split; [|split]].
      * cbn [length]. rewrite Nat.add_succ_r, Z.add_assoc.
        by rewrite <- !app_assoc.
      * unfold errors in *. cbn [List.filter levelno info]. exact Herr.
      * cbn [length]. lia.
      * by repeat (constructor; [done|]).
    + unfold obind at 1. unfold log at 1. cbn [run calls].
      edestruct IH as (l & Hrun & Herr & Hlen & Hpl). rewrite Hrun.
      cbn [run calls].
      eexists (_ :: l). split; [|split; [|split]].
      * cbn [length]. rewrite Nat.add_succ_r, Z.add_0_l.
        by rewrite <- !app_assoc.
      * unfold errors in *. cbn [List.filter levelno error].
        change (ERROR =? ERROR) with true. cbn [length]. by rewrite Herr.
      * cbn [length]. lia.
      * by constructor.
Qed.

Lemma successes_failures results :
  (successes results + failures results)%nat = length results.
Proof.
  unfold successes, failures. induction results as [|item results IH]; [done|].
  cbn [List.filter length]. destruct (success (result item)); cbn [negb length]; lia.
Qed.

(** The calls of [print_summary]. *)
Lemma print_summary_eq (w : World) (results : list Entry) (ms : MainState) :
  exists l,
    print_summary w results ms
    = (inr (successes results, failures results, records_total results),
       mkMainState (run ms) (calls ms ++ l))
    /\ length (errors l) = failures results
    /\ length l = (9 + 2 * successes results + failures results)%nat
    /\ (successes results + failures results)%nat = length results
    /\ Forall (fun c => exc_info c = false) l.
Proof.
  unfold print_summary.
  do 3 (unfold obind at 1; unfold log at 1; cbn [run calls]).
  unfold obind at 1.
  edestruct (summary_loop_run results 0 0 0) as (l & Hrun & Herr & Hlen & Hpl).
  rewrite Hrun. cbn [Nat.add]. rewrite Z.add_0_l.
  unfold obind, log, oret. cbn [run calls].
  eexists (_ :: _ :: _ :: l ++ [_; _; _; _; _; _]).
  split; [|split; [|split; [|split]]].
  - f_equal. f_equal. rewrite <- !app_assoc. reflexivity.
  - unfold errors in *. cbn [List.filter levelno info].
    change (ERROR =? ERROR) with true. change (INFO =? ERROR) with false.
    cbn iota. rewrite List.filter_app. rewrite length_app, Herr.
    cbn [List.filter levelno info]. change (INFO =? ERROR) with false.
    cbn [length]. lia.
  - cbn [length]. rewrite length_app, Hlen. cbn [length]. lia.
  - apply successes_failures.
  - repeat (constructor; [done|]). rewrite Forall_app. split; [done|].
    by repeat constructor.
Qed.

(** X22.  [print_summary].  The function does not raise and leaves the
    state of the pipelines alone.  It returns the number of results with
    [success] true, the number of the others, and the sum of the [records]
    of the successful ones (0 for a result without the key); the two
    numbers add up to the number of results.  The calls it makes on the
    logger include one at level [ERROR] for each failed result and no
    other, and there are nine calls besides two for each success and one
    for each failure. *)
Theorem print_summary_counts (w : World) (results : list Entry)
        (ms : MainState) :
  exists l,
    print_summary w results ms
    = (inr (successes results, failures results, records_total results),
       mkMainState (run ms) (calls ms ++ l))
    /\ length (errors l) = failures results
    /\ length l = (9 + 2 * successes results + failures results)%nat
    /\ (successes results + failures results)%nat = length results.
Proof.
  destruct (print_summary_eq w results ms) as (l & H1 & H2 & H3 & H4 & _).
  by exists l.
Qed.

Lemma report_calls_plain report_name r :
  Forall (fun c => exc_info c = false) (report_calls report_name r).
Proof. unfold report_calls. destruct (success r); by repeat constructor. Qed.

(** X23.  The main block.  From its first call to its last the block
    raises nothing and never logs [Fatal error occurred]: after five
    opening calls it runs the three pipelines in sequence, prints the
    summary of their three results, and ends with the call that tells the
    outcome, [All reports generated successfully!] when none of the three
    results failed and the warning with the number of failed reports
    otherwise.  The branch of the parallel run is not taken. *)
Theorem main_run (w : World) (parallel : Z -> O (list Entry)) (cwd : string)
        (ms : MainState) :
  exists results ms1 l,
    run_reports_sequentially w
      (mkMainState (run ms) (calls ms ++ opening_calls w cwd))
    = (inr results, ms1)
    /\ length results = 3%nat
    /\ main w parallel cwd ms
       = (inr tt,
          mkMainState (run ms1)
            (calls ms1 ++ l
             ++ [info "All operations completed in {:.2f}s" [ASeconds];
                 verdict results]))
    /\ length (errors l) = failures results
    /\ (Forall (fun c => exc_info c = false) (calls ms) ->
        Forall (fun c => exc_info c = false) (calls ms1 ++ l)).
Proof.
  destruct (sequential_run_eq w
              (mkMainState (run ms) (calls ms ++ opening_calls w cwd)))
    as (r1 & s1 & r2 & s2 & r3 & s3 & _ & _ & _ & Hrun).
  cbn [run calls] in Hrun.
  destruct (print_summary_eq w
              [mkEntry "Payment Report" r1; mkEntry "Debt Report" r2;
               mkEntry "Valuation Report" r3]
              (mkMainState s3
                 ((calls ms ++ opening_calls w cwd)
                  ++ [info "Starting {}" [AStr "run_reports_sequentially"]]
                  ++ report_calls "Payment Report" r1
                  ++ report_calls "Debt Report" r2
                  ++ report_calls "Valuation Report" r3
                  ++ [info "Completed {} in {:.2f}s"
                           [AStr "run_reports_sequentially"; ASeconds]])))
    as (l & Hsum & Herr & _ & _ & Hplain).
  eexists _, _, l. split; [exact Hrun|]. split; [done|].
  split; [|split; [exact Herr|]].
  - unfold main, otry.
    do 5 (unfold obind at 1; unfold log at 1; cbn [run calls]).
    change (String.eqb DEFAULT_EXECUTION_METHOD "2") with false.
    change (String.eqb DEFAULT_EXECUTION_METHOD "1") with true.
    cbv iota. unfold obind at 1.
    replace (((((calls ms
                 ++ [info "Nexmetro Chatham Financial Report Generator Starting" []])
                ++ [info "Working directory: {}" [AStr cwd]])
               ++ [info "Output directory: {}"
                        [AStr (Effects.abspath w "Generated Files")]])
              ++ [info "Log directory: {}" [AStr (Effects.abspath w "logs")]])
             ++ [info "Using execution method: {} ({})"
                      [AStr DEFAULT_EXECUTION_METHOD; AStr "Sequential"]])
      with (calls ms ++ opening_calls w cwd)
      by (unfold opening_calls; by rewrite <- !app_assoc).
    rewrite Hrun. cbv beta iota. unfold obind at 1. rewrite Hsum.
    cbv beta iota. unfold obind at 1. unfold log at 1. cbn [run calls].
    unfold verdict.
    destruct (Nat.eqb (failures _) 0); unfold log; cbn [run calls];
      by rewrite <- !app_assoc.
  - intros Hms. cbn [calls] in *. rewrite !Forall_app in *.
    pose proof (report_calls_plain "Payment Report" r1).
    pose proof (report_calls_plain "Debt Report" r2).
    pose proof (report_calls_plain "Valuation Report" r3).
    repeat split; try done; by repeat constructor.
Qed.

Lemma main_run_witness :
  exists results ms1 l,
    run_reports_sequentially Mock.offline
      (mkMainState (run (mkMainState Mock.initial []))
         (calls (mkMainState Mock.initial [])
          ++ opening_calls Mock.offline "/srv"))
    = (inr results, ms1)
    /\ length results = 3%nat
    /\ main Mock.offline (fun _ => oret []) "/srv" (mkMainState Mock.initial [])
       = (inr tt,
          mkMainState (run ms1)
            (calls ms1 ++ l
             ++ [info "All operations completed in {:.2f}s" [ASeconds];
                 verdict results]))
    /\ length (errors l) = failures results
    /\ (Forall (fun c => exc_info c = false)
               (calls (mkMainState Mock.initial [])) ->
        Forall (fun c => exc_info c = false) (calls ms1 ++ l)).
Proof.
  apply (main_run Mock.offline (fun _ => oret []) "/srv"
           (mkMainState Mock.initial [])).
Defined.

End MainFacts.
(* ===================================================================== *)
(** * 22. Protocol A: exceptions inside the retry loop                    *)
(* ===================================================================== *)

Module DebtFailures.
Import Effects Effects.Notations Observe DebtSpec PathSpec RunFacts RunMore.
Import Debt.

(** X24.  An exception of the submission.  [jobid()] catches nothing: when
    its POST raises, or the 200 answer is not JSON, the exception reaches
    the handler of the debt pipeline, which returns [success = False] with
    the text of the exception after that single request. *)
Theorem debt_submission_raises w s e :
  submission_raises w (requests_made (log s)) e ->
  jobid w s
  = (inl e, logged s [EvRequest (queue_request w)
                                (http w (requests_made (log s)) (queue_request w))])
  /\ generate_debt_report w s
     = (inr (failed (str e)),
        logged s [EvRequest (queue_request w)
                            (http w (requests_made (log s)) (queue_request w))]).
Proof.
  intros Hraise.
  assert (Hjob : jobid w s
                 = (inl e, logged s [EvRequest (queue_request w)
                      (http w (requests_made (log s)) (queue_request w))])).
  { unfold jobid, requests_post.
    destruct Hraise as [Hresp | (resp & Hresp & Hcode & Hjson)].
    - erewrite bind_inl; [reflexivity|].
      rewrite send_answer. fold (queue_request w). rewrite emit_logged.
      by rewrite Hresp at 1.
    - erewrite bind_inr;
        [|rewrite send_answer; fold (queue_request w); rewrite Hresp at 1;
          reflexivity].
      rewrite emit_logged, Hcode. change (200 =? 200)%Z with true. cbv iota.
      erewrite bind_inl; [reflexivity|]. unfold json. by rewrite lift_run, Hjson. }
  split; [done|].
  unfold generate_debt_report, try_except, body.
  erewrite bind_inl; [reflexivity|exact Hjob].
Qed.

Lemma debt_submission_raises_witness :
  jobid (Scenes.scripted [Scenes.ok "<html>"]) Mock.initial
  = (inl (mkExn "JSONDecodeError" "Expecting value: line 1 column 1 (char 0)"),
     logged Mock.initial
       [EvRequest (queue_request (Scenes.scripted [Scenes.ok "<html>"]))
                  (http (Scenes.scripted [Scenes.ok "<html>"])
                        (requests_made (log Mock.initial))
                        (queue_request (Scenes.scripted [Scenes.ok "<html>"])))])
  /\ generate_debt_report (Scenes.scripted [Scenes.ok "<html>"]) Mock.initial
     = (inr (failed (str (mkExn "JSONDecodeError"
                                "Expecting value: line 1 column 1 (char 0)"))),
        logged Mock.initial
          [EvRequest (queue_request (Scenes.scripted [Scenes.ok "<html>"]))
                     (http (Scenes.scripted [Scenes.ok "<html>"])
                           (requests_made (log Mock.initial))
                           (queue_request (Scenes.scripted [Scenes.ok "<html>"])))]).
Proof.
  apply (debt_submission_raises (Scenes.scripted [Scenes.ok "<html>"])
           Mock.initial
           (mkExn "JSONDecodeError" "Expecting value: line 1 column 1 (char 0)")).
  right. eexists. split; [reflexivity|]. split; reflexivity.
Defined.

(** The run up to the GET that follows [k] refusals. *)
Lemma debt_upto w s job_id k :
  job_queued w (requests_made (log s)) job_id ->
  (k < 5)%nat ->
  failing w (report_request w job_id) (S (requests_made (log s))) k ->
  body w s
  = match http w (S (requests_made (log s)) + k) (report_request w job_id) with
    | inl e => (inl e, logged s (debt_trace w s job_id k))
    | inr response =>
        if (status_code response =? 200)%Z then
          bind (bind (parse_and_export w response) (fun df => ret (Some df)))
               (fun outcome =>
                  match outcome with
                  | Some df =>
                      present <- path_exists output_path ;;
                      if present then
                        size <- getsize w output_path ;;
                        ret (succeeded (abspath w output_path) size (len_df df))
                      else ret (failed "Failed to retrieve data after multiple attempts")
                  | None => ret (failed "Failed to retrieve data after multiple attempts")
                  end)
               (logged s (debt_trace w s job_id k))
        else body w s
    end.
Proof.
  intros Hq Hk Hfail.
  pose proof (DebtFacts.jobid_queued _ _ _ Hq) as Hjob.
  destruct Hq as (_ & _ & _ & _ & _ & _ & Hne).
  set (s1 := logged s [EvRequest (queue_request w)
                         (http w (requests_made (log s)) (queue_request w))])
    in *.
  assert (Hn1 : requests_made (log s1) = S (requests_made (log s))).
  { unfold s1. rewrite requests_made_logged. unfold requests_made. simpl. lia. }
  set (s2 := logged s1 (attempts w (report_request w job_id)
                                 (requests_made (log s1)) k 30)).
  assert (Hn2 : requests_made (log s2) = (S (requests_made (log s)) + k)%nat).
  { unfold s2. by rewrite requests_made_logged, attempts_requests, Hn1. }
  assert (Hs3 : forall a,
             http w (S (requests_made (log s)) + k) (report_request w job_id) = a ->
             logged s2 [EvRequest (report_request w job_id) a]
             = logged s (debt_trace w s job_id k)).
  { intros a <-. unfold s2. rewrite Hn1. unfold s1, debt_trace.
    by rewrite !logged_logged. }
  destruct (http w (S (requests_made (log s)) + k) (report_request w job_id))
    as [e|response] eqn:Hresp.
  - unfold body. erewrite bind_inr; [|exact Hjob].
    destruct job_id as [|c job_id]; [done|]. fold s1.
    replace max_retries with (k + S (4 - k))%nat by (unfold max_retries; lia).
    erewrite bind_inl; [reflexivity|].
    rewrite DebtPaths.retry_loop_skip by (by rewrite Hn1). fold s2.
    rewrite DebtPaths.retry_step. cbv zeta. rewrite Hn2, Hresp.
    by rewrite (Hs3 _ eq_refl).
  - destruct (status_code response =? 200)%Z eqn:Hcode; [|done].
    unfold body at 1. erewrite bind_inr; [|exact Hjob].
    destruct job_id as [|c job_id]; [done|]. fold s1.
    replace max_retries with (k + S (4 - k))%nat by (unfold max_retries; lia).
    unfold bind at 1.
    rewrite DebtPaths.retry_loop_skip by (by rewrite Hn1). fold s2.
    rewrite DebtPaths.retry_step. cbv zeta. rewrite Hn2, Hresp, Hcode.
    rewrite (Hs3 _ eq_refl). reflexivity.
Qed.

Lemma debt_trace_counts w s job_id k :
  gets (debt_trace w s job_id k) = replicate (S k) (report_request w job_id)
  /\ sleeps (debt_trace w s job_id k) = replicate k 30
  /\ writes (debt_trace w s job_id k) = [].
Proof.
  unfold debt_trace. cbv zeta.
  rewrite !gets_app, !sleeps_app, !PaymentFacts.writes_app.
  rewrite attempts_gets by done. rewrite attempts_sleeps, attempts_writes.
  split; [|split].
  - change (gets [EvRequest (queue_request w) _]) with (@nil Request).
    change (gets [EvRequest (report_request w job_id) _])
      with [report_request w job_id].
    rewrite app_nil_l.
    replace (S k) with (k + 1)%nat by lia. by rewrite replicate_add.
  - change (sleeps [EvRequest (queue_request w) _]) with (@nil Z).
    change (sleeps [EvRequest (report_request w job_id) _]) with (@nil Z).
    by rewrite app_nil_l, app_nil_r.
  - done.
Qed.

(** X25.  An exception inside the retry loop ends the run.  Once the job
    is queued, if the report GET is refused [k < 5] times and the next one
    raises, in [requests] or in the XML parser on its 200 answer, the debt
    pipeline returns [success = False] with the text of that exception: it
    does not try again although attempts are left, having sent [k + 1]
    GETs and slept [k] times, and it writes no file. *)
Theorem debt_report_raises w s job_id k e :
  job_queued w (requests_made (log s)) job_id ->
  (k < 5)%nat ->
  failing w (report_request w job_id) (S (requests_made (log s))) k ->
  report_raises w (S (requests_made (log s)) + k) job_id e ->
  generate_debt_report w s
  = (inr (failed (str e)), logged s (debt_trace w s job_id k))
  /\ gets (debt_trace w s job_id k) = replicate (S k) (report_request w job_id)
  /\ sleeps (debt_trace w s job_id k) = replicate k 30
  /\ writes (debt_trace w s job_id k) = []
  /\ files (logged s (debt_trace w s job_id k)) = files s.
Proof.
  intros Hq Hk Hfail Hraise.
  split; [|by pose proof (debt_trace_counts w s job_id k) as (? & ? & ?)].
  unfold generate_debt_report, try_except.
  rewrite (debt_upto _ _ _ _ Hq Hk Hfail).
  destruct Hraise as [Hresp | (resp & Hresp & Hcode & Hparse)]; rewrite Hresp.
  - reflexivity.
  - rewrite Hcode. change (200 =? 200)%Z with true. cbv iota.
    erewrite bind_inl; [reflexivity|].
    erewrite bind_inl; [reflexivity|].
    unfold parse_and_export.
    erewrite bind_inl; [reflexivity|]. by rewrite lift_run, Hparse.
Qed.

Lemma debt_report_raises_witness :
  generate_debt_report
    (Scenes.scripted [Scenes.ok "job"; Scenes.status 503 ""; Scenes.ok "<html>"])
    Mock.initial
  = (inr (failed (str (mkExn "ParseError" "syntax error: line 1, column 0"))),
     logged Mock.initial
       (debt_trace
          (Scenes.scripted [Scenes.ok "job"; Scenes.status 503 "";
                            Scenes.ok "<html>"]) Mock.initial "J1" 1))
  /\ gets (debt_trace
             (Scenes.scripted [Scenes.ok "job"; Scenes.status 503 "";
                               Scenes.ok "<html>"]) Mock.initial "J1" 1)
     = replicate 2
         (report_request
            (Scenes.scripted [Scenes.ok "job"; Scenes.status 503 "";
                              Scenes.ok "<html>"]) "J1")
  /\ sleeps (debt_trace
               (Scenes.scripted [Scenes.ok "job"; Scenes.status 503 "";
                                 Scenes.ok "<html>"]) Mock.initial "J1" 1)
     = replicate 1 30
  /\ writes (debt_trace
               (Scenes.scripted [Scenes.ok "job"; Scenes.status 503 "";
                                 Scenes.ok "<html>"]) Mock.initial "J1" 1)
     = []
  /\ files (logged Mock.initial
              (debt_trace
                 (Scenes.scripted [Scenes.ok "job"; Scenes.status 503 "";
                                   Scenes.ok "<html>"]) Mock.initial "J1" 1))
     = files Mock.initial.
Proof.
  apply (debt_report_raises
           (Scenes.scripted [Scenes.ok "job"; Scenes.status 503 "";
                             Scenes.ok "<html>"])
           Mock.initial "J1" 1
           (mkExn "ParseError" "syntax error: line 1, column 0")).
  - eexists _, _. repeat split; try reflexivity. discriminate.
  - lia.
  - intros i Hi. assert (i = 0)%nat as -> by lia.
    eexists. split; [reflexivity|]. simpl. lia.
  - right. eexists. split; [reflexivity|]. split; reflexivity.
Defined.

Lemma row_of_RunDate (d : gmap string (option string)) :
  is_Some (d !! "RunDate") -> is_Some (row_of d !! "RunDate").
Proof.
  intros [v Hv]. unfold row_of. rewrite lookup_fmap, Hv. by eexists.
Qed.

(** X26.  A loan field named [RunDate] makes the debt export fail.  When
    the XML of the report holds a loan one of whose leaf fields is named
    [RunDate], inserting the timestamp column raises [ValueError]: the
    pipeline returns [success = False] with the error "cannot insert
    RunDate, already exists", writes no file and sends no further
    request. *)
Theorem debt_RunDate_collision w s job_id k resp root loan :
  job_queued w (requests_made (log s)) job_id ->
  (k < 5)%nat ->
  failing w (report_request w job_id) (S (requests_made (log s))) k ->
  http w (S (requests_made (log s)) + k) (report_request w job_id) = inr resp ->
  status_code resp = 200 ->
  fromstring w (text resp) = inr root ->
  loan ∈ findall_loans root ->
  is_Some (Xml.flatten_xml loan "Loan" !! "RunDate") ->
  generate_debt_report w s
  = (inr (failed "cannot insert RunDate, already exists"),
     logged s (debt_trace w s job_id k))
  /\ writes (debt_trace w s job_id k) = []
  /\ files (logged s (debt_trace w s job_id k)) = files s.
Proof.
  intros Hq Hk Hfail Hresp Hcode Hroot Hloan Hkey.
  split; [|by pose proof (debt_trace_counts w s job_id k) as (? & ? & ?)].
  unfold generate_debt_report, try_except.
  rewrite (debt_upto _ _ _ _ Hq Hk Hfail), Hresp, Hcode.
  change (200 =? 200)%Z with true. cbv iota.
  assert (Htaken : "RunDate" ∈ columns
            (DataFrame_of (row_of <$> ((fun loan => Xml.flatten_xml loan "Loan")
                                         <$> findall_loans root)))).
  { apply (PaymentPaths.RunDate_taken _ (row_of (Xml.flatten_xml loan "Loan"))).
    - apply list_elem_of_fmap. eexists. split; [reflexivity|].
      apply list_elem_of_fmap. by exists loan.
    - by apply row_of_RunDate. }
  erewrite bind_inl; cycle 1.
  { erewrite bind_inl; [reflexivity|].
    unfold parse_and_export.
    erewrite bind_inr; [|by rewrite lift_run, Hroot].
    erewrite bind_inr; [|reflexivity].
    erewrite bind_inl; [reflexivity|].
    unfold df_insert.
    rewrite (bool_decide_eq_true_2 _ Htaken). reflexivity. }
  reflexivity.
Qed.

Lemma debt_RunDate_collision_witness :
  generate_debt_report
    (Scenes.scripted [Scenes.ok "job"; Scenes.ok "<Stamped/>"]) Mock.initial
  = (inr (failed "cannot insert RunDate, already exists"),
     logged Mock.initial
       (debt_trace (Scenes.scripted [Scenes.ok "job"; Scenes.ok "<Stamped/>"])
                   Mock.initial "J1" 0))
  /\ writes (debt_trace
               (Scenes.scripted [Scenes.ok "job"; Scenes.ok "<Stamped/>"])
               Mock.initial "J1" 0) = []
  /\ files (logged Mock.initial
              (debt_trace
                 (Scenes.scripted [Scenes.ok "job"; Scenes.ok "<Stamped/>"])
                 Mock.initial "J1" 0))
     = files Mock.initial.
Proof.
  apply (debt_RunDate_collision
           (Scenes.scripted [Scenes.ok "job"; Scenes.ok "<Stamped/>"])
           Mock.initial "J1" 0 (mkResponse 200 "<Stamped/>")
           Scenes.stamped_loan
           (Xml.Elem (Xml.qualified Debt.ns_uri "Loan") None
              [Xml.Elem (Xml.qualified Debt.ns_uri "Terms") None
                 [Xml.Elem (Xml.qualified Debt.ns_uri "RunDate")
                           (Some "2020-01-01") []]])).
  - eexists _, _. repeat split; try reflexivity. discriminate.
  - lia.
  - intros i Hi. lia.
  - reflexivity.
  - reflexivity.
  - reflexivity.
  - vm_compute. left.
  - vm_compute. by eexists.
Defined.

End DebtFailures.
(* ===================================================================== *)
(** * 23. The flattener: what the dictionary holds                        *)
(* ===================================================================== *)

Module XmlMore.
Import Xml.

(** The pieces of a split do not contain the separator. *)
Lemma split_pieces sep s :
  Forall (fun piece => contains sep piece = false) (split sep s).
Proof.
  induction s as [|c s IH]; simpl; [by repeat constructor|].
  destruct (Ascii.eqb c sep) eqn:E.
  - by constructor.
  - destruct (split sep s) as [|piece pieces].
    + repeat constructor. simpl. by rewrite E.
    + inversion IH as [|? ? Hp Hps]; subst.
      constructor; [|done]. simpl. by rewrite E.
Qed.

Lemma local_tag_clean t : contains rbrace (local_tag t) = false.
Proof.
  unfold local_tag. destruct (contains rbrace t) eqn:E; [|done].
  pose proof (split_pieces rbrace t) as H.
  destruct (split rbrace t) as [|p0 [|p1 ps]]; [done|done|].
  simpl. inversion H as [|? ? _ H']; subst. by inversion H'.
Qed.

(** The keys of the leaves are tags cut by [local_tag]. *)
Lemma leaves_keys e k :
  k ∈ (leaves e).*1 -> exists t, k = local_tag t.
Proof.
  induction e as [t x cs IH] using XmlFacts.Element_induction.
  simpl. induction IH as [|c cs Hc _ IHcs]; simpl; [by intros ?%elem_of_nil|].
  rewrite fmap_app, elem_of_app. intros [H|H]; [|by apply IHcs].
  destruct (has_children c); [by apply Hc|].
  simpl in H. apply list_elem_of_singleton in H. by eexists.
Qed.

(** What a run of assignments leaves in the dictionary. *)
Lemma fold_put_lookup l : forall d k v,
  fold_left put l d !! k = Some v -> (k, v) ∈ l \/ d !! k = Some v.
Proof.
  induction l as [|[k' v'] l IH]; intros d k v H; simpl in *; [by right|].
  apply IH in H as [H|H]; [left; by right|].
  unfold put in H. simpl in H.
  destruct (decide (k' = k)) as [->|Hne].
  - rewrite lookup_insert_eq in H. injection H as ->. left. by left.
  - rewrite lookup_insert_ne in H by done. by right.
Qed.

Lemma fold_put_dom l : forall d k,
  is_Some (fold_left put l d !! k) <-> k ∈ l.*1 \/ is_Some (d !! k).
Proof.
  induction l as [|[k' v'] l IH]; intros d k; simpl.
  - rewrite elem_of_nil. tauto.
  - rewrite IH. unfold put. simpl. rewrite elem_of_cons.
    destruct (decide (k = k')) as [->|Hne].
    + rewrite lookup_insert_eq. split; [by left; left|]. intros _. right.
      by eexists.
    + rewrite lookup_insert_ne by done. tauto.
Qed.

(** X27.  The dictionary holds leaves and nothing else.  The result of
    [flatten_xml] does not depend on the [parent_tag] argument.  Each of
    its entries is a leaf below the element, at any depth: the key is the
    tag of an element without children, cut of its namespace part, and the
    value is the text of that element; and every such key is in the
    dictionary.  The tag and the text of an element that has children are
    not. *)
Theorem flatten_entries_are_leaves e p k :
  (forall q, flatten_xml e q = flatten_xml e p)
  /\ (forall v, flatten_xml e p !! k = Some v -> (k, v) ∈ leaves e)
  /\ (is_Some (flatten_xml e p !! k) <-> k ∈ (leaves e).*1).
Proof.
  split; [|split].
  - intros q. apply XmlFacts.flatten_xml_parent_tag.
  - intros v H. rewrite XmlFacts.flatten_xml_leaves in H.
    apply fold_put_lookup in H as [H|H]; [done|].
    by rewrite lookup_empty in H.
  - rewrite XmlFacts.flatten_xml_leaves, fold_put_dom, lookup_empty.
    split; [intros [H|[? H]]; [done|done]|by left].
Qed.

Lemma flatten_entries_are_leaves_witness :
  ("Id", Some "9") ∈ leaves loan_with_terms
  /\ "Id" ∈ (leaves loan_with_terms).*1.
Proof.
  destruct (flatten_entries_are_leaves loan_with_terms "Loan" "Id")
    as (_ & Hentry & Hkey).
  split.
  - apply Hentry. vm_compute. reflexivity.
  - apply Hkey. vm_compute. by eexists.
Defined.

(** The inner element [Terms] of the example is not a key. *)
Example flatten_no_inner_key :
  flatten_xml loan_with_terms "Loan" !! "Terms" = None.
Proof. vm_compute. reflexivity. Qed.

(** X28.  No key contains a closing brace.  Whatever the tags of the
    document, a key of the flattened dictionary has no ['}'] in it: the key
    is the tag itself when the tag has none, and else what stands between
    the first ['}'] of the tag and the next one. *)
Theorem flatten_keys_without_brace e p k :
  is_Some (flatten_xml e p !! k) -> contains rbrace k = false.
Proof.
  intros H. rewrite XmlFacts.flatten_xml_leaves, fold_put_dom, lookup_empty in H.
  destruct H as [H|[? H]]; [|done].
  apply leaves_keys in H as [t ->]. apply local_tag_clean.
Qed.

Lemma flatten_keys_without_brace_witness : contains rbrace "Rate" = false.
Proof.
  apply (flatten_keys_without_brace loan_with_terms "Loan" "Rate").
  vm_compute. by eexists.
Defined.

(** A tag with two closing braces: the key is the piece between them. *)
Example local_tag_two_braces : local_tag "{a}b}Foo" = "b".
Proof. reflexivity. Qed.

End XmlMore.
